(** * WhatsApp book delivery: the order lifecycle orchestrator

    A shallow embedding of the Supabase edge functions of the repository
    (create-order, compute-weights, razorpay-webhook, delhivery-webhook,
    whatsapp-webhook and create-shipment) as functions over an explicit
    store, with the school code generator and the status counts of the
    admin panel, followed by the properties of the order lifecycle that hold
    of them.

    Conventions of the embedding.
    - A table is the list of its rows; the conversation table, whose primary
      key is the phone, is a finite map.  A JS object used as a dictionary
      (settingsMap, the conversation context) is a finite map as well.
    - A number is a double of the runtime.  The numbers that are integers
      (the int columns, quantities, settings, their sums and products) are
      [Z], a quotient is a [Q].  An arithmetic operation gives its exact
      result rounded to the nearest double, a tie going to the even
      significand ([F64]); so the integers up to 2^53 are exact.  A number
      beyond the largest double, which no int column holds, is rounded as if
      the exponent had no upper end.  The school code generator, whose
      argument stands for any number from 0 to 1, and the counts of the
      panel are computed on the rationals and the naturals.
    - Text is a [string] of code units below 256 (Latin-1).
    - One edge function calling another over HTTP, or a provider, is an entry
      of the effect trace the handler returns; what comes back is read from
      the environment record of the handler.  create-shipment, which reads
      the parcels compute-weights has just written, runs that handler on the
      store instead.
    - Writes.  create-order throws on the error of a supabase call; which of
      its calls fail is decided by its environment record.  The payment
      webhook only logs the error of its update and the chat webhook does
      not read the error of its insert; their writes are checked against the
      migration, which refuses a write as a whole when it names a column the
      table does not have or when the written row violates a CHECK or NOT
      NULL constraint.  The other handlers write columns and values the
      migration has; their writes are taken as issued.  The range of the int
      columns is not enforced. *)

From Stdlib Require Import ZArith QArith Qround Qpower Lia Lqa Ascii String.
From stdpp Require Import base option list sorting strings pretty gmap.

Local Open Scope string_scope.
Local Open Scope Z_scope.

(** ** JavaScript primitives used by the handlers *)

Module JS.

Definition code (c : ascii) : N := N_of_ascii c.

Definition in_range (lo hi : N) (c : ascii) : bool :=
  ((lo <=? code c) && (code c <=? hi))%N.

Definition shift_up (c : ascii) : ascii := ascii_of_N (code c + 32).
Definition shift_down (c : ascii) : ascii := ascii_of_N (code c - 32).

(** [String.prototype.toLowerCase] on one code unit: A-Z, and the accented
    capitals U+00C0..U+00DE without the multiplication sign U+00D7. *)
Definition lower_char (c : ascii) : ascii :=
  if in_range 65 90 c then shift_up c
  else if in_range 192 222 c && negb (code c =? 215)%N then shift_up c
  else c.

Fixpoint toLowerCase (s : string) : string :=
  match s with
  | EmptyString => EmptyString
  | String c r => String (lower_char c) (toLowerCase r)
  end.

(** [String.prototype.toUpperCase]: a-z, the accented small letters
    U+00E0..U+00FE without the division sign U+00F7, and sharp s, which
    becomes two letters.  The upper-case forms of U+00B5 and U+00FF lie above
    U+00FF; they stay as they are, which no comparison with an ASCII
    literal can tell apart. *)
Fixpoint toUpperCase (s : string) : string :=
  match s with
  | EmptyString => EmptyString
  | String c r =>
      if in_range 97 122 c then String (shift_down c) (toUpperCase r)
      else if in_range 224 254 c && negb (code c =? 247)%N
           then String (shift_down c) (toUpperCase r)
      else if (code c =? 223)%N then String "S" (String "S" (toUpperCase r))
      else String c (toUpperCase r)
  end.

Fixpoint startsWith (s p : string) {struct p} : bool :=
  match p, s with
  | EmptyString, _ => true
  | String a p', String b s' => if Ascii.eqb a b then startsWith s' p' else false
  | String _ _, EmptyString => false
  end.

(** [s.includes(p)] *)
Fixpoint includes (s p : string) : bool :=
  match s with
  | EmptyString => startsWith EmptyString p
  | String _ r => startsWith s p || includes r p
  end.

Definition is_space (c : ascii) : bool :=
  in_range 9 13 c || (code c =? 32)%N || (code c =? 160)%N.

Fixpoint trimStart (s : string) : string :=
  match s with
  | String c r => if is_space c then trimStart r else s
  | EmptyString => EmptyString
  end.

Fixpoint trimEnd (s : string) : string :=
  match s with
  | EmptyString => EmptyString
  | String c r =>
      match trimEnd r with
      | EmptyString => if is_space c then EmptyString else String c EmptyString
      | r' => String c r'
      end
  end.

Definition trim (s : string) : string := trimEnd (trimStart s).

Definition is_digit (c : ascii) : bool := in_range 48 57 c.

Definition digit_val (c : ascii) : Z := Z.of_N (code c) - 48.

(** The longest run of decimal digits at the head of [s], read as a number
    continuing [acc]; [seen] tells whether a digit was read. *)
Fixpoint digits (s : string) (acc : Z) (seen : bool) : option Z :=
  match s with
  | String c r =>
      if is_digit c then digits r (10 * acc + digit_val c) true
      else if seen then Some acc else None
  | EmptyString => if seen then Some acc else None
  end.

(** [parseInt(s, 10)]; [None] is NaN. *)
Definition parseInt (s : string) : option Z :=
  match trimStart s with
  | String "-" r => Z.opp <$> digits r 0 false
  | String "+" r => digits r 0 false
  | r => digits r 0 false
  end.

(** [/^\d{4}$/.test(s)] *)
Definition four_digits (s : string) : bool :=
  match s with
  | String a (String b (String c (String d EmptyString))) =>
      is_digit a && is_digit b && is_digit c && is_digit d
  | _ => false
  end.

(** [s.replace(/^p/i, "")] for a literal, lower-case [p]. *)
Fixpoint strip_prefix_ci (p s : string) {struct p} : option string :=
  match p, s with
  | EmptyString, _ => Some s
  | String a p', String b s' =>
      if Ascii.eqb a (lower_char b) then strip_prefix_ci p' s' else None
  | String _ _, EmptyString => None
  end.

Definition replace_prefix_ci (p s : string) : string :=
  default s (strip_prefix_ci p s).

(** Truthiness of a string-valued property that may be absent. *)
Definition truthy (v : option string) : bool :=
  match v with
  | Some (String _ _) => true
  | _ => false
  end.

(** [a || b] on such properties. *)
Definition or_else (a b : option string) : option string :=
  if truthy a then a else b.

(** [Math.round]: the nearest integer, halves towards plus infinity. *)
Definition Math_round (x : Q) : Z := Qfloor (x + (1 # 2)).

Definition Math_ceil (x : Q) : Z := Qceiling x.

End JS.

(** ** The numbers of the runtime: IEEE 754 binary64

    A finite double is the rational it stands for.  [round] is the rounding
    of every operation: to the nearest double, a tie going to the one with
    the even significand; below 2^-1022 the doubles are the multiples of
    2^-1074. *)

Module F64.

(** The nearest integer of a rational, a tie going to the even one. *)
Definition rne (y : Q) : Z :=
  let f := Qfloor y in
  match (y - inject_Z f ?= 1 # 2)%Q with
  | Lt => f
  | Gt => f + 1
  | Eq => if Z.even f then f else f + 1
  end.

(** [floor (log2 x)] for a positive rational. *)
Definition ilog2 (x : Q) : Z :=
  let e := Z.log2 (Qnum x) - Z.log2 (Zpos (Qden x)) in
  if Qle_bool (2 ^ e) x then e else e - 1.

(** The exponent of the unit in the last place of a positive rational: 52
    below its leading bit, and not below that of the subnormal numbers. *)
Definition ulp_exp (x : Q) : Z := Z.max (ilog2 x) (-1022) - 52.

Definition round_pos (x : Q) : Q :=
  let u := (2 ^ ulp_exp x)%Q in
  Qred (inject_Z (rne (x / u)) * u).

(** The double nearest to a rational. *)
Definition round (x : Q) : Q :=
  match Qnum x with
  | 0 => 0%Q
  | Zpos _ => round_pos x
  | Zneg _ => (- round_pos (- x))%Q
  end.

(** The double nearest to an integer, which is an integer; the integers up
    to 2^53 are doubles. *)
Definition round_int (z : Z) : Z :=
  let a := Z.abs z in
  if a <=? 2 ^ 53 then z
  else
    let u := 2 ^ (Z.log2 a - 52) in
    Z.sgn z * (rne (inject_Z a / inject_Z u) * u).

(** [Number(v)] of an integer of a JSON body or row. *)
Definition Number (z : Z) : Z := round_int z.

(** [a + b] and [a * b] of two doubles that are integers. *)
Definition add (a b : Z) : Z := round_int (a + b).
Definition mul (a b : Z) : Z := round_int (a * b).

(** [a / b] of two such doubles, [b] not 0. *)
Definition div (a b : Z) : Q := round (inject_Z a / inject_Z b).

(** [x * k] of a double and an integer. *)
Definition scale (x : Q) (k : Z) : Q := round (x * inject_Z k).

End F64.

(** ** The store: the tables of the schema migration *)

Module Store.

Record School := {
  school_id : Z;
  school_name : string;
  code_4digit : string;
  school_address : option string;
  school_active : bool }.

Record Class := {
  class_id : Z;
  class_school_id : Z;
  class_name : string;
  sort_order : Z }.

Record Group := {
  group_id : Z;
  group_name : string;
  group_type : string }.

Record ClassGroupAssignment := {
  cga_class_id : Z;
  cga_group_id : Z }.

Record Item := {
  item_id : Z;
  item_group_id : option Z;
  title : string;
  price_paise : Z;
  stock : Z;
  weight_grams : Z;
  length_cm : option Z;
  width_cm : option Z;
  height_cm : option Z;
  item_active : bool }.

(** The body of a create-order call; it is kept on the order as
    [raw_request]. *)
Record CreateOrderRequest := {
  req_school_code : string;
  req_class_id : option Z;
  req_items : list (Z * Z);          (* item_id, qty *)
  req_delivery_type : string;
  req_parent_phone : string;
  req_parent_name : option string;
  req_address : option string }.

Record Order := {
  order_id : Z;
  order_school_id : Z;
  order_class_id : option Z;
  parent_phone : string;
  parent_name : option string;
  delivery_type : string;
  delivery_address : option string;
  delivery_charge_paise : Z;
  items_total_paise : Z;
  total_amount_paise : Z;
  payment_id : option string;
  payment_link : option string;
  payment_status : string;
  status : string;
  package_count : Z;
  package_weight_grams : option Z;
  package_volumetric_grams : option Z;
  billed_weight_grams : option Z;
  courier_awb : option string;
  courier_service : option string;
  raw_request : CreateOrderRequest }.

Record OrderItem := {
  oi_order_id : Z;
  oi_item_id : Z;
  oi_qty : Z;
  oi_unit_price_paise : Z }.

Record CourierParcel := {
  cp_order_id : Z;
  cp_parcel_index : Z;
  cp_actual_weight_grams : Z;
  cp_length_cm : option Z;
  cp_width_cm : option Z;
  cp_height_cm : option Z;
  cp_volumetric_grams : Z;
  cp_billed_weight_grams : Z;
  cp_awb : option string }.

(** What a courier posts to delhivery-webhook. *)
Record DelhiveryPayload := {
  dp_awb : option string;
  dp_waybill : option string;
  dp_status : option string;
  dp_Status : option string;
  dp_status_code : option string;
  dp_StatusCode : option string }.

(** The part of a Razorpay event the webhook acts on: [event], the entity
    under [payload.payment_link] or [payload.payment], and in it [id],
    [notes.order_id] (as a number, absent when falsy) and [order_id]. *)
Record RazorpayEntity := {
  ent_id : option string;
  ent_notes_order_id : option Z;
  ent_order_id : option string }.

Record RazorpayEvent := {
  ev_event : option string;
  ev_payment_link : option RazorpayEntity;
  ev_payment : option RazorpayEntity }.

Inductive EventPayload :=
| FromDelhivery (p : DelhiveryPayload)
| FromRazorpay (e : RazorpayEvent).

(** courier_events, the audit log of both webhooks *)
Record CourierEvent := {
  ce_order_id : option Z;
  ce_courier_name : string;
  ce_event_type : option string;
  ce_event_payload : EventPayload }.

Record WhatsAppMessage := {
  wm_phone : option string;
  wm_direction : string;
  wm_raw_payload : string }.

(** A JSON value of a conversation context. *)
#[local] Unset Elimination Schemes.
Inductive JVal :=
| JNull
| JNum (n : Z)
| JStr (s : string)
| JBool (b : bool)
| JArr (l : list JVal)
| JObj (fields : list (string * JVal)).
#[local] Set Elimination Schemes.

Record Conversation := {
  conv_state : string;
  conv_context : gmap string JVal;
  conv_last_message_at : Z }.

Record DB := {
  schools : list School;
  classes : list Class;
  groups : list Group;
  class_group_assignments : list ClassGroupAssignment;
  items : list Item;
  settings : gmap string Z;
  orders : list Order;
  orders_seq : Z;                       (* next value of the bigserial *)
  order_items : list OrderItem;
  courier_parcels : list CourierParcel;
  courier_events : list CourierEvent;
  whatsapp_messages : list WhatsAppMessage;
  whatsapp_conversations : gmap string Conversation }.

(** Result of [.maybeSingle()]: no row, the row, or the error of a
    selection with several rows. *)
Inductive Single (A : Type) :=
| NoRow
| OneRow (a : A)
| ManyRows.
Arguments NoRow {A}.
Arguments OneRow {A} a.
Arguments ManyRows {A}.

Definition maybeSingle {A} (rows : list A) : Single A :=
  match rows with
  | [] => NoRow
  | [a] => OneRow a
  | _ => ManyRows
  end.

Definition with_orders (db : DB) (os : list Order) : DB :=
  {| schools := schools db; classes := classes db; groups := groups db;
     class_group_assignments := class_group_assignments db;
     items := items db; settings := settings db;
     orders := os; orders_seq := orders_seq db;
     order_items := order_items db; courier_parcels := courier_parcels db;
     courier_events := courier_events db;
     whatsapp_messages := whatsapp_messages db;
     whatsapp_conversations := whatsapp_conversations db |}.

Definition with_courier_events (db : DB) (es : list CourierEvent) : DB :=
  {| schools := schools db; classes := classes db; groups := groups db;
     class_group_assignments := class_group_assignments db;
     items := items db; settings := settings db;
     orders := orders db; orders_seq := orders_seq db;
     order_items := order_items db; courier_parcels := courier_parcels db;
     courier_events := es;
     whatsapp_messages := whatsapp_messages db;
     whatsapp_conversations := whatsapp_conversations db |}.

Definition with_whatsapp_messages (db : DB) (ms : list WhatsAppMessage) : DB :=
  {| schools := schools db; classes := classes db; groups := groups db;
     class_group_assignments := class_group_assignments db;
     items := items db; settings := settings db;
     orders := orders db; orders_seq := orders_seq db;
     order_items := order_items db; courier_parcels := courier_parcels db;
     courier_events := courier_events db;
     whatsapp_messages := ms;
     whatsapp_conversations := whatsapp_conversations db |}.

(** [.update(f).eq("id", id)] on orders *)
Definition update_order (id : Z) (f : Order -> Order) (db : DB) : DB :=
  with_orders db
    (map (fun o => if order_id o =? id then f o else o) (orders db)).

(** The columns of orders in the migration. *)
Definition orders_columns : list string :=
  ["id"; "school_id"; "class_id"; "parent_phone"; "parent_name";
   "delivery_type"; "delivery_address"; "delivery_charge_paise";
   "items_total_paise"; "total_amount_paise"; "payment_id"; "payment_link";
   "payment_status"; "status"; "package_count"; "package_weight_grams";
   "package_volumetric_grams"; "billed_weight_grams"; "courier_awb";
   "courier_service"; "created_at"; "raw_request"].

(** The CHECK constraints of orders. *)
Definition order_checks (o : Order) : bool :=
  bool_decide (delivery_type o ∈ ["school"; "home"])
  && bool_decide (payment_status o ∈ ["pending"; "paid"; "failed"])
  && bool_decide (status o ∈ ["pending"; "confirmed"; "processing";
                              "out_for_delivery"; "delivered"; "cancelled"]).

(** [.update(obj).eq("id", id)] on orders as the database answers it;
    [columns] are the keys of [obj] and [f] is what they set.  The answer is
    an error, and no row is changed, when a key is no column of the table or
    when a changed row violates a CHECK. *)
Definition update_orders (columns : list string) (id : Z) (f : Order -> Order)
    (db : DB) : option DB :=
  if forallb (fun c => bool_decide (c ∈ orders_columns)) columns
     && forallb (fun o => order_checks (f o))
                (filter (fun o => order_id o = id) (orders db))
  then Some (update_order id f db)
  else None.

(** The columns of whatsapp_messages in the migration. *)
Definition whatsapp_messages_columns : list string :=
  ["id"; "order_id"; "phone"; "direction"; "template_name"; "template_vars";
   "raw_payload"; "status"; "ts"].

(** [.insert(obj)] on whatsapp_messages as the database answers it;
    [columns] are the keys of [obj].  The answer is an error, and no row is
    added, when a key is no column of the table, when [phone] is null (the
    column is NOT NULL) or when [direction] is neither "in" nor "out". *)
Definition insert_whatsapp_message (columns : list string)
    (row : WhatsAppMessage) (db : DB) : option DB :=
  if forallb (fun c => bool_decide (c ∈ whatsapp_messages_columns)) columns
     && bool_decide (is_Some (wm_phone row))
     && bool_decide (wm_direction row ∈ ["in"; "out"])
  then Some (with_whatsapp_messages db (whatsapp_messages db ++ [row]))
  else None.

(** [.insert(e)] on courier_events *)
Definition insert_courier_event (e : CourierEvent) (db : DB) : DB :=
  with_courier_events db (courier_events db ++ [e]).

Definition set_status (s : string) (o : Order) : Order :=
  {| order_id := order_id o; order_school_id := order_school_id o;
     order_class_id := order_class_id o; parent_phone := parent_phone o;
     parent_name := parent_name o; delivery_type := delivery_type o;
     delivery_address := delivery_address o;
     delivery_charge_paise := delivery_charge_paise o;
     items_total_paise := items_total_paise o;
     total_amount_paise := total_amount_paise o;
     payment_id := payment_id o; payment_link := payment_link o;
     payment_status := payment_status o;
     status := s;
     package_count := package_count o;
     package_weight_grams := package_weight_grams o;
     package_volumetric_grams := package_volumetric_grams o;
     billed_weight_grams := billed_weight_grams o;
     courier_awb := courier_awb o; courier_service := courier_service o;
     raw_request := raw_request o |}.

End Store.

(** ** delhivery-webhook: the courier status mapper *)

Module DelhiveryWebhook.
Import JS Store.

Inductive Response :=
| NoAwb                               (* 400 *)
| OrderNotFound                       (* 200, success *)
| Processed (id : Z) (new_status : option string)   (* 200, success *)
| Failed.                             (* 500 *)

Definition http_status (r : Response) : Z :=
  match r with
  | NoAwb => 400
  | OrderNotFound | Processed _ _ => 200
  | Failed => 500
  end.

(** The chain of [if]/[else if] over [statusLower]. *)
Definition new_status (statusLower : string) : option string :=
  if includes statusLower "picked" || includes statusLower "pickup"
  then Some "processing"
  else if includes statusLower "in transit"
          || includes statusLower "in_transit"
          || includes statusLower "dispatched"
          || includes statusLower "out for delivery"
  then Some "out_for_delivery"
  else if includes statusLower "delivered"
  then Some "delivered"
  else if includes statusLower "cancelled"
          || includes statusLower "rto"
          || includes statusLower "return"
  then Some "cancelled"
  else None.

Definition status_text (p : DelhiveryPayload) : option string :=
  or_else (or_else (dp_status p) (dp_Status p))
          (or_else (dp_status_code p) (dp_StatusCode p)).

Definition handle (db : DB) (payload : DelhiveryPayload) : Response * DB :=
  let awb := or_else (dp_awb payload) (dp_waybill payload) in
  if negb (truthy awb) then (NoAwb, db)
  else
    match maybeSingle
            (filter (fun o => courier_awb o = awb) (orders db)) with
    | ManyRows => (Failed, db)
    | NoRow => (OrderNotFound, db)
    | OneRow order =>
        let db1 :=
          insert_courier_event
            {| ce_order_id := Some (order_id order);
               ce_courier_name := "delhivery";
               ce_event_type := status_text payload;
               ce_event_payload := FromDelhivery payload |} db in
        let statusLower :=
          toLowerCase (default "" (status_text payload)) in
        match new_status statusLower with
        | Some s =>
            (Processed (order_id order) (Some s),
             update_order (order_id order) (set_status s) db1)
        | None => (Processed (order_id order) None, db1)
        end
    end.

End DelhiveryWebhook.

(** ** compute-weights: the weight calculator *)

Module ComputeWeights.
Import JS Store.

(** A row of [select("qty, item:items(...)")]: the quantity and the joined
    catalog item, null when the join finds none. *)
Record OrderItemRow := {
  qty : Z;
  item : option Item }.

Definition select_order_items (db : DB) (id : Z) : list OrderItemRow :=
  map (fun oi =>
         {| qty := oi_qty oi;
            item := List.find (fun i => item_id i =? oi_item_id oi) (items db) |})
      (filter (fun oi => oi_order_id oi = id) (order_items db)).

(** [settingsMap]: the selected settings rows, keyed by id, each value
    under [Number]. *)
Definition settingsMap (ids : list string) (db : DB) : gmap string Z :=
  F64.Number <$> filter (fun kv => kv.1 ∈ ids) (settings db).

(** [v || d] on a number that may be absent. *)
Definition or_default (v : option Z) (d : Z) : Z :=
  match v with
  | Some 0 | None => d
  | Some n => n
  end.

(** The variables of the loop over the order items. *)
Record Acc := {
  totalActualWeight : Z;
  maxLength : Z;
  maxWidth : Z;
  maxHeight : Z }.

(** [if (d) m = Math.max(m, d)] *)
Definition bump (m : Z) (d : option Z) : Z :=
  match d with
  | Some 0 | None => m
  | Some x => Z.max m x
  end.

Definition loop_body (acc : Acc) (orderItem : OrderItemRow) : Acc :=
  match item orderItem with
  | None => acc
  | Some it =>
      {| totalActualWeight :=
           F64.add (totalActualWeight acc)
                   (F64.mul (weight_grams it) (qty orderItem));
         maxLength := bump (maxLength acc) (length_cm it);
         maxWidth := bump (maxWidth acc) (width_cm it);
         maxHeight := bump (maxHeight acc) (height_cm it) |}
  end.

Definition loop (orderItems : list OrderItemRow) : Acc :=
  foldl loop_body
    {| totalActualWeight := 0; maxLength := 0; maxWidth := 0; maxHeight := 0 |}
    orderItems.

Record Weights := {
  w_package_count : Z;
  actual_weight_grams : Z;
  volumetric_grams : Z;
  w_billed_weight_grams : Z;
  dim_length_cm : Z;
  dim_width_cm : Z;
  dim_height_cm : Z }.

(** The computation between the two settings reads and the writes, every
    operation in the doubles of the runtime. *)
Definition weigh (packagingWeight volumetricDivisor weightRounding : Z)
    (orderItems : list OrderItemRow) : Weights :=
  let acc := loop orderItems in
  let packageCount := 1 in
  let actualWeight :=
    F64.add (totalActualWeight acc) (F64.mul packagingWeight packageCount) in
  let volumetricGrams :=
    if (0 <? maxLength acc) && (0 <? maxWidth acc) && (0 <? maxHeight acc)
    then
      let volumeCm3 :=
        F64.mul (F64.mul (maxLength acc) (maxWidth acc)) (maxHeight acc) in
      let volumetricKg := F64.div volumeCm3 volumetricDivisor in
      Math_round (F64.scale volumetricKg 1000)
    else 0 in
  let billedWeight := Z.max actualWeight volumetricGrams in
  let billedWeight :=
    F64.mul (Math_ceil (F64.div billedWeight weightRounding)) weightRounding in
  {| w_package_count := packageCount;
     actual_weight_grams := actualWeight;
     volumetric_grams := volumetricGrams;
     w_billed_weight_grams := billedWeight;
     dim_length_cm := maxLength acc;
     dim_width_cm := maxWidth acc;
     dim_height_cm := maxHeight acc |}.

Definition set_weights (w : Weights) (o : Order) : Order :=
  {| order_id := order_id o; order_school_id := order_school_id o;
     order_class_id := order_class_id o; parent_phone := parent_phone o;
     parent_name := parent_name o; delivery_type := delivery_type o;
     delivery_address := delivery_address o;
     delivery_charge_paise := delivery_charge_paise o;
     items_total_paise := items_total_paise o;
     total_amount_paise := total_amount_paise o;
     payment_id := payment_id o; payment_link := payment_link o;
     payment_status := payment_status o; status := status o;
     package_count := w_package_count w;
     package_weight_grams := Some (actual_weight_grams w);
     package_volumetric_grams := Some (volumetric_grams w);
     billed_weight_grams := Some (w_billed_weight_grams w);
     courier_awb := courier_awb o; courier_service := courier_service o;
     raw_request := raw_request o |}.

Definition positive_or_null (d : Z) : option Z :=
  if 0 <? d then Some d else None.

Definition parcel_of (id : Z) (w : Weights) : CourierParcel :=
  {| cp_order_id := id; cp_parcel_index := 0;
     cp_actual_weight_grams := actual_weight_grams w;
     cp_length_cm := positive_or_null (dim_length_cm w);
     cp_width_cm := positive_or_null (dim_width_cm w);
     cp_height_cm := positive_or_null (dim_height_cm w);
     cp_volumetric_grams := volumetric_grams w;
     cp_billed_weight_grams := w_billed_weight_grams w;
     cp_awb := None |}.

Definition with_courier_parcels (db : DB) (ps : list CourierParcel) : DB :=
  {| schools := schools db; classes := classes db; groups := groups db;
     class_group_assignments := class_group_assignments db;
     items := items db; settings := settings db;
     orders := orders db; orders_seq := orders_seq db;
     order_items := order_items db; courier_parcels := ps;
     courier_events := courier_events db;
     whatsapp_messages := whatsapp_messages db;
     whatsapp_conversations := whatsapp_conversations db |}.

Inductive Response :=
| OrderIdRequired                     (* 400 *)
| Computed (id : Z) (w : Weights).    (* 200 *)

Definition setting_ids : list string :=
  ["default_packaging_weight_grams"; "volumetric_divisor";
   "weight_rounding_grams"].

(** The three settings, each with its fallback. *)
Definition packagingWeight (db : DB) : Z :=
  or_default (settingsMap setting_ids db !! "default_packaging_weight_grams") 50.

Definition volumetricDivisor (db : DB) : Z :=
  or_default (settingsMap setting_ids db !! "volumetric_divisor") 5000.

Definition weightRounding (db : DB) : Z :=
  or_default (settingsMap setting_ids db !! "weight_rounding_grams") 500.

(** The weights the handler computes for an order of the store. *)
Definition weights_of (db : DB) (id : Z) : Weights :=
  weigh (packagingWeight db) (volumetricDivisor db) (weightRounding db)
        (select_order_items db id).

(** The handler.  The parcel row carries no primary key, so the upsert
    adds a row. *)
Definition handle (db : DB) (order_id : option Z) : Response * DB :=
  match order_id with
  | None | Some 0 => (OrderIdRequired, db)
  | Some id =>
      let w := weights_of db id in
      let db1 := update_order id (set_weights w) db in
      let db2 := with_courier_parcels db1 (courier_parcels db1 ++ [parcel_of id w]) in
      (Computed id w, db2)
  end.

End ComputeWeights.

(** ** What a handler sends out *)

Module Outbound.
Import Store.

(** The texts handed to [sendWhatsAppMessage], by template. *)
Inductive Message :=
| PaymentReceived (id total_amount_paise : Z)
| PaymentFailed (id : Z)
| ShipmentCreated (id : Z) (awb : string)
| Welcome
| AskCode
| InvalidCode
| CodeAccepted (school_name : JVal) (classes : list JVal)
| InvalidSelection
| AskCategory
| CategoryHelp
| NoItemsForClass
| AskDelivery (preview : list JVal)
| DeliveryHelp
| AskAddress
| AskConfirm
| ConfirmHelp
| SomethingWrong
| NoItemsToOrder
| OrderFailed (errorText : string)
| OrderCreated (id total_amount_paise : Z) (payment_link : option string)
| Unexpected.

Inductive Effect :=
| SendWhatsApp (phone : string) (m : Message)   (* a call of sendWhatsAppMessage *)
| PostComputeWeights (id : Z)                   (* functions/v1/compute-weights *)
| PostCreateShipment (id : Z)                   (* functions/v1/create-shipment *)
| PostCreateOrder (body : JVal)                 (* functions/v1/create-order *)
| PostPaymentLink (id amount : Z).              (* api.razorpay.com/v1/payment_links *)

Definition is_notification (e : Effect) : bool :=
  match e with
  | SendWhatsApp _ _ => true
  | _ => false
  end.

End Outbound.

(** ** create-order: the order assembler *)

Module CreateOrder.
Import JS Store Outbound.

Inductive RazorpayReply :=
| LinkRefused                                   (* not ok, or the call threw *)
| LinkCreated (id url : option string).

(** What the surroundings decide: which supabase calls come back with an
    error, and the payment provider (absent when the keys are not set). *)
Record Env := {
  school_query_fails : bool;
  settings_query_fails : bool;
  items_query_fails : bool;
  order_insert_fails : bool;
  order_items_insert_fails : bool;
  razorpay : option RazorpayReply }.

Inductive Error :=
| InvalidSchool                       (* 400 "Invalid school code" *)
| UnknownItem (id : Z)                (* 400 "Item <id> not found" *)
| InsufficientStock (id : Z)          (* 400 "Insufficient stock for item <id>" *)
| ServerError.                        (* 500, from the catch *)

Inductive Response :=
| Created (id total_amount_paise : Z)
          (payment_link razorpay_payment_link_id : option string)
| Rejected (e : Error).

Definition http_status (r : Response) : Z :=
  match r with
  | Created _ _ _ _ => 200
  | Rejected ServerError => 500
  | Rejected _ => 400
  end.

(** [v ?? d] *)
Definition nullish_default (v : option Z) (d : Z) : Z := default d v.

Definition charge_ids : list string :=
  ["school_delivery_charge_paise"; "home_delivery_charge_paise"].

Definition delivery_charge (env : Env) (db : DB) (delivery_type : string) : Z :=
  let settingsMap : gmap string Z :=
    if settings_query_fails env then ∅
    else F64.Number <$> filter (fun kv => kv.1 ∈ charge_ids) (settings db) in
  if String.eqb delivery_type "school"
  then nullish_default (settingsMap !! "school_delivery_charge_paise") 5000
  else nullish_default (settingsMap !! "home_delivery_charge_paise") 15000.

(** An element of [orderItems]. *)
Record Line := {
  line_item_id : Z;
  line_qty : Z;
  line_unit_price_paise : Z }.

(** The [for] loop over the requested items, with its two early returns;
    [total] and [lines] are [items_total_paise] and [orderItems] so far.  The
    sum is one of doubles. *)
Fixpoint price_lines (itemsData : list Item) (requested : list (Z * Z))
    (total : Z) (lines : list Line) : Error + Z * list Line :=
  match requested with
  | [] => inr (total, lines)
  | (id, q) :: rest =>
      match List.find (fun i => item_id i =? id) itemsData with
      | None => inl (UnknownItem id)
      | Some it =>
          if stock it <? q then inl (InsufficientStock id)
          else
            price_lines itemsData rest
              (F64.add total (F64.mul (F64.Number (price_paise it)) q))
              (lines ++ [{| line_item_id := id; line_qty := q;
                            line_unit_price_paise :=
                              F64.Number (price_paise it) |}])
      end
  end.

Definition new_order (id : Z) (school : School) (req : CreateOrderRequest)
    (charge items_total total : Z) : Order :=
  {| order_id := id;
     order_school_id := school_id school;
     order_class_id := req_class_id req;
     parent_phone := req_parent_phone req;
     parent_name := req_parent_name req;
     delivery_type := req_delivery_type req;
     delivery_address :=
       (if truthy (req_address req) then req_address req else None);
     delivery_charge_paise := charge;
     items_total_paise := items_total;
     total_amount_paise := total;
     payment_id := None; payment_link := None;
     payment_status := "pending";
     status := "pending";
     package_count := 1;
     package_weight_grams := None;
     package_volumetric_grams := None;
     billed_weight_grams := None;
     courier_awb := None; courier_service := None;
     raw_request := req |}.

Definition order_item_of (id : Z) (l : Line) : OrderItem :=
  {| oi_order_id := id; oi_item_id := line_item_id l;
     oi_qty := line_qty l; oi_unit_price_paise := line_unit_price_paise l |}.

(** [.insert(row).select().single()] on orders: the bigserial gives the id. *)
Definition insert_order (db : DB) (mk : Z -> Order) : Order * DB :=
  let o := mk (orders_seq db) in
  (o,
   {| schools := schools db; classes := classes db; groups := groups db;
      class_group_assignments := class_group_assignments db;
      items := items db; settings := settings db;
      orders := orders db ++ [o]; orders_seq := orders_seq db + 1;
      order_items := order_items db; courier_parcels := courier_parcels db;
      courier_events := courier_events db;
      whatsapp_messages := whatsapp_messages db;
      whatsapp_conversations := whatsapp_conversations db |}).

Definition insert_order_items (db : DB) (rows : list OrderItem) : DB :=
  {| schools := schools db; classes := classes db; groups := groups db;
     class_group_assignments := class_group_assignments db;
     items := items db; settings := settings db;
     orders := orders db; orders_seq := orders_seq db;
     order_items := order_items db ++ rows;
     courier_parcels := courier_parcels db;
     courier_events := courier_events db;
     whatsapp_messages := whatsapp_messages db;
     whatsapp_conversations := whatsapp_conversations db |}.

Definition set_payment_link (id link : option string) (o : Order) : Order :=
  {| order_id := order_id o; order_school_id := order_school_id o;
     order_class_id := order_class_id o; parent_phone := parent_phone o;
     parent_name := parent_name o; delivery_type := delivery_type o;
     delivery_address := delivery_address o;
     delivery_charge_paise := delivery_charge_paise o;
     items_total_paise := items_total_paise o;
     total_amount_paise := total_amount_paise o;
     payment_id := id; payment_link := link;
     payment_status := payment_status o; status := status o;
     package_count := package_count o;
     package_weight_grams := package_weight_grams o;
     package_volumetric_grams := package_volumetric_grams o;
     billed_weight_grams := billed_weight_grams o;
     courier_awb := courier_awb o; courier_service := courier_service o;
     raw_request := raw_request o |}.

(** Step 8, the payment link, and step 9, the reply. *)
Definition finish (env : Env) (db : DB) (order : Order) (total : Z)
    : Response * DB * list Effect :=
  match razorpay env with
  | None =>
      (Created (order_id order) total None None, db,
       [PostComputeWeights (order_id order)])
  | Some LinkRefused =>
      (Created (order_id order) total None None, db,
       [PostComputeWeights (order_id order);
        PostPaymentLink (order_id order) total])
  | Some (LinkCreated id url) =>
      let link := if truthy url then url else None in
      let link_id := if truthy id then id else None in
      (Created (order_id order) total link link_id,
       update_order (order_id order) (set_payment_link link_id link) db,
       [PostComputeWeights (order_id order);
        PostPaymentLink (order_id order) total])
  end.

Definition handle (env : Env) (db : DB) (req : CreateOrderRequest)
    : Response * DB * list Effect :=
  (* 1) validate school *)
  if school_query_fails env then (Rejected ServerError, db, [])
  else
    match maybeSingle
            (filter (fun s => code_4digit s = req_school_code req
                              ∧ school_active s = true) (schools db)) with
    | ManyRows => (Rejected ServerError, db, [])
    | NoRow => (Rejected InvalidSchool, db, [])
    | OneRow school =>
        (* 2) delivery charge *)
        let delivery_charge_paise :=
          delivery_charge env db (req_delivery_type req) in
        (* 3) fetch items and validate *)
        if items_query_fails env then (Rejected ServerError, db, [])
        else
          let itemIds := map fst (req_items req) in
          let itemsData := filter (fun i => item_id i ∈ itemIds) (items db) in
          match price_lines itemsData (req_items req) 0 [] with
          | inl e => (Rejected e, db, [])
          | inr (items_total_paise, orderItems) =>
              (* 4) total *)
              let total_amount_paise :=
                F64.add items_total_paise delivery_charge_paise in
              (* 5) insert order *)
              if order_insert_fails env then (Rejected ServerError, db, [])
              else
                let '(order, db1) :=
                  insert_order db
                    (fun id => new_order id school req delivery_charge_paise
                                 items_total_paise total_amount_paise) in
                (* 6) insert order items *)
                if order_items_insert_fails env
                then (Rejected ServerError, db1, [])
                else
                  let db2 :=
                    insert_order_items db1
                      (map (order_item_of (order_id order)) orderItems) in
                  (* 7) compute-weights, 8) payment link, 9) reply *)
                  finish env db2 order total_amount_paise
          end
    end.

End CreateOrder.

(** ** The catalog screen: saving an edited item *)

Module Catalog.
Import Store.

(** [handleSaveItem] with [editingItem] set:
    [.from('items').update(itemData).eq('id', editingItem.id)]. *)
Definition update_item (itemData : Item) (i : Item) : Item :=
  {| item_id := item_id i;
     item_group_id := item_group_id itemData;
     title := title itemData;
     price_paise := price_paise itemData;
     stock := stock itemData;
     weight_grams := weight_grams itemData;
     length_cm := length_cm itemData;
     width_cm := width_cm itemData;
     height_cm := height_cm itemData;
     item_active := item_active itemData |}.

Definition handleSaveItem (editingItem : Z) (itemData : Item) (db : DB) : DB :=
  {| schools := schools db; classes := classes db; groups := groups db;
     class_group_assignments := class_group_assignments db;
     items :=
       map (fun i => if item_id i =? editingItem then update_item itemData i else i)
           (items db);
     settings := settings db;
     orders := orders db; orders_seq := orders_seq db;
     order_items := order_items db; courier_parcels := courier_parcels db;
     courier_events := courier_events db;
     whatsapp_messages := whatsapp_messages db;
     whatsapp_conversations := whatsapp_conversations db |}.

End Catalog.

(** ** razorpay-webhook: the payment reconciler *)

Module RazorpayWebhook.
Import JS Store Outbound.

(** [webhook_secret] is whether RAZORPAY_WEBHOOK_SECRET is set and
    [signature_valid] what [verifyRazorpaySignature] answers;
    [shipment_awb] is the [awb] of the create-shipment reply, absent when
    the reply has none or the call throws. *)
Record Env := {
  webhook_secret : bool;
  signature_valid : bool;
  shipment_awb : option string }.

(** The row of [select("id, parent_phone, total_amount_paise,
    payment_status")].  The handler also reads [orderRow.status]; the
    column is not in the selection, so the property is undefined. *)
Record OrderRow := {
  row_id : Z;
  row_parent_phone : string;
  row_total_amount_paise : Z;
  row_payment_status : string;
  row_status : option string }.

Definition select_row (o : Order) : OrderRow :=
  {| row_id := order_id o;
     row_parent_phone := parent_phone o;
     row_total_amount_paise := total_amount_paise o;
     row_payment_status := payment_status o;
     row_status := None |}.

Inductive Response :=
| InvalidSignature                    (* 403 *)
| InvalidJSON                         (* 400 *)
| PlainOK                             (* 200 "OK" *)
| NoMatchingOrder                     (* 200 {ok, message} *)
| AlreadyPaid                         (* 200 {ok, message: "Already paid"} *)
| Done                                (* 200 {ok} *)
| Ignored                             (* 200 {ok, event} *)
| Failed.                             (* 500 *)

Definition http_status (r : Response) : Z :=
  match r with
  | InvalidSignature => 403
  | InvalidJSON => 400
  | Failed => 500
  | _ => 200
  end.

Definition logWebhook (orderId : option Z) (payload : RazorpayEvent) (db : DB) : DB :=
  insert_courier_event
    {| ce_order_id := orderId;
       ce_courier_name := "razorpay";
       ce_event_type := (if truthy (ev_event payload) then ev_event payload else None);
       ce_event_payload := FromRazorpay payload |} db.

(** The update of a completed payment,
    [{payment_status: "paid", status: "confirmed", paid_at: <now>}]: its keys,
    and what the first two set.  orders has no column paid_at. *)
Definition paid_columns : list string := ["payment_status"; "status"; "paid_at"].

Definition set_paid (o : Order) : Order :=
  {| order_id := order_id o; order_school_id := order_school_id o;
     order_class_id := order_class_id o; parent_phone := parent_phone o;
     parent_name := parent_name o; delivery_type := delivery_type o;
     delivery_address := delivery_address o;
     delivery_charge_paise := delivery_charge_paise o;
     items_total_paise := items_total_paise o;
     total_amount_paise := total_amount_paise o;
     payment_id := payment_id o; payment_link := payment_link o;
     payment_status := "paid";
     status := "confirmed";
     package_count := package_count o;
     package_weight_grams := package_weight_grams o;
     package_volumetric_grams := package_volumetric_grams o;
     billed_weight_grams := billed_weight_grams o;
     courier_awb := courier_awb o; courier_service := courier_service o;
     raw_request := raw_request o |}.

(** The update of a failed payment,
    [{payment_status: "failed", status: "payment_failed"}]. *)
Definition failed_columns : list string := ["payment_status"; "status"].

Definition set_failed (o : Order) : Order :=
  {| order_id := order_id o; order_school_id := order_school_id o;
     order_class_id := order_class_id o; parent_phone := parent_phone o;
     parent_name := parent_name o; delivery_type := delivery_type o;
     delivery_address := delivery_address o;
     delivery_charge_paise := delivery_charge_paise o;
     items_total_paise := items_total_paise o;
     total_amount_paise := total_amount_paise o;
     payment_id := payment_id o; payment_link := payment_link o;
     payment_status := "failed";
     status := "payment_failed";
     package_count := package_count o;
     package_weight_grams := package_weight_grams o;
     package_volumetric_grams := package_volumetric_grams o;
     billed_weight_grams := billed_weight_grams o;
     courier_awb := courier_awb o; courier_service := courier_service o;
     raw_request := raw_request o |}.

(** [const { error } = await supabase.from("orders").update(obj).eq("id", id);
    if (error) console.error(...)]: an update the database refuses leaves
    the store as it was, and the handler goes on. *)
Definition update_logged (columns : list string) (id : Z) (f : Order -> Order)
    (db : DB) : DB :=
  default db (update_orders columns id f db).

(** The idempotency test of both branches. *)
Definition already_paid (orderRow : OrderRow) : bool :=
  String.eqb (row_payment_status orderRow) "paid"
  || bool_decide (row_status orderRow = Some "confirmed").

(** [.eq("payment_id", v).maybeSingle()]; a null [v] selects no row. *)
Definition by_payment_id (db : DB) (v : option string) : Single OrderRow :=
  maybeSingle
    (select_row <$>
       filter (fun o => is_Some v ∧ payment_id o = v) (orders db)).

Definition by_id (db : DB) (id : Z) : Single OrderRow :=
  maybeSingle (select_row <$> filter (fun o => order_id o = id) (orders db)).

Definition payment_link_paid (env : Env) (db : DB) (eventJson : RazorpayEvent)
    : Response * DB * list Effect :=
  match ev_payment_link eventJson with
  | None => (PlainOK, db, [])
  | Some linkEntity =>
      let linkId := if truthy (ent_id linkEntity) then ent_id linkEntity else None in
      match by_payment_id db linkId with
      | ManyRows => (Failed, db, [])
      | NoRow => (NoMatchingOrder, logWebhook None eventJson db, [])
      | OneRow orderRow =>
          if already_paid orderRow
          then (AlreadyPaid, logWebhook (Some (row_id orderRow)) eventJson db, [])
          else
            let db1 := update_logged paid_columns (row_id orderRow) set_paid db in
            let db2 := logWebhook (Some (row_id orderRow)) eventJson db1 in
            (Done, db2,
             ([SendWhatsApp (row_parent_phone orderRow)
                 (PaymentReceived (row_id orderRow) (row_total_amount_paise orderRow));
               PostComputeWeights (row_id orderRow);
               PostCreateShipment (row_id orderRow)]
              ++ match shipment_awb env with
                 | Some (String c r) =>
                     [SendWhatsApp (row_parent_phone orderRow)
                        (ShipmentCreated (row_id orderRow) (String c r))]
                 | _ => []
                 end)%list)
      end
  end.

(** The two look-ups of the payment branch: by [notes.order_id], then by
    [payment_id]; an error of the first is thrown, one of the second leaves
    [orderRow] null. *)
Definition find_order (db : DB) (paymentEntity : RazorpayEntity)
    : option (option OrderRow) :=
  let first :=
    match ent_notes_order_id paymentEntity with
    | None | Some 0 => Some None
    | Some notesOrderId =>
        match by_id db notesOrderId with
        | ManyRows => None
        | NoRow => Some None
        | OneRow r => Some (Some r)
        end
    end in
  match first with
  | None => None
  | Some (Some r) => Some (Some r)
  | Some None =>
      if truthy (ent_order_id paymentEntity)
      then match by_payment_id db (ent_order_id paymentEntity) with
           | OneRow r => Some (Some r)
           | _ => Some None
           end
      else Some None
  end.

Definition is_event (eventType : option string) (name : string) : bool :=
  bool_decide (eventType = Some name).

Definition payment_event (env : Env) (db : DB) (eventType : option string)
    (eventJson : RazorpayEvent) : Response * DB * list Effect :=
  match ev_payment eventJson with
  | None => (Done, logWebhook None eventJson db, [])
  | Some paymentEntity =>
      match find_order db paymentEntity with
      | None => (Failed, db, [])
      | Some None => (NoMatchingOrder, logWebhook None eventJson db, [])
      | Some (Some orderRow) =>
          if is_event eventType "payment.captured" && already_paid orderRow
          then (AlreadyPaid, logWebhook (Some (row_id orderRow)) eventJson db, [])
          else
            let '(columns, updateObj) :=
              if is_event eventType "payment.captured"
              then (paid_columns, set_paid) else (failed_columns, set_failed) in
            let db1 := update_logged columns (row_id orderRow) updateObj db in
            let db2 := logWebhook (Some (row_id orderRow)) eventJson db1 in
            (Done, db2,
             [SendWhatsApp (row_parent_phone orderRow)
                (if is_event eventType "payment.captured"
                 then PaymentReceived (row_id orderRow)
                                      (row_total_amount_paise orderRow)
                 else PaymentFailed (row_id orderRow))])
      end
  end.

(** The POST handler; [body] is the parsed request body, absent when it is
    not JSON. *)
Definition handle (env : Env) (db : DB) (body : option RazorpayEvent)
    : Response * DB * list Effect :=
  if webhook_secret env && negb (signature_valid env)
  then (InvalidSignature, db, [])
  else
    match body with
    | None => (InvalidJSON, db, [])
    | Some eventJson =>
        let eventType := ev_event eventJson in
        if is_event eventType "payment_link.paid"
        then payment_link_paid env db eventJson
        else if is_event eventType "payment.captured"
                || is_event eventType "payment.failed"
        then payment_event env db eventType eventJson
        else (Ignored, logWebhook None eventJson db, [])
    end.

End RazorpayWebhook.

(** ** whatsapp-webhook: the conversation engine *)

Module WhatsappWebhook.
Import JS Store Outbound.

Definition AWAIT_CODE := "AWAIT_CODE".
Definition AWAIT_CLASS := "AWAIT_CLASS".
Definition AWAIT_CATEGORY := "AWAIT_CATEGORY".
Definition AWAIT_DELIVERY := "AWAIT_DELIVERY".
Definition AWAIT_ADDRESS := "AWAIT_ADDRESS".
Definition AWAIT_CONFIRM := "AWAIT_CONFIRM".
Definition PAYMENT_WAIT := "PAYMENT_WAIT".

(** The reply of the create-order call. *)
Inductive CreateOrderReply :=
| Unreachable                                   (* fetch throws *)
| NotOk (errorText : string)
| Ok (id total_amount_paise : Z) (payment_link : option string).

Record Env := {
  now : Z;
  create_order_reply : CreateOrderReply }.

(** The request once either provider's format is read: a payload without a
    message object, or sender, text and message id. *)
Inductive Inbound :=
| NoMessageObject (rawPayload : string)
| Text (from bodyText messageSid rawPayload : string).

Abbreviation Context := (gmap string JVal).

(** [v.k] on a JSON value, undefined read as null. *)
Fixpoint assoc (k : string) (fields : list (string * JVal)) : JVal :=
  match fields with
  | [] => JNull
  | (k', v) :: rest => if String.eqb k k' then v else assoc k rest
  end.

Definition prop (k : string) (v : JVal) : JVal :=
  match v with
  | JObj fields => assoc k fields
  | _ => JNull
  end.

(** [context.k] *)
Definition field (k : string) (context : Context) : JVal :=
  default JNull (context !! k).

Definition js_truthy (v : JVal) : bool :=
  match v with
  | JNull | JNum 0 | JStr EmptyString | JBool false => false
  | _ => true
  end.

Definition with_conversations (db : DB) (cs : gmap string Conversation) : DB :=
  {| schools := schools db; classes := classes db; groups := groups db;
     class_group_assignments := class_group_assignments db;
     items := items db; settings := settings db;
     orders := orders db; orders_seq := orders_seq db;
     order_items := order_items db; courier_parcels := courier_parcels db;
     courier_events := courier_events db;
     whatsapp_messages := whatsapp_messages db;
     whatsapp_conversations := cs |}.

(** [await supabase.from("whatsapp_messages").insert({phone, direction: "in",
    message_sid, raw_payload})].  The answer is not read: an insert the
    database refuses leaves the store as it was.  whatsapp_messages has no
    column message_sid. *)
Definition log_message (phone messageSid : option string) (rawPayload : string)
    (db : DB) : DB :=
  default db
    (insert_whatsapp_message ["phone"; "direction"; "message_sid"; "raw_payload"]
       {| wm_phone := phone; wm_direction := "in";
          wm_raw_payload := rawPayload |} db).

(** [saveState]: the new context is spread over the stored one and the
    record is upserted under the phone. *)
Definition saveState (env : Env) (phone : string)
    (conversation : option Conversation)
    (newState : string) (newContext : Context) (db : DB) : DB :=
  let merged := newContext ∪ from_option conv_context ∅ conversation in
  with_conversations db
    (<[phone := {| conv_state := newState; conv_context := merged;
                   conv_last_message_at := now env |}]>
       (whatsapp_conversations db)).

Definition delete_conversation (phone : string) (db : DB) : DB :=
  with_conversations db (delete phone (whatsapp_conversations db)).

(** [conversation?.state || STATES.AWAIT_CODE] *)
Definition state_of (conversation : option Conversation) : string :=
  match conversation with
  | Some c => if String.eqb (conv_state c) "" then AWAIT_CODE else conv_state c
  | None => AWAIT_CODE
  end.

(** [conversation?.context || {}] *)
Definition context_of (conversation : option Conversation) : Context :=
  from_option conv_context ∅ conversation.

Definition class_json (c : Class) : JVal :=
  JObj [("id", JNum (class_id c)); ("name", JStr (class_name c))].

Definition item_json (i : Item) : JVal :=
  JObj [("id", JNum (item_id i)); ("title", JStr (title i));
        ("price_paise", JNum (price_paise i)); ("stock", JNum (stock i));
        ("active", JBool (item_active i))].

(** [.order("sort_order")] *)
Definition by_sort_order (a b : Class) : Prop := sort_order a ≤ sort_order b.

#[local] Instance by_sort_order_dec : RelDecision by_sort_order :=
  fun a b => decide (sort_order a ≤ sort_order b).

Definition classes_of (db : DB) (school : School) : list Class :=
  merge_sort by_sort_order
    (filter (fun c => class_school_id c = school_id school) (classes db)).

Definition await_code (env : Env) (db : DB) (phone : string)
    (conversation : option Conversation) (body : string) : DB * list Effect :=
  if negb (four_digits body) then (db, [SendWhatsApp phone AskCode])
  else
    match maybeSingle
            (filter (fun s => code_4digit s = body ∧ school_active s = true)
                    (schools db)) with
    | OneRow school =>
        let classes := class_json <$> classes_of db school in
        let newCtx : Context :=
          list_to_map
            [("school_id", JNum (school_id school));
             ("school_name", JStr (school_name school));
             ("school_code", JStr (code_4digit school));
             ("classes", JArr classes);
             ("selected_items", JArr [])] in
        (saveState env phone conversation AWAIT_CLASS newCtx db,
         [SendWhatsApp phone (CodeAccepted (JStr (school_name school)) classes)])
    | _ => (db, [SendWhatsApp phone InvalidCode])
    end.

Definition await_class (env : Env) (db : DB) (phone : string)
    (conversation : option Conversation) (context : Context) (body : string)
    : DB * list Effect :=
  match field "classes" context, parseInt body with
  | JArr classes, Some n =>
      let idx := n - 1 in
      if (idx <? 0) || (Z.of_nat (length classes) <=? idx)
      then (db, [SendWhatsApp phone InvalidSelection])
      else
        match classes !! Z.to_nat idx with
        | Some JNull | None => (db, [])          (* chosen.id throws *)
        | Some chosen =>
            let newCtx : Context :=
              list_to_map [("class_id", prop "id" chosen);
                           ("class_name", prop "name" chosen)] in
            (saveState env phone conversation AWAIT_CATEGORY newCtx db,
             [SendWhatsApp phone AskCategory])
        end
  | _, _ => (db, [SendWhatsApp phone InvalidSelection])
  end.

Definition available_groups (db : DB) (category : string) (class : JVal)
    : list Group :=
  let groups := filter (fun g => group_type g = category) (groups db) in
  let assignments :=
    match class with
    | JNum n => filter (fun a => cga_class_id a = n) (class_group_assignments db)
    | _ => []
    end in
  let assignedIds := cga_group_id <$> assignments in
  filter (fun g => group_id g ∈ assignedIds) groups.

Definition await_category (env : Env) (db : DB) (phone : string)
    (conversation : option Conversation) (context : Context) (body : string)
    : DB * list Effect :=
  if negb (String.eqb body "1") && negb (String.eqb body "2")
  then (db, [SendWhatsApp phone CategoryHelp])
  else
    let category := if String.eqb body "1" then "books" else "stationery" in
    match available_groups db category (field "class_id" context) with
    | [] => (db, [SendWhatsApp phone NoItemsForClass])
    | g :: _ =>
        let groupId := group_id g in
        let items :=
          item_json <$>
            filter (fun i => item_group_id i = Some groupId ∧ item_active i = true)
                   (items db) in
        let newCtx : Context :=
          list_to_map [("category", JStr category); ("items", JArr items);
                       ("selected_items", JArr [])] in
        (saveState env phone conversation AWAIT_DELIVERY newCtx db,
         [SendWhatsApp phone (AskDelivery (take 5 items))])
    end.

Definition await_delivery (env : Env) (db : DB) (phone : string)
    (conversation : option Conversation) (body : string) : DB * list Effect :=
  if negb (String.eqb body "1") && negb (String.eqb body "2")
  then (db, [SendWhatsApp phone DeliveryHelp])
  else
    let delivery_type := if String.eqb body "1" then "school" else "home" in
    let newCtx : Context := {["delivery_type" := JStr delivery_type]} in
    let nextState :=
      if String.eqb delivery_type "home" then AWAIT_ADDRESS else AWAIT_CONFIRM in
    (saveState env phone conversation nextState newCtx db,
     [SendWhatsApp phone
        (if String.eqb delivery_type "home" then AskAddress else AskConfirm)]).

Definition await_address (env : Env) (db : DB) (phone : string)
    (conversation : option Conversation) (body : string) : DB * list Effect :=
  (saveState env phone conversation AWAIT_CONFIRM {["address" := JStr body]} db,
   [SendWhatsApp phone AskConfirm]).

(** [(context.items || []).slice(0, 3).map(it => ({item_id: it.id, qty: 1}))];
    no result when the expression throws. *)
Definition safeItems (context : Context) : option (list JVal) :=
  let its := field "items" context in
  match its with
  | JArr l =>
      let first := take 3 l in
      if existsb (fun it => match it with JNull => true | _ => false end) first
      then None
      else Some ((fun it => JObj [("item_id", prop "id" it); ("qty", JNum 1)])
                   <$> first)
  | _ => if js_truthy its then None else Some []
  end.

Definition await_confirm (env : Env) (db : DB) (phone : string)
    (context : Context) (body : string) : DB * list Effect :=
  if negb (String.eqb (toUpperCase body) "CONFIRM")
  then (db, [SendWhatsApp phone ConfirmHelp])
  else if negb (js_truthy (field "school_code" context))
  then (db, [SendWhatsApp phone SomethingWrong])
  else
    match safeItems context with
    | None => (db, [])
    | Some [] => (db, [SendWhatsApp phone NoItemsToOrder])
    | Some items =>
        let call :=
          PostCreateOrder
            (JObj [("school_code", field "school_code" context);
                   ("class_id", field "class_id" context);
                   ("category", field "category" context);
                   ("items", JArr items);
                   ("delivery_type", field "delivery_type" context);
                   ("parent_phone", JStr phone);
                   ("parent_name", field "parent_name" context);
                   ("address", field "address" context)]) in
        match create_order_reply env with
        | Unreachable => (db, [call])
        | NotOk errorText => (db, [call; SendWhatsApp phone (OrderFailed errorText)])
        | Ok id total link =>
            (delete_conversation phone db,
             [call;
              SendWhatsApp phone
                (OrderCreated id total (if truthy link then link else None))])
        end
    end.

(** The chain of [if (state === ...)] blocks. *)
Definition state_machine (env : Env) (db : DB) (phone : string)
    (conversation : option Conversation) (body : string) : DB * list Effect :=
  let state := state_of conversation in
  let context := context_of conversation in
  if String.eqb state AWAIT_CODE then await_code env db phone conversation body
  else if String.eqb state AWAIT_CLASS
  then await_class env db phone conversation context body
  else if String.eqb state AWAIT_CATEGORY
  then await_category env db phone conversation context body
  else if String.eqb state AWAIT_DELIVERY
  then await_delivery env db phone conversation body
  else if String.eqb state AWAIT_ADDRESS
  then await_address env db phone conversation body
  else if String.eqb state AWAIT_CONFIRM
  then await_confirm env db phone context body
  else (db, [SendWhatsApp phone Unexpected]).

Definition normalize_phone (from : string) : string :=
  replace_prefix_ci "+" (replace_prefix_ci "whatsapp:" from).

Definition non_empty (s : string) : option string :=
  match s with
  | EmptyString => None
  | _ => Some s
  end.

(** The POST handler; it answers 200 "OK" on every path. *)
Definition handle (env : Env) (db : DB) (req : Inbound) : DB * list Effect :=
  match req with
  | NoMessageObject rawPayload => (log_message None None rawPayload db, [])
  | Text from bodyText messageSid rawPayload =>
      let body := trim bodyText in
      if String.eqb from "" || String.eqb body ""
      then (log_message (non_empty from) (non_empty messageSid) rawPayload db, [])
      else
        let normalizedPhone := normalize_phone from in
        let db1 :=
          log_message (Some normalizedPhone) (non_empty messageSid) rawPayload db in
        let conversation := whatsapp_conversations db1 !! normalizedPhone in
        if String.eqb (toUpperCase body) "START"
        then (delete_conversation normalizedPhone db1,
              [SendWhatsApp normalizedPhone Welcome])
        else state_machine env db1 normalizedPhone conversation body
  end.

(** The reset command: [body.toUpperCase() === "START"]. *)
Definition is_start (body : string) : bool :=
  String.eqb (toUpperCase body) "START".

Definition guidance (m : Message) : bool :=
  match m with
  | AskCode | InvalidCode | InvalidSelection | CategoryHelp | DeliveryHelp
  | ConfirmHelp | Unexpected => true
  | _ => false
  end.

End WhatsappWebhook.

(** ** create-shipment: the courier dispatcher *)

Module CreateShipment.
Import JS Store.

(** The answer of the courier API: refused (not ok, or the call throws), or
    a body of which the handler reads [packages[0].waybill] and [waybill]. *)
Inductive CourierReply :=
| CourierRefused
| CourierAnswered (first_package_waybill : option string) (data : DelhiveryPayload).

(** [delhivery_api_key] is whether DELHIVERY_API_KEY is set, [now] is
    [Date.now()], [compute_weights_reachable] whether the call of
    compute-weights answers ok. *)
Record Env := {
  delhivery_api_key : bool;
  now : Z;
  compute_weights_reachable : bool;
  courier : CourierReply }.

(** The fields of the shipment request that come from the order. *)
Record Shipment := {
  sh_name : string;
  sh_add : string;
  sh_phone : string;
  sh_order : Z;
  sh_total_amount_paise : Z;
  sh_quantity : Z;
  sh_shipment_width : Z;
  sh_shipment_height : Z;
  sh_weight_grams : Z;
  sh_address_type : string }.

Inductive Response :=
| OrderIdRequired                       (* 400 *)
| NoParcels                             (* 400 *)
| MockShipment (id : Z) (awb : string)  (* 200, with the mock message *)
| Shipped (id : Z) (awb : string)       (* 200, with the tracking url *)
| Failed.                               (* 500 *)

Definition http_status (r : Response) : Z :=
  match r with
  | OrderIdRequired | NoParcels => 400
  | MockShipment _ _ | Shipped _ _ => 200
  | Failed => 500
  end.

(** The update of the order once a tracking id is known. *)
Definition set_shipped (awb : string) (o : Order) : Order :=
  {| order_id := order_id o; order_school_id := order_school_id o;
     order_class_id := order_class_id o; parent_phone := parent_phone o;
     parent_name := parent_name o; delivery_type := delivery_type o;
     delivery_address := delivery_address o;
     delivery_charge_paise := delivery_charge_paise o;
     items_total_paise := items_total_paise o;
     total_amount_paise := total_amount_paise o;
     payment_id := payment_id o; payment_link := payment_link o;
     payment_status := payment_status o;
     status := "processing";
     package_count := package_count o;
     package_weight_grams := package_weight_grams o;
     package_volumetric_grams := package_volumetric_grams o;
     billed_weight_grams := billed_weight_grams o;
     courier_awb := Some awb; courier_service := Some "delhivery";
     raw_request := raw_request o |}.

Definition set_parcel_awb (awb : string) (p : CourierParcel) : CourierParcel :=
  {| cp_order_id := cp_order_id p; cp_parcel_index := cp_parcel_index p;
     cp_actual_weight_grams := cp_actual_weight_grams p;
     cp_length_cm := cp_length_cm p; cp_width_cm := cp_width_cm p;
     cp_height_cm := cp_height_cm p;
     cp_volumetric_grams := cp_volumetric_grams p;
     cp_billed_weight_grams := cp_billed_weight_grams p;
     cp_awb := Some awb |}.

(** The two updates: the order, then its parcels. *)
Definition record_awb (id : Z) (awb : string) (db : DB) : DB :=
  let db1 := update_order id (set_shipped awb) db in
  ComputeWeights.with_courier_parcels db1
    (map (fun p => if cp_order_id p =? id then set_parcel_awb awb p else p)
         (courier_parcels db1)).

(** [.order("parcel_index")] *)
Definition by_parcel_index (a b : CourierParcel) : Prop :=
  cp_parcel_index a ≤ cp_parcel_index b.

#[local] Instance by_parcel_index_dec : RelDecision by_parcel_index :=
  fun a b => decide (cp_parcel_index a ≤ cp_parcel_index b).

Definition parcels_of (db : DB) (id : Z) : list CourierParcel :=
  merge_sort by_parcel_index
    (filter (fun p => cp_order_id p = id) (courier_parcels db)).

(** [!order.billed_weight_grams] *)
Definition unweighed (o : Order) : bool :=
  match billed_weight_grams o with
  | None | Some 0 => true
  | Some _ => false
  end.

Definition shipment_of (db : DB) (order : Order) (billed : option Z)
    (first : CourierParcel) : Shipment :=
  let school := List.find (fun s => school_id s =? order_school_id order) (schools db) in
  let deliveryAddress :=
    if String.eqb (delivery_type order) "home" then delivery_address order
    else school ≫= school_address in
  {| sh_name := (if truthy (parent_name order)
                 then default "" (parent_name order) else "Customer");
     sh_add := (if truthy deliveryAddress
                then default "" deliveryAddress else "Address not provided");
     sh_phone := parent_phone order;
     sh_order := order_id order;
     sh_total_amount_paise := total_amount_paise order;
     sh_quantity := package_count order;
     sh_shipment_width := default 10 (cp_width_cm first);
     sh_shipment_height := default 10 (cp_height_cm first);
     sh_weight_grams := default 0 billed;
     sh_address_type :=
       (if String.eqb (delivery_type order) "home" then "home" else "office") |}.

(** The handler.  Besides the answer and the store it returns the request
    posted to the courier, when one is posted.  The call of compute-weights
    is the handler of that function run on the store. *)
Definition handle (env : Env) (db : DB) (order_id : option Z)
    : Response * DB * option Shipment :=
  match order_id with
  | None | Some 0 => (OrderIdRequired, db, None)
  | Some id =>
      match filter (fun o => Store.order_id o = id) (orders db) with
      | [order] =>
          if unweighed order && negb (compute_weights_reachable env)
          then (Failed, db, None)
          else
            let db1 :=
              if unweighed order then (ComputeWeights.handle db (Some id)).2
              else db in
            let billed :=
              if unweighed order
              then Some (ComputeWeights.w_billed_weight_grams
                           (ComputeWeights.weights_of db id))
              else billed_weight_grams order in
            match parcels_of db1 id with
            | [] => (NoParcels, db1, None)
            | first :: _ =>
                if negb (delhivery_api_key env)
                then
                  let mockAwb := "MOCK" +:+ pretty (now env) in
                  (MockShipment id mockAwb, record_awb id mockAwb db1, None)
                else
                  let request := shipment_of db1 order billed first in
                  match courier env with
                  | CourierRefused => (Failed, db1, Some request)
                  | CourierAnswered first_waybill data =>
                      match or_else first_waybill (dp_waybill data) with
                      | Some (String c r) =>
                          let awb := String c r in
                          (Shipped id awb,
                           insert_courier_event
                             {| ce_order_id := Some id;
                                ce_courier_name := "delhivery";
                                ce_event_type := Some "shipment_created";
                                ce_event_payload := FromDelhivery data |}
                             (record_awb id awb db1),
                           Some request)
                      | _ => (Failed, db1, Some request)
                      end
                  end
            end
      | _ => (Failed, db, None)
      end
  end.

End CreateShipment.

(** ** whatsapp-webhook: the verification request of the provider *)

Module Verification.
Import JS Store.

Inductive Response :=
| Challenge (challenge : string)        (* 200, the challenge echoed *)
| Forbidden.                            (* 403 *)

(** The GET branch: [verify_token] is WHATSAPP_VERIFY_TOKEN, the other three
    are the query parameters hub.mode, hub.verify_token and hub.challenge. *)
Definition handle (verify_token : option string)
    (mode token challenge : option string) : Response :=
  if bool_decide (mode = Some "subscribe") && truthy token && truthy challenge
     && bool_decide (token = verify_token)
  then Challenge (default "" challenge)
  else Forbidden.

End Verification.

(** ** The helpers of the admin panel *)

Module Utils.
Import JS Store.

(** [generateSchoolCode]; [random] is the value of [Math.random()]. *)
Definition generateSchoolCode (random : Q) : string :=
  pretty (Qfloor (1000 + random * 9000)%Q).

End Utils.

(** ** The order analytics report *)

Module Analytics.
Import JS Store.

(** The loop [counts[k] = (counts[k] || 0) + 1] over the orders, for keys
    that do not name a property of [Object.prototype]. *)
Definition count_by (key : Order -> string) (orders : list Order)
    : gmap string nat :=
  foldl (fun counts o => <[key o := (default 0 (counts !! key o) + 1)%nat]> counts)
        ∅ orders.

Definition totalRevenue (orders : list Order) : Z :=
  foldl (fun sum o =>
           if String.eqb (payment_status o) "paid"
           then F64.add sum (total_amount_paise o) else sum)
        0 orders.

Definition completedOrders (orders : list Order) : nat :=
  length (filter (fun o => status o = "delivered") orders).

End Analytics.

(** ** The formulas of the specification, for comparison with the code *)

Module Spec.
Import JS Store ComputeWeights.

(** The OrderItem rows of an order. *)
Definition order_lines (db : DB) (id : Z) : list OrderItem :=
  filter (fun oi => oi_order_id oi = id) (order_items db).

(** The items of an order: for each of its OrderItem rows whose catalog item
    exists, the item and the quantity. *)
Definition contents (db : DB) (id : Z) : list (Item * Z) :=
  omap (fun oi =>
          (fun it => (it, oi_qty oi))
            <$> List.find (fun i => item_id i =? oi_item_id oi) (items db))
       (order_lines db id).

(** The rows of the selection of compute-weights whose join found the
    item, in the same form. *)
Definition joined (rows : list OrderItemRow) : list (Item * Z) :=
  omap (fun r => (fun it => (it, qty r)) <$> item r) rows.

(** Sum of item.weight_grams x qty *)
Definition total_item_weight (lines : list (Item * Z)) : Z :=
  foldr Z.add 0 ((fun p => weight_grams p.1 * p.2) <$> lines).

(** The maximum of one dimension across the items; 0 when no item has it. *)
Definition max_dimension (dim : Item -> option Z) (lines : list (Item * Z)) : Z :=
  foldr Z.max 0 (omap (fun p => dim p.1) lines).

Definition actual_weight (packaging package_count : Z)
    (lines : list (Item * Z)) : Z :=
  total_item_weight lines + packaging * package_count.

(** max_length x max_width x max_height *)
Definition volume (lines : list (Item * Z)) : Z :=
  max_dimension length_cm lines * max_dimension width_cm lines
  * max_dimension height_cm lines.

(** round: the integer nearest to a rational, a half going up. *)
Definition nearest (x : Q) : Z :=
  let f := Qfloor x in
  if Qle_bool (1 # 2) (x - inject_Z f) then f + 1 else f.

(** ceil: the least integer not below a rational. *)
Definition ceil (x : Q) : Z :=
  let f := Qfloor x in
  if Qeq_bool (inject_Z f) x then f else f + 1.

(** round(max_length x max_width x max_height / divisor x 1000), in exact
    arithmetic *)
Definition volumetric_weight (divisor : Z) (lines : list (Item * Z)) : Z :=
  nearest (inject_Z (volume lines) / inject_Z divisor * 1000)%Q.

(** The same formula with the quotient and the product rounded, each to the
    nearest double. *)
Definition volumetric_weight_in_doubles (divisor : Z) (lines : list (Item * Z))
    : Z :=
  nearest (F64.scale (F64.div (volume lines) divisor) 1000).

(** ceil(max(actual, volumetric) / rounding) x rounding *)
Definition billed_weight (rounding actual volumetric : Z) : Z :=
  ceil (inject_Z (Z.max actual volumetric) / inject_Z rounding)%Q * rounding.

(** The weights and quantities are not negative and their sum, with the
    packaging, is within the integers every one of which is a double. *)
Definition exact_sum (packaging : Z) (lines : list (Item * Z)) : Prop :=
  Forall (fun p => 0 <= weight_grams p.1 /\ 0 <= p.2) lines
  /\ 0 <= packaging
  /\ actual_weight packaging 1 lines <= 2 ^ 53.

(** A setting read by key, with its fallback when it is absent or zero. *)
Definition setting (db : DB) (key : string) (fallback : Z) : Z :=
  match settings db !! key with
  | Some 0 | None => fallback
  | Some v => v
  end.

(** [t] contains the lower-case pattern [p] in some letter case: a piece of
    [t] is [p] once lowered. *)
Definition mentions (t p : string) : Prop :=
  exists pre mid post : string,
    t = (pre ++ mid ++ post)%string /\ toLowerCase mid = p.

(** The four rules of the courier status mapper. *)
Definition pickup_related (t : string) : Prop :=
  mentions t "picked" \/ mentions t "pickup".

Definition on_the_way (t : string) : Prop :=
  mentions t "in transit" \/ mentions t "in_transit"
  \/ mentions t "dispatched" \/ mentions t "out for delivery".

Definition says_delivered (t : string) : Prop := mentions t "delivered".

Definition called_off (t : string) : Prop :=
  mentions t "cancelled" \/ mentions t "rto" \/ mentions t "return".

(** The courier event carries a tracking id that selects exactly [order]. *)
Definition courier_event_resolves (db : DB) (payload : DelhiveryPayload)
    (order : Order) : Prop :=
  truthy (or_else (dp_awb payload) (dp_waybill payload)) = true
  /\ filter (fun o => courier_awb o = or_else (dp_awb payload) (dp_waybill payload))
            (orders db) = [order].

(** The status text of a courier event: [status || statusCode || ""]. *)
Definition courier_status_text (payload : DelhiveryPayload) : string :=
  default "" (DelhiveryWebhook.status_text payload).

(** The sum of unit price x qty over the OrderItem rows of an order. *)
Definition lines_total (lines : list OrderItem) : Z :=
  foldr Z.add 0 ((fun oi => oi_unit_price_paise oi * oi_qty oi) <$> lines).

(** The bigserial of orders is ahead of every id in use. *)
Definition sequence_ahead (db : DB) : Prop :=
  (forall o, o ∈ orders db -> order_id o < orders_seq db)
  /\ (forall oi, oi ∈ order_items db -> oi_order_id oi < orders_seq db).

(** The catalog has no item of this id. *)
Definition not_in_catalog (db : DB) (id : Z) : Prop :=
  forall it, it ∈ items db -> item_id it <> id.

(** The request names an item the catalog does not have. *)
Definition has_unknown_item (db : DB) (req : CreateOrderRequest) : Prop :=
  exists line, line ∈ req_items req /\ not_in_catalog db line.1.

(** The catalog has the item and enough of it. *)
Definition in_stock (db : DB) (line : Z * Z) : Prop :=
  exists it, List.find (fun i => item_id i =? line.1) (items db) = Some it
             /\ line.2 <= stock it.

(** The school code of the request selects exactly one active school. *)
Definition school_resolves (db : DB) (req : CreateOrderRequest) : Prop :=
  exists school,
    filter (fun s => code_4digit s = req_school_code req /\ school_active s = true)
           (schools db) = [school].

(** The signature check of the payment webhook lets the request through. *)
Definition signature_accepted (env : RazorpayWebhook.Env) : Prop :=
  RazorpayWebhook.webhook_secret env
  && negb (RazorpayWebhook.signature_valid env) = false.

(** The audit record the payment webhook writes for an event. *)
Definition payment_audit (orderId : option Z) (e : RazorpayEvent) : CourierEvent :=
  {| ce_order_id := orderId; ce_courier_name := "razorpay";
     ce_event_type := (if truthy (ev_event e) then ev_event e else None);
     ce_event_payload := FromRazorpay e |}.

(** *** The validators of the conversation engine

    The valid input of each state, as the transition table words it: a
    four-digit code matching an active school; a 1-based index into the class
    list shown; "1" or "2"; free text; the literal CONFIRM. *)
Definition decimal_digit (c : ascii) : bool :=
  ((48 <=? N_of_ascii c) && (N_of_ascii c <=? 57))%N.

Definition all_digits (s : string) : bool :=
  forallb decimal_digit (list_ascii_of_string s).

Definition four_digit_code (s : string) : bool :=
  (String.length s =? 4)%nat && all_digits s.

(** The number a decimal numeral stands for. *)
Fixpoint decimal (s : string) (acc : Z) : Z :=
  match s with
  | EmptyString => acc
  | String c r => decimal r (10 * acc + (Z.of_N (code c) - 48))
  end.

(** [s] is the decimal numeral of an index from 1 to [n]. *)
Definition index_into (n : nat) (s : string) : bool :=
  negb (String.eqb s "") && all_digits s
  && (1 <=? decimal s 0) && (decimal s 0 <=? Z.of_nat n).

Definition valid_input (db : DB) (conversation : option Conversation)
    (body : string) : bool :=
  let state := WhatsappWebhook.state_of conversation in
  let context := WhatsappWebhook.context_of conversation in
  if String.eqb state WhatsappWebhook.AWAIT_CODE then
    four_digit_code body
    && existsb (fun s => String.eqb (code_4digit s) body && school_active s)
               (schools db)
  else if String.eqb state WhatsappWebhook.AWAIT_CLASS then
    match WhatsappWebhook.field "classes" context with
    | JArr classes => index_into (length classes) body
    | _ => false
    end
  else if String.eqb state WhatsappWebhook.AWAIT_CATEGORY then
    String.eqb body "1" || String.eqb body "2"
  else if String.eqb state WhatsappWebhook.AWAIT_DELIVERY then
    String.eqb body "1" || String.eqb body "2"
  else if String.eqb state WhatsappWebhook.AWAIT_ADDRESS then true
  else if String.eqb state WhatsappWebhook.AWAIT_CONFIRM then
    String.eqb body "CONFIRM"
  else false.

(** What the engine takes beyond the table: in AWAIT_CLASS a text that
    [parseInt] reads as a number from 1 to the length of the class list,
    whatever follows the number; in AWAIT_CONFIRM the word CONFIRM in any
    letter case. *)
Definition also_taken (conversation : option Conversation) (body : string)
    : bool :=
  let state := WhatsappWebhook.state_of conversation in
  let context := WhatsappWebhook.context_of conversation in
  if String.eqb state WhatsappWebhook.AWAIT_CODE then false
  else if String.eqb state WhatsappWebhook.AWAIT_CLASS then
    match WhatsappWebhook.field "classes" context, parseInt body with
    | JArr classes, Some n => (1 <=? n) && (n <=? Z.of_nat (length classes))
    | _, _ => false
    end
  else if String.eqb state WhatsappWebhook.AWAIT_CATEGORY then false
  else if String.eqb state WhatsappWebhook.AWAIT_DELIVERY then false
  else if String.eqb state WhatsappWebhook.AWAIT_ADDRESS then false
  else if String.eqb state WhatsappWebhook.AWAIT_CONFIRM then
    String.eqb (toUpperCase body) "CONFIRM"
  else false.

(** A reply of the conversation engine that is one guidance prompt to the
    sender, the store untouched. *)
Definition reprompt (phone : string) (db : DB) (out : DB * list Outbound.Effect)
    : Prop :=
  out.1 = db
  /\ exists m, out.2 = [Outbound.SendWhatsApp phone m]
               /\ WhatsappWebhook.guidance m = true.

(** The amounts of an order, with its id. *)
Definition amounts (o : Order) : Z * Z * Z * Z :=
  (order_id o, items_total_paise o, total_amount_paise o, delivery_charge_paise o).

(** One later request to the system: a payment event, a courier event, a
    weight computation, a chat message or an edit of a catalog item. *)
Inductive later_request : DB -> DB -> Prop :=
| payment_webhook (env : RazorpayWebhook.Env) (db : DB) (body : option RazorpayEvent) :
    later_request db (RazorpayWebhook.handle env db body).1.2
| courier_webhook (db : DB) (payload : DelhiveryPayload) :
    later_request db (DelhiveryWebhook.handle db payload).2
| weights_request (db : DB) (id : option Z) :
    later_request db (ComputeWeights.handle db id).2
| chat_message (env : WhatsappWebhook.Env) (db : DB) (m : WhatsappWebhook.Inbound) :
    later_request db (WhatsappWebhook.handle env db m).1
| item_saved (editingItem : Z) (itemData : Item) (db : DB) :
    later_request db (Catalog.handleSaveItem editingItem itemData db).

(** The surroundings of a create-order call, with the insert of the order
    items made to fail. *)
Definition failing_items_insert (env : CreateOrder.Env) : CreateOrder.Env :=
  {| CreateOrder.school_query_fails := CreateOrder.school_query_fails env;
     CreateOrder.settings_query_fails := CreateOrder.settings_query_fails env;
     CreateOrder.items_query_fails := CreateOrder.items_query_fails env;
     CreateOrder.order_insert_fails := CreateOrder.order_insert_fails env;
     CreateOrder.order_items_insert_fails := true;
     CreateOrder.razorpay := CreateOrder.razorpay env |}.

(** A change of an order that keeps its id and its amounts. *)
Definition keeps_amounts (g : Order -> Order) : Prop :=
  forall o, order_id (g o) = order_id o
            /\ items_total_paise (g o) = items_total_paise o
            /\ total_amount_paise (g o) = total_amount_paise o
            /\ delivery_charge_paise (g o) = delivery_charge_paise o.

(** The amount of a line of the order being assembled. *)
Definition line_amount (l : CreateOrder.Line) : Z :=
  CreateOrder.line_unit_price_paise l * CreateOrder.line_qty l.

(** The running total of create-order over the lines, in doubles. *)
Definition running_total (total : Z) (lines : list CreateOrder.Line) : Z :=
  foldl (fun t l =>
           F64.add t (F64.mul (CreateOrder.line_unit_price_paise l)
                              (CreateOrder.line_qty l)))
        total lines.

(** The amount of a request at the prices of the catalog, in exact
    arithmetic. *)
Definition request_amount (db : DB) (requested : list (Z * Z)) : Z :=
  foldr Z.add 0
    ((fun line =>
        match List.find (fun i => item_id i =? line.1) (items db) with
        | Some it => price_paise it * line.2
        | None => 0
        end) <$> requested).

(** The quantities and prices of a request are not negative, nor is the
    delivery charge, and the amount with the charge is within the integers
    every one of which is a double. *)
Definition exact_amounts (db : DB) (charge : Z) (requested : list (Z * Z))
    : Prop :=
  Forall (fun line =>
            0 <= line.2
            /\ forall it,
                 List.find (fun i => item_id i =? line.1) (items db) = Some it ->
                 0 <= price_paise it <= 2 ^ 53)
         requested
  /\ 0 <= charge
  /\ request_amount db requested + charge <= 2 ^ 53.

(** The line answers the request at the price of its catalog item as the
    handler reads it, and the item is in stock. *)
Definition priced_from (itemsData : list Item) (request : Z * Z)
    (l : CreateOrder.Line) : Prop :=
  CreateOrder.line_item_id l = request.1
  /\ CreateOrder.line_qty l = request.2
  /\ exists it, List.find (fun i => item_id i =? request.1) itemsData = Some it
                /\ CreateOrder.line_unit_price_paise l
                   = F64.Number (price_paise it)
                /\ request.2 <= stock it.

End Spec.

(** ** Stores used as examples *)

Module Examples.
Import JS Store.

Definition empty_db : DB :=
  {| schools := []; classes := []; groups := []; class_group_assignments := [];
     items := []; settings := ∅; orders := []; orders_seq := 1;
     order_items := []; courier_parcels := []; courier_events := [];
     whatsapp_messages := []; whatsapp_conversations := ∅ |}.

Definition notebook : Item :=
  {| item_id := 1; item_group_id := Some 1; title := "Notebook";
     price_paise := 12000; stock := 10; weight_grams := 200;
     length_cm := Some 20; width_cm := Some 15; height_cm := Some 2;
     item_active := true |}.

Definition a_request : CreateOrderRequest :=
  {| req_school_code := "1001"; req_class_id := Some 1;
     req_items := [(1, 2)]; req_delivery_type := "school";
     req_parent_phone := "919800000001"; req_parent_name := None;
     req_address := None |}.

Definition an_order (id : Z) (pay st : string) : Order :=
  {| order_id := id; order_school_id := 1; order_class_id := Some 1;
     parent_phone := "919800000001"; parent_name := None;
     delivery_type := "school"; delivery_address := None;
     delivery_charge_paise := 5000; items_total_paise := 24000;
     total_amount_paise := 29000;
     payment_id := Some "plink_1"; payment_link := None;
     payment_status := pay; status := st;
     package_count := 1; package_weight_grams := None;
     package_volumetric_grams := None; billed_weight_grams := None;
     courier_awb := Some "AWB1"; courier_service := None;
     raw_request := a_request |}.

(** One order of two notebooks, with the settings of the migration. *)
Definition weighing_db : DB :=
  {| schools := []; classes := []; groups := []; class_group_assignments := [];
     items := [notebook];
     settings :=
       list_to_map [("default_packaging_weight_grams", 50);
                    ("volumetric_divisor", 5000);
                    ("weight_rounding_grams", 500);
                    ("school_delivery_charge_paise", 5000);
                    ("home_delivery_charge_paise", 15000)];
     orders := [an_order 1 "pending" "pending"]; orders_seq := 2;
     order_items :=
       [{| oi_order_id := 1; oi_item_id := 1; oi_qty := 2;
           oi_unit_price_paise := 12000 |}];
     courier_parcels := []; courier_events := [];
     whatsapp_messages := []; whatsapp_conversations := ∅ |}.

(** A paid order handed to the courier under the tracking id AWB1. *)
Definition shipped_db : DB :=
  {| schools := []; classes := []; groups := []; class_group_assignments := [];
     items := [notebook]; settings := ∅;
     orders := [an_order 1 "paid" "processing"]; orders_seq := 2;
     order_items :=
       [{| oi_order_id := 1; oi_item_id := 1; oi_qty := 2;
           oi_unit_price_paise := 12000 |}];
     courier_parcels := []; courier_events := [];
     whatsapp_messages := []; whatsapp_conversations := ∅ |}.

Definition courier_event (awb status : string) : DelhiveryPayload :=
  {| dp_awb := Some awb; dp_waybill := None;
     dp_status := Some status; dp_Status := None;
     dp_status_code := None; dp_StatusCode := None |}.

(** A store with one school and the notebook, and no order yet. *)
Definition shop_db : DB :=
  {| schools :=
       [{| school_id := 1; school_name := "Hill School"; code_4digit := "1001";
           school_address := None; school_active := true |}];
     classes :=
       [{| class_id := 1; class_school_id := 1; class_name := "Class 1";
           sort_order := 1 |}];
     groups := [{| group_id := 1; group_name := "Books 1"; group_type := "books" |}];
     class_group_assignments := [{| cga_class_id := 1; cga_group_id := 1 |}];
     items := [notebook];
     settings := ∅;
     orders := []; orders_seq := 1; order_items := [];
     courier_parcels := []; courier_events := [];
     whatsapp_messages := []; whatsapp_conversations := ∅ |}.

Definition request_for (lines : list (Z * Z)) : CreateOrderRequest :=
  {| req_school_code := "1001"; req_class_id := Some 1;
     req_items := lines; req_delivery_type := "school";
     req_parent_phone := "919800000001"; req_parent_name := None;
     req_address := None |}.

(** Every supabase call succeeds; no payment provider is configured. *)
Definition quiet : CreateOrder.Env :=
  {| CreateOrder.school_query_fails := false;
     CreateOrder.settings_query_fails := false;
     CreateOrder.items_query_fails := false;
     CreateOrder.order_insert_fails := false;
     CreateOrder.order_items_insert_fails := false;
     CreateOrder.razorpay := None |}.

(** The insert of the order items comes back with an error. *)
Definition items_insert_down : CreateOrder.Env :=
  {| CreateOrder.school_query_fails := false;
     CreateOrder.settings_query_fails := false;
     CreateOrder.items_query_fails := false;
     CreateOrder.order_insert_fails := false;
     CreateOrder.order_items_insert_fails := true;
     CreateOrder.razorpay := None |}.

(** The webhook secret is set and the signature checks; create-shipment
    answers with a tracking id. *)
Definition verified : RazorpayWebhook.Env :=
  {| RazorpayWebhook.webhook_secret := true;
     RazorpayWebhook.signature_valid := true;
     RazorpayWebhook.shipment_awb := Some "AWB9" |}.

Definition link_paid (link_id : string) : RazorpayEvent :=
  {| ev_event := Some "payment_link.paid";
     ev_payment_link :=
       Some {| ent_id := Some link_id; ent_notes_order_id := None;
               ent_order_id := None |};
     ev_payment := None |}.

Definition payment_of (event : string) (order : Z) : RazorpayEvent :=
  {| ev_event := Some event;
     ev_payment_link := None;
     ev_payment :=
       Some {| ent_id := Some "pay_1"; ent_notes_order_id := Some order;
               ent_order_id := None |} |}.

(** One order, with the given payment and lifecycle status. *)
Definition one_order_db (pay st : string) : DB :=
  {| schools := []; classes := []; groups := []; class_group_assignments := [];
     items := [notebook]; settings := ∅;
     orders := [an_order 1 pay st]; orders_seq := 2;
     order_items :=
       [{| oi_order_id := 1; oi_item_id := 1; oi_qty := 2;
           oi_unit_price_paise := 12000 |}];
     courier_parcels := []; courier_events := [];
     whatsapp_messages := []; whatsapp_conversations := ∅ |}.

Definition chat_env : WhatsappWebhook.Env :=
  {| WhatsappWebhook.now := 1700000000;
     WhatsappWebhook.create_order_reply := WhatsappWebhook.Unreachable |}.

(** The shop with one conversation, waiting for the class. *)
Definition chatting_db : DB :=
  {| schools := schools shop_db; classes := classes shop_db;
     groups := groups shop_db;
     class_group_assignments := class_group_assignments shop_db;
     items := items shop_db; settings := ∅;
     orders := []; orders_seq := 1; order_items := [];
     courier_parcels := []; courier_events := [];
     whatsapp_messages := [];
     whatsapp_conversations :=
       {[ "919800000001" :=
            {| conv_state := "AWAIT_CLASS";
               conv_context :=
                 {[ "classes" :=
                      JArr [JObj [("id", JNum 1); ("name", JStr "Class 1")]] ]};
               conv_last_message_at := 0 |} ]} |}.

End Examples.

(** ** Notions used by the further properties *)

Module Notions.
Import JS Store.

(** The order ids in use are below the sequence and pairwise different. *)
Definition well_numbered (db : DB) : Prop :=
  Spec.sequence_ahead db /\ NoDup (order_id <$> orders db).

(** One request to the system, to any of its handlers or from the catalog
    screen. *)
Inductive request : DB -> DB -> Prop :=
| later (db db' : DB) :
    Spec.later_request db db' -> request db db'
| order_request (env : CreateOrder.Env) (db : DB) (req : CreateOrderRequest) :
    request db (CreateOrder.handle env db req).1.2
| shipment_request (env : CreateShipment.Env) (db : DB) (id : option Z) :
    request db (CreateShipment.handle env db id).1.2.

(** The store with one setting written. *)
Definition with_setting (key : string) (v : option Z) (db : DB) : DB :=
  {| schools := schools db; classes := classes db; groups := groups db;
     class_group_assignments := class_group_assignments db;
     items := items db;
     settings := (match v with
                  | Some n => <[key := n]> (settings db)
                  | None => delete key (settings db)
                  end);
     orders := orders db; orders_seq := orders_seq db;
     order_items := order_items db; courier_parcels := courier_parcels db;
     courier_events := courier_events db;
     whatsapp_messages := whatsapp_messages db;
     whatsapp_conversations := whatsapp_conversations db |}.

(** No item of the order has the dimension [dim]: it is null or zero. *)
Definition lacks (dim : Item -> option Z) (lines : list (Item * Z)) : Prop :=
  forall p, p ∈ lines -> dim p.1 = None \/ dim p.1 = Some 0.

(** [linkEntity.id || null] *)
Definition link_id (ent : RazorpayEntity) : option string :=
  if truthy (ent_id ent) then ent_id ent else None.


(** What the courier hand-over writes on an order, with its id. *)
Definition dispatch_state (o : Order)
    : Z * string * option string * option string :=
  (order_id o, status o, courier_awb o, courier_service o).

(** The answer of create-shipment says the order went out under [awb]. *)
Definition dispatched (r : CreateShipment.Response) (id : Z) (awb : string)
    : Prop :=
  r = CreateShipment.Shipped id awb \/ r = CreateShipment.MockShipment id awb.


(** The phone under which the conversation of a call is kept. *)
Definition sender (m : WhatsappWebhook.Inbound) : option string :=
  match m with
  | WhatsappWebhook.NoMessageObject _ => None
  | WhatsappWebhook.Text from _ _ _ => Some (WhatsappWebhook.normalize_phone from)
  end.

End Notions.

(** ** Further example stores *)

Module MoreExamples.
Import JS Store.

(** A pencil has no height on record. *)
Definition pencil : Item :=
  {| item_id := 2; item_group_id := Some 1; title := "Pencil";
     price_paise := 500; stock := 100; weight_grams := 10;
     length_cm := Some 18; width_cm := Some 1; height_cm := None;
     item_active := true |}.

(** One order of three pencils. *)
Definition pencil_db : DB :=
  {| schools := schools Examples.shop_db; classes := classes Examples.shop_db;
     groups := groups Examples.shop_db;
     class_group_assignments := class_group_assignments Examples.shop_db;
     items := [Examples.notebook; pencil]; settings := ∅;
     orders := [Examples.an_order 1 "paid" "confirmed"]; orders_seq := 2;
     order_items :=
       [{| oi_order_id := 1; oi_item_id := 2; oi_qty := 3;
           oi_unit_price_paise := 500 |}];
     courier_parcels := []; courier_events := [];
     whatsapp_messages := []; whatsapp_conversations := ∅ |}.

(** A box of 22 x 13 x 7 cm. *)
Definition box : Item :=
  {| item_id := 3; item_group_id := Some 1; title := "Box";
     price_paise := 9000; stock := 10; weight_grams := 100;
     length_cm := Some 22; width_cm := Some 13; height_cm := Some 7;
     item_active := true |}.

(** One order of one box, the volumetric divisor set to 4000. *)
Definition box_db : DB :=
  {| schools := schools Examples.shop_db; classes := classes Examples.shop_db;
     groups := groups Examples.shop_db;
     class_group_assignments := class_group_assignments Examples.shop_db;
     items := [box];
     settings := {[ "volumetric_divisor" := 4000 ]};
     orders := [Examples.an_order 1 "pending" "pending"]; orders_seq := 2;
     order_items :=
       [{| oi_order_id := 1; oi_item_id := 3; oi_qty := 1;
           oi_unit_price_paise := 9000 |}];
     courier_parcels := []; courier_events := [];
     whatsapp_messages := []; whatsapp_conversations := ∅ |}.



(** An atlas at 1073741825 paise, plenty in stock. *)
Definition atlas : Item :=
  {| item_id := 5; item_group_id := Some 1; title := "Atlas";
     price_paise := 1073741825; stock := 10000000; weight_grams := 900;
     length_cm := Some 30; width_cm := Some 25; height_cm := Some 3;
     item_active := true |}.

(** The shop with the atlas in its catalog. *)
Definition atlas_db : DB :=
  {| schools := schools Examples.shop_db; classes := classes Examples.shop_db;
     groups := groups Examples.shop_db;
     class_group_assignments := class_group_assignments Examples.shop_db;
     items := [atlas]; settings := ∅;
     orders := []; orders_seq := 1; order_items := [];
     courier_parcels := []; courier_events := [];
     whatsapp_messages := []; whatsapp_conversations := ∅ |}.



(** No courier key is configured; compute-weights answers. *)
Definition no_courier_key : CreateShipment.Env :=
  {| CreateShipment.delhivery_api_key := false;
     CreateShipment.now := 1700000000000;
     CreateShipment.compute_weights_reachable := true;
     CreateShipment.courier := CreateShipment.CourierRefused |}.

(** The courier accepts the shipment and answers with a waybill. *)
Definition courier_accepts : CreateShipment.Env :=
  {| CreateShipment.delhivery_api_key := true;
     CreateShipment.now := 1700000000000;
     CreateShipment.compute_weights_reachable := true;
     CreateShipment.courier :=
       CreateShipment.CourierAnswered (Some "DL2041")
         {| dp_awb := None; dp_waybill := None; dp_status := None;
            dp_Status := None; dp_status_code := None;
            dp_StatusCode := None |} |}.

(** The courier is configured and refuses the shipment. *)
Definition courier_refuses : CreateShipment.Env :=
  {| CreateShipment.delhivery_api_key := true;
     CreateShipment.now := 1700000000000;
     CreateShipment.compute_weights_reachable := true;
     CreateShipment.courier := CreateShipment.CourierRefused |}.


(** The shop with a conversation that waits for CONFIRM, four items
    offered. *)
Definition confirming_db : DB :=
  {| schools := schools Examples.shop_db; classes := classes Examples.shop_db;
     groups := groups Examples.shop_db;
     class_group_assignments := class_group_assignments Examples.shop_db;
     items := items Examples.shop_db; settings := ∅;
     orders := []; orders_seq := 1; order_items := [];
     courier_parcels := []; courier_events := [];
     whatsapp_messages := [];
     whatsapp_conversations :=
       {[ "919800000001" :=
            {| conv_state := "AWAIT_CONFIRM";
               conv_context :=
                 list_to_map
                   [("school_code", JStr "1001"); ("class_id", JNum 1);
                    ("category", JStr "books");
                    ("items",
                     JArr [JObj [("id", JNum 1)]; JObj [("id", JNum 2)];
                           JObj [("id", JNum 3)]; JObj [("id", JNum 4)]]);
                    ("delivery_type", JStr "school")];
               conv_last_message_at := 0 |} ]} |}.

(** create-order answers with order 7. *)
Definition order_placed : WhatsappWebhook.Env :=
  {| WhatsappWebhook.now := 1700000000;
     WhatsappWebhook.create_order_reply :=
       WhatsappWebhook.Ok 7 29000 (Some "https://rzp.io/i/7") |}.

(** The shop with a conversation that waits for the delivery choice. *)
Definition delivery_db : DB :=
  {| schools := schools Examples.shop_db; classes := classes Examples.shop_db;
     groups := groups Examples.shop_db;
     class_group_assignments := class_group_assignments Examples.shop_db;
     items := items Examples.shop_db; settings := ∅;
     orders := []; orders_seq := 1; order_items := [];
     courier_parcels := []; courier_events := [];
     whatsapp_messages := [];
     whatsapp_conversations :=
       {[ "919800000001" :=
            {| conv_state := "AWAIT_DELIVERY";
               conv_context :=
                 list_to_map
                   [("school_code", JStr "1001"); ("class_id", JNum 1);
                    ("category", JStr "books");
                    ("items", JArr [JObj [("id", JNum 1)]])];
               conv_last_message_at := 0 |} ]} |}.

End MoreExamples.

(** ** Properties of the doubles *)

Module DoubleProperties.
Import F64.

#[local] Instance rne_proper : Proper (Qeq ==> eq) rne.
Proof.
  intros y y' E. unfold rne. rewrite (Qfloor_comp _ _ E).
  assert (E' : (y - inject_Z (Qfloor y') == y' - inject_Z (Qfloor y'))%Q)
    by (rewrite E; reflexivity).
  rewrite (Qcompare_comp _ _ E' (1 # 2) (1 # 2)) by reflexivity. reflexivity.
Qed.

Lemma rne_int (n : Z) : rne (inject_Z n) = n.
Proof.
  unfold rne. rewrite Qfloor_Z.
  assert (E : (inject_Z n - inject_Z n ?= 1 # 2)%Q = Lt).
  { rewrite <- Qlt_alt. lra. }
  rewrite E. reflexivity.
Qed.

(** Rounding to the nearest integer stays within the integers around. *)
Lemma rne_floor (y : Q) : Qfloor y <= rne y <= Qfloor y + 1.
Proof.
  unfold rne. destruct (_ ?= _)%Q; [destruct (Z.even _)| |]; lia.
Qed.

Lemma rne_le_int (y : Q) (k : Z) : (y <= inject_Z k)%Q -> rne y <= k.
Proof.
  intros Hy. unfold rne.
  pose proof (Qfloor_le y) as Hf. pose proof (Qlt_floor y) as Hl.
  assert (Hfk : Qfloor y <= k).
  { rewrite Zle_Qle. lra. }
  assert (Hstep : (1 # 2 <= y - inject_Z (Qfloor y))%Q -> Qfloor y + 1 <= k).
  { intros Hhalf. assert (Hlt : Qfloor y < k); [|lia].
    rewrite Zlt_Qlt. lra. }
  destruct (y - inject_Z (Qfloor y) ?= 1 # 2)%Q eqn:E.
  - apply Qeq_alt in E. destruct (Z.even _); [lia|]. apply Hstep. lra.
  - lia.
  - apply Qgt_alt in E. apply Hstep. lra.
Qed.

Lemma round_int_exact (z : Z) : Z.abs z <= 2 ^ 53 -> round_int z = z.
Proof.
  intros Hz. unfold round_int.
  destruct (Z.leb_spec (Z.abs z) (2 ^ 53)); [reflexivity | lia].
Qed.

Lemma pow2_split (e : Z) : 52 <= e -> 2 ^ e = 2 ^ 52 * 2 ^ (e - 52).
Proof.
  intros He. rewrite <- Z.pow_add_r by lia. f_equal. lia.
Qed.

Lemma floor_ge_int (y : Q) (k : Z) : (inject_Z k <= y)%Q -> k <= Qfloor y.
Proof. intros H. rewrite <- (Qfloor_Z k). apply Qfloor_resp_le, H. Qed.

Lemma floor_lt_int (y : Q) (k : Z) : (y < inject_Z k)%Q -> Qfloor y < k.
Proof.
  intros H. pose proof (Qfloor_le y) as Hf. rewrite Zlt_Qlt. lra.
Qed.

Lemma rne_ge_int (y : Q) (k : Z) : (inject_Z k <= y)%Q -> k <= rne y.
Proof.
  intros H. pose proof (rne_floor y). pose proof (floor_ge_int y k H). lia.
Qed.

Lemma div_ge (a c u : Z) :
  0 < u -> c * u <= a -> (inject_Z c <= inject_Z a / inject_Z u)%Q.
Proof.
  intros Hu H. apply Qle_shift_div_l.
  - rewrite <- (Zlt_Qlt 0). exact Hu.
  - rewrite <- inject_Z_mult, <- Zle_Qle. exact H.
Qed.

Lemma div_lt (a c u : Z) :
  0 < u -> a < c * u -> (inject_Z a / inject_Z u < inject_Z c)%Q.
Proof.
  intros Hu H. apply Qlt_shift_div_r.
  - rewrite <- (Zlt_Qlt 0). exact Hu.
  - rewrite <- inject_Z_mult, <- Zlt_Qlt. exact H.
Qed.

Lemma div_exact (c u : Z) :
  0 < u -> (inject_Z (c * u) / inject_Z u == inject_Z c)%Q.
Proof.
  intros Hu. rewrite inject_Z_mult. field.
  intros E. assert (H : (0 < inject_Z u)%Q) by (rewrite <- (Zlt_Qlt 0); exact Hu).
  rewrite E in H. discriminate H.
Qed.

(** The significand of an integer beyond 2^53. *)
Lemma significand_range (a : Z) :
  2 ^ 53 < a ->
  let u := 2 ^ (Z.log2 a - 52) in
  0 < u /\ 2 ^ 52 * u <= a < 2 ^ 53 * u
  /\ 2 ^ 52 <= rne (inject_Z a / inject_Z u) <= 2 ^ 53.
Proof.
  intros Ha u.
  assert (Hpos : 0 < a) by lia.
  destruct (Z.log2_spec a Hpos) as [Hlo Hhi].
  assert (He : 53 <= Z.log2 a).
  { apply Z.log2_le_pow2; lia. }
  assert (Hu : 0 < u) by (apply Z.pow_pos_nonneg; lia).
  rewrite (pow2_split (Z.log2 a)) in Hlo by lia. fold u in Hlo.
  replace (Z.succ (Z.log2 a)) with (53 + (Z.log2 a - 52)) in Hhi by lia.
  rewrite Z.pow_add_r in Hhi by lia. fold u in Hhi.
  split; [exact Hu|]. split; [lia|]. split.
  - apply rne_ge_int, div_ge; [exact Hu | exact Hlo].
  - apply rne_le_int. apply Qlt_le_weak, div_lt; [exact Hu | exact Hhi].
Qed.

(** A double is its own nearest double. *)
Lemma round_int_idem (z : Z) : round_int (round_int z) = round_int z.
Proof.
  destruct (Z.le_gt_cases (Z.abs z) (2 ^ 53)) as [Hs|Hb].
  { rewrite (round_int_exact z Hs). apply round_int_exact, Hs. }
  destruct (significand_range (Z.abs z) Hb) as (Hu & [Hlo Hhi] & HN).
  set (u := 2 ^ (Z.log2 (Z.abs z) - 52)) in *.
  set (N := rne (inject_Z (Z.abs z) / inject_Z u)) in *.
  assert (Hr : round_int z = Z.sgn z * (N * u)).
  { unfold round_int. destruct (Z.leb_spec (Z.abs z) (2 ^ 53)); [lia|].
    reflexivity. }
  rewrite Hr.
  assert (Habs : Z.abs (Z.sgn z * (N * u)) = N * u).
  { assert (0 < N * u) by nia. destruct z as [|p|p]; simpl Z.sgn; lia. }
  assert (Hsgn : Z.sgn (Z.sgn z * (N * u)) = Z.sgn z).
  { assert (0 < N * u) by nia. destruct z as [|p|p]; cbn [Z.sgn].
    - reflexivity.
    - apply Z.sgn_pos. lia.
    - apply Z.sgn_neg. lia. }
  unfold round_int. rewrite Habs, Hsgn.
  destruct (Z.leb_spec (N * u) (2 ^ 53)) as [_|Hbig]; [reflexivity|].
  assert (He : 53 <= Z.log2 (Z.abs z)) by (apply Z.log2_le_pow2; lia).
  f_equal.
  destruct (Z.eq_dec N (2 ^ 53)) as [HN53|HNlt].
  - assert (Hlog : Z.log2 (N * u) = Z.log2 (Z.abs z) + 1).
    { apply Z.log2_unique; [lia|]. rewrite HN53. unfold u.
      rewrite <- Z.pow_add_r by lia. split.
      - replace (53 + (Z.log2 (Z.abs z) - 52)) with (Z.log2 (Z.abs z) + 1) by lia.
        lia.
      - apply Z.pow_lt_mono_r; lia. }
    rewrite Hlog.
    replace (Z.log2 (Z.abs z) + 1 - 52) with (1 + (Z.log2 (Z.abs z) - 52)) by lia.
    rewrite Z.pow_add_r by lia. fold u. change (2 ^ 1) with 2.
    replace (N * u) with (2 ^ 52 * (2 * u)) by (rewrite HN53; change (2 ^ 53) with (2 * 2 ^ 52); ring).
    rewrite div_exact by lia. rewrite rne_int. ring.
  - assert (Hlog : Z.log2 (N * u) = Z.log2 (Z.abs z)).
    { apply Z.log2_unique; [lia|].
      rewrite (pow2_split (Z.log2 (Z.abs z))) by lia. fold u.
      replace (Z.succ (Z.log2 (Z.abs z)))
        with (53 + (Z.log2 (Z.abs z) - 52)) by lia.
      rewrite Z.pow_add_r by lia. fold u. nia. }
    rewrite Hlog. fold u. rewrite div_exact by exact Hu. rewrite rne_int.
    reflexivity.
Qed.

Lemma two_pos (e : Z) : (0 < 2 ^ e)%Q.
Proof. apply Qpower_0_lt. reflexivity. Qed.

Lemma pow2_inject (e : Z) : 0 <= e -> (inject_Z (2 ^ e) == 2 ^ e)%Q.
Proof. intros He. rewrite Zpower_Qpower by exact He. reflexivity. Qed.

(** [ilog2] does not overshoot. *)
Lemma ilog2_le (x : Q) : (0 < x)%Q -> (2 ^ ilog2 x <= x)%Q.
Proof.
  intros Hx. unfold ilog2. destruct x as [n d]. cbn [Qnum Qden].
  set (a := Z.log2 n). set (b := Z.log2 (Z.pos d)).
  destruct (Qle_bool (2 ^ (a - b)) (n # d)) eqn:E; [apply Qle_bool_iff, E|].
  assert (Hn : 0 < n).
  { unfold Qlt in Hx. simpl in *. lia. }
  destruct (Z.log2_spec _ Hn) as [Hlo _]. fold a in Hlo.
  destruct (Z.log2_spec (Z.pos d) eq_refl) as [_ Hhi]. fold b in Hhi.
  assert (Ha : 0 <= a) by apply Z.log2_nonneg.
  assert (Hb : 0 <= b) by apply Z.log2_nonneg.
  replace (a - b - 1) with (a - (b + 1)) by lia.
  rewrite Qpower_minus by discriminate.
  rewrite (Qmake_Qdiv n d).
  assert (HA : (2 ^ a <= inject_Z n)%Q).
  { rewrite <- pow2_inject by exact Ha. rewrite <- Zle_Qle. exact Hlo. }
  assert (HB : (inject_Z (Z.pos d) <= 2 ^ (b + 1))%Q).
  { rewrite <- pow2_inject by lia. rewrite <- Zle_Qle.
    replace (b + 1) with (Z.succ b) by lia. lia. }
  assert (HD : (0 < inject_Z (Z.pos d))%Q) by reflexivity.
  pose proof (two_pos a) as Hpa. pose proof (two_pos (b + 1)) as Hpb.
  apply Qle_shift_div_l; [exact HD|].
  apply Qle_trans with (2 ^ a)%Q; [|exact HA].
  assert (Hne : ~ (2 ^ (b + 1) == 0)%Q).
  { intros E0. rewrite E0 in Hpb. discriminate Hpb. }
  setoid_replace (2 ^ a / 2 ^ (b + 1) * inject_Z (Z.pos d))%Q
    with (2 ^ a * inject_Z (Z.pos d) / 2 ^ (b + 1))%Q using relation Qeq
    by (field; exact Hne).
  apply Qle_shift_div_r; [exact Hpb|].
  apply Qmult_le_l; [exact Hpa | exact HB].
Qed.

Lemma inject_pred (k : Z) : (inject_Z (k - 1) == inject_Z k - 1)%Q.
Proof.
  unfold Z.sub. rewrite inject_Z_plus. reflexivity.
Qed.

Lemma ceiling_unique (v : Q) (k : Z) :
  (inject_Z k - 1 < v)%Q -> (v <= inject_Z k)%Q -> Qceiling v = k.
Proof.
  intros Hlo Hhi.
  pose proof (Qle_ceiling v) as H1. pose proof (Qceiling_lt v) as H2.
  rewrite inject_pred in H2.
  assert (Qceiling v - 1 < k) by (rewrite Zlt_Qlt, inject_pred; lra).
  assert (k - 1 < Qceiling v) by (rewrite Zlt_Qlt, inject_pred; lra).
  lia.
Qed.

(** The quotient of two integers below 2^52 is rounded to a double with the
    same ceiling. *)
Lemma ceil_div (m r : Z) :
  0 <= m < 2 ^ 52 -> 0 < r <= 2 ^ 52 ->
  Qceiling (div m r) = Qceiling (inject_Z m / inject_Z r).
Proof.
  intros [Hm0 Hm] [Hr0 Hr]. unfold div.
  destruct r as [|p|p]; try lia.
  destruct m as [|q|q]; try lia; [reflexivity|].
  set (x := (inject_Z (Z.pos q) / inject_Z (Z.pos p))%Q).
  assert (Hx : (0 < x)%Q).
  { apply Qlt_shift_div_l; [reflexivity|]. rewrite Qmult_0_l. reflexivity. }
  change (round x) with (round_pos x).
  set (k := Qceiling x).
  assert (Hk1 : (inject_Z k - 1 < x)%Q).
  { pose proof (Qceiling_lt x) as H. fold k in H.
    rewrite inject_pred in H. exact H. }
  assert (Hk2 : (x <= inject_Z k)%Q) by apply Qle_ceiling.
  assert (HkZ : (k - 1) * Z.pos p < Z.pos q <= k * Z.pos p).
  { split.
    - rewrite Zlt_Qlt, inject_Z_mult, inject_pred.
      apply (Qmult_lt_r _ _ (inject_Z (Z.pos p))) in Hk1; [|reflexivity].
      unfold x in Hk1.
      assert (E : (inject_Z (Z.pos q) / inject_Z (Z.pos p) * inject_Z (Z.pos p)
                   == inject_Z (Z.pos q))%Q) by (field; discriminate).
      rewrite E in Hk1. exact Hk1.
    - rewrite Zle_Qle, inject_Z_mult.
      apply (Qmult_le_r _ _ (inject_Z (Z.pos p))) in Hk2; [|reflexivity].
      unfold x in Hk2.
      assert (E : (inject_Z (Z.pos q) / inject_Z (Z.pos p) * inject_Z (Z.pos p)
                   == inject_Z (Z.pos q))%Q) by (field; discriminate).
      rewrite E in Hk2. exact Hk2. }
  pose proof (ilog2_le x Hx) as Hlog.
  assert (Hxlt : (x < 2 ^ 52)%Q).
  { unfold x. apply Qlt_shift_div_r; [reflexivity|].
    apply Qlt_le_trans with (inject_Z (2 ^ 52)).
    - rewrite <- Zlt_Qlt. exact Hm.
    - rewrite pow2_inject by lia.
      rewrite <- (Qmult_1_r (2 ^ 52)) at 1.
      apply Qmult_le_l; [reflexivity|].
      change 1%Q with (inject_Z 1). rewrite <- Zle_Qle. lia. }
  assert (He : ilog2 x < 52).
  { apply (Qpower_lt_compat_l_inv 2); [|reflexivity].
    eapply Qle_lt_trans; eassumption. }
  unfold round_pos, ulp_exp.
  set (E := Z.max (ilog2 x) (-1022) - 52).
  assert (HE : E < 0) by lia.
  set (S := 2 ^ (- E)).
  assert (HS : 0 < S) by (apply Z.pow_pos_nonneg; lia).
  assert (HSQ : (2 ^ E == / inject_Z S)%Q).
  { unfold S. rewrite pow2_inject by lia. rewrite Qpower_opp.
    rewrite Qinv_involutive. reflexivity. }
  assert (HSr : Z.pos p <= S).
  { destruct (Z.max_spec (ilog2 x) (-1022)) as [[Hlt Hmax]|[Hle Hmax]].
    - transitivity (2 ^ 52); [exact Hr|]. unfold S.
      apply Z.pow_le_mono_r; lia.
    - assert (HSe : - E = 52 - ilog2 x) by lia.
      assert (Hq : (inject_Z (Z.pos p) * 2 ^ ilog2 x <= inject_Z (Z.pos q))%Q).
      { apply (Qmult_le_l _ _ (inject_Z (Z.pos p))) in Hlog; [|reflexivity].
        rewrite Qmult_comm in Hlog. rewrite (Qmult_comm (inject_Z (Z.pos p)) x) in Hlog.
        unfold x in Hlog.
        assert (E0 : (inject_Z (Z.pos q) / inject_Z (Z.pos p) * inject_Z (Z.pos p)
                      == inject_Z (Z.pos q))%Q) by (field; discriminate).
        rewrite E0 in Hlog. rewrite Qmult_comm. exact Hlog. }
      rewrite Zle_Qle. unfold S. rewrite pow2_inject by lia. rewrite HSe.
      rewrite Qpower_minus by discriminate.
      apply Qle_shift_div_l; [apply two_pos|].
      eapply Qle_trans; [exact Hq|].
      apply Qlt_le_weak. apply Qlt_le_trans with (inject_Z (2 ^ 52)).
      + rewrite <- Zlt_Qlt. exact Hm.
      + rewrite pow2_inject by lia. apply Qle_refl. }
  assert (Hscaled : (x / 2 ^ E == inject_Z (Z.pos q * S) / inject_Z (Z.pos p))%Q).
  { rewrite HSQ, inject_Z_mult. unfold x. field. split; [discriminate|].
    intros E0. assert (H : (0 < inject_Z S)%Q) by (rewrite <- (Zlt_Qlt 0); exact HS).
    rewrite E0 in H. discriminate H. }
  set (N := rne (x / 2 ^ E)).
  assert (HN : (k - 1) * S + 1 <= N <= k * S).
  { unfold N. rewrite Hscaled. split.
    - apply rne_ge_int, div_ge; [reflexivity | nia].
    - apply rne_le_int.
      apply Qle_shift_div_r; [reflexivity|].
      rewrite <- inject_Z_mult, <- Zle_Qle. nia. }
  rewrite (Qred_correct (inject_Z N * 2 ^ E)).
  apply ceiling_unique.
  - rewrite HSQ.
    assert (HSpos : (0 < inject_Z S)%Q) by (rewrite <- (Zlt_Qlt 0); exact HS).
    apply Qlt_shift_div_l; [exact HSpos|].
    assert (H : (k - 1) * S < N) by lia.
    rewrite Zlt_Qlt, inject_Z_mult, inject_pred in H. exact H.
  - rewrite HSQ.
    assert (HSpos : (0 < inject_Z S)%Q) by (rewrite <- (Zlt_Qlt 0); exact HS).
    apply Qle_shift_div_r; [exact HSpos|].
    rewrite <- inject_Z_mult, <- Zle_Qle. lia.
Qed.

(** Rounding to the nearest integer moves by a half at most. *)
Lemma rne_err (y : Q) :
  (inject_Z (rne y) - y <= 1 # 2)%Q /\ (y - inject_Z (rne y) <= 1 # 2)%Q.
Proof.
  unfold rne. pose proof (Qfloor_le y) as Hf. pose proof (Qlt_floor y) as Hl.
  rewrite inject_Z_plus in Hl. change (inject_Z 1) with 1%Q in Hl.
  destruct (y - inject_Z (Qfloor y) ?= 1 # 2)%Q eqn:E.
  - apply Qeq_alt in E. destruct (Z.even _);
      rewrite ?inject_Z_plus; change (inject_Z 1) with 1%Q; split; lra.
  - apply Qlt_alt in E. split; lra.
  - apply Qgt_alt in E. rewrite inject_Z_plus. change (inject_Z 1) with 1%Q.
    split; lra.
Qed.

Lemma round_of_pos (x : Q) : (0 < x)%Q -> round x = round_pos x.
Proof.
  destruct x as [[|n|n] d]; intros H; try reflexivity;
    exfalso; unfold Qlt in H; simpl in H; lia.
Qed.

(** The unit in the last place of a normal number is at most 2^-52 of it. *)
Lemma ulp_le (x : Q) :
  (2 ^ (-1022) <= x)%Q -> (2 ^ ulp_exp x <= x * (1 # 4503599627370496))%Q.
Proof.
  intros Hx.
  assert (Hpos : (0 < x)%Q).
  { eapply Qlt_le_trans; [apply (two_pos (-1022)) | exact Hx]. }
  unfold ulp_exp. set (M := Z.max (ilog2 x) (-1022)).
  assert (HM : (2 ^ M <= x)%Q).
  { unfold M. destruct (Z.max_spec (ilog2 x) (-1022)) as [[_ ->]|[_ ->]];
      [exact Hx | apply ilog2_le, Hpos]. }
  replace (M - 52) with (M + -52) by lia.
  rewrite Qpower_plus by discriminate.
  change (2 ^ (-52))%Q with (1 # 4503599627370496)%Q.
  apply Qmult_le_compat_r; [exact HM | discriminate].
Qed.

(** Rounding to a double moves a normal number by 2^-53 of it at most. *)
Lemma round_err (x : Q) :
  (2 ^ (-1022) <= x)%Q ->
  (round x - x <= x * (1 # 9007199254740992))%Q
  /\ (x - round x <= x * (1 # 9007199254740992))%Q.
Proof.
  intros Hx.
  assert (Hpos : (0 < x)%Q).
  { eapply Qlt_le_trans; [apply (two_pos (-1022)) | exact Hx]. }
  rewrite (round_of_pos x Hpos). unfold round_pos.
  pose proof (ulp_le x Hx) as Hu. pose proof (two_pos (ulp_exp x)) as Hu0.
  set (u := (2 ^ ulp_exp x)%Q) in *.
  rewrite (Qred_correct (inject_Z (rne (x / u)) * u)).
  destruct (rne_err (x / u)) as [Hhi Hlo].
  set (N := inject_Z (rne (x / u))) in *.
  assert (Hne : ~ (u == 0)%Q) by (intros E; rewrite E in Hu0; discriminate Hu0).
  assert (H1 : ((N - x / u) * u == N * u - x)%Q) by (field; exact Hne).
  assert (H2 : ((x / u - N) * u == x - N * u)%Q) by (field; exact Hne).
  apply (Qmult_le_compat_r _ _ u) in Hhi; [|lra].
  apply (Qmult_le_compat_r _ _ u) in Hlo; [|lra].
  rewrite H1 in Hhi. rewrite H2 in Hlo. split; lra.
Qed.

Lemma floor_close (a b : Q) :
  (a - b < 1)%Q -> (b - a < 1)%Q -> Z.abs (Qfloor a - Qfloor b) <= 1.
Proof.
  intros Hab Hba.
  pose proof (Qfloor_le a) as Ha. pose proof (Qlt_floor a) as Ha'.
  pose proof (Qfloor_le b) as Hb. pose proof (Qlt_floor b) as Hb'.
  rewrite inject_Z_plus in Ha', Hb'. change (inject_Z 1) with 1%Q in *.
  assert (H1 : Qfloor a < Qfloor b + 2).
  { rewrite Zlt_Qlt, inject_Z_plus. change (inject_Z 2) with 2%Q. lra. }
  assert (H2 : Qfloor b < Qfloor a + 2).
  { rewrite Zlt_Qlt, inject_Z_plus. change (inject_Z 2) with 2%Q. lra. }
  lia.
Qed.

(** The quotient of two integers, rounded, times 1000, rounded, is within 1
    of the exact value while that is at most 2^51. *)
Lemma scaled_quotient_err (V d : Z) :
  0 < V <= 2 ^ 53 -> 0 < d <= 2 ^ 53 -> V * 1000 <= 2 ^ 51 * d ->
  let X := (inject_Z V / inject_Z d * 1000)%Q in
  (scale (div V d) 1000 - X < 1)%Q /\ (X - scale (div V d) 1000 < 1)%Q.
Proof.
  intros [HV0 HV] [Hd0 Hd] HX X. unfold scale, div.
  set (x0 := (inject_Z V / inject_Z d)%Q) in *.
  assert (HdQ : (0 < inject_Z d)%Q) by (rewrite <- (Zlt_Qlt 0); exact Hd0).
  assert (Hlow : (1 # 9007199254740992 <= x0)%Q).
  { unfold x0. apply Qle_shift_div_l; [exact HdQ|].
    unfold Qle, Qmult, inject_Z. cbn [Qnum Qden].
    change (2 ^ 53) with 9007199254740992 in Hd. nia. }
  assert (Hup : (x0 * 1000 <= 2251799813685248)%Q).
  { unfold x0.
    setoid_replace (inject_Z V / inject_Z d * 1000)%Q
      with (inject_Z (V * 1000) / inject_Z d)%Q using relation Qeq
      by (rewrite inject_Z_mult; change (inject_Z 1000) with 1000%Q; field;
          intros E; rewrite E in HdQ; discriminate HdQ).
    apply Qle_shift_div_r; [exact HdQ|].
    change 2251799813685248%Q with (inject_Z (2 ^ 51)).
    rewrite <- inject_Z_mult, <- Zle_Qle. exact HX. }
  assert (Hn0 : (2 ^ (-1022) <= x0)%Q).
  { apply Qle_trans with (2 ^ (-53))%Q.
    - apply Qpower_le_compat_l; [lia | discriminate].
    - exact Hlow. }
  destruct (round_err x0 Hn0) as [E1 E1'].
  set (x1 := round x0) in *.
  change (inject_Z 1000) with 1000%Q.
  assert (Hn1 : (2 ^ (-1022) <= x1 * 1000)%Q).
  { apply Qle_trans with (2 ^ (-53))%Q.
    - apply Qpower_le_compat_l; [lia | discriminate].
    - change (2 ^ (-53))%Q with (1 # 9007199254740992)%Q. lra. }
  destruct (round_err (x1 * 1000) Hn1) as [E2 E2'].
  set (x2 := round (x1 * 1000)) in *.
  unfold X. split; lra.
Qed.

(** Sums and products within 2^53 are exact. *)
Lemma add_exact (a b : Z) : Z.abs (a + b) <= 2 ^ 53 -> add a b = a + b.
Proof. apply round_int_exact. Qed.

Lemma mul_exact (a b : Z) : Z.abs (a * b) <= 2 ^ 53 -> mul a b = a * b.
Proof. apply round_int_exact. Qed.

Lemma Number_exact (z : Z) : Z.abs z <= 2 ^ 53 -> Number z = z.
Proof. apply round_int_exact. Qed.

Lemma Number_idem (z : Z) : Number (Number z) = Number z.
Proof. apply round_int_idem. Qed.

End DoubleProperties.

(** ** Properties of the weight calculator *)

Module WeightProperties.
Import JS Store ComputeWeights.

(** The selection of the settings rows keeps the three keys it lists, each
    value read as a double. *)
Lemma settingsMap_lookup (db : DB) (k : string) :
  k ∈ setting_ids ->
  settingsMap setting_ids db !! k = F64.Number <$> settings db !! k.
Proof.
  intros Hk. unfold settingsMap. rewrite lookup_fmap. f_equal.
  destruct (settings db !! k) as [v|] eqn:E.
  - apply map_lookup_filter_Some. split; [exact E | exact Hk].
  - apply map_lookup_filter_None. left. exact E.
Qed.

Lemma or_default_setting (db : DB) (k : string) (d : Z) :
  k ∈ setting_ids ->
  Z.abs (Spec.setting db k d) <= 2 ^ 53 ->
  or_default (settingsMap setting_ids db !! k) d = Spec.setting db k d.
Proof.
  intros Hk. rewrite settingsMap_lookup by exact Hk. unfold Spec.setting.
  destruct (settings db !! k) as [v|]; [|reflexivity].
  cbn [fmap option_fmap option_map].
  destruct v as [|p|p]; [reflexivity| |]; intros Hv;
    rewrite (DoubleProperties.Number_exact _ Hv); reflexivity.
Qed.

Lemma omap_cons {A B} (f : A -> option B) (x : A) (l : list A) :
  omap f (x :: l) =
  match f x with
  | Some y => y :: omap f l
  | None => omap f l
  end.
Proof. reflexivity. Qed.

(** The rows the handler selects, joined with the catalog, are the items of
    the order. *)
Lemma joined_select (db : DB) (id : Z) :
  Spec.joined (select_order_items db id) = Spec.contents db id.
Proof.
  unfold Spec.joined, select_order_items, Spec.contents, Spec.order_lines.
  induction (filter (fun oi => oi_order_id oi = id) (order_items db))
    as [|oi l IH]; [reflexivity|].
  simpl map. rewrite !omap_cons. cbn [item qty]. rewrite IH. reflexivity.
Qed.

Lemma joined_cons (r : OrderItemRow) (rows : list OrderItemRow) :
  Spec.joined (r :: rows) =
  match item r with
  | Some it => (it, qty r) :: Spec.joined rows
  | None => Spec.joined rows
  end.
Proof.
  unfold Spec.joined. rewrite omap_cons. destruct (item r); reflexivity.
Qed.

Lemma bump_max (m : Z) (d : option Z) :
  0 <= m -> bump m d = Z.max m (default 0 d).
Proof.
  intros Hm. destruct d as [[|p|p]|]; simpl; lia.
Qed.

Lemma bump_nonneg (m : Z) (d : option Z) : 0 <= m -> 0 <= bump m d.
Proof.
  intros Hm. rewrite bump_max by exact Hm. lia.
Qed.

Lemma max_dimension_nonneg (dim : Item -> option Z) (lines : list (Item * Z)) :
  0 <= Spec.max_dimension dim lines.
Proof.
  unfold Spec.max_dimension.
  induction (omap (fun p => dim p.1) lines) as [|x l IH]; simpl; lia.
Qed.

Lemma max_dimension_cons (dim : Item -> option Z) (p : Item * Z)
    (lines : list (Item * Z)) :
  Spec.max_dimension dim (p :: lines)
  = Z.max (default 0 (dim p.1)) (Spec.max_dimension dim lines).
Proof.
  pose proof (max_dimension_nonneg dim lines) as H. revert H.
  unfold Spec.max_dimension. rewrite omap_cons.
  destruct (dim p.1) as [x|]; intros H; [reflexivity|].
  change (default 0 None) with 0. lia.
Qed.

Lemma total_item_weight_nonneg (lines : list (Item * Z)) :
  Forall (fun p => 0 <= weight_grams p.1 /\ 0 <= p.2) lines ->
  0 <= Spec.total_item_weight lines.
Proof.
  unfold Spec.total_item_weight.
  induction 1 as [|p l [Hw Hq] _ IH]; [reflexivity|].
  rewrite fmap_cons. cbn [foldr]. nia.
Qed.

(** The loop takes the maxima of the dimensions, from any maxima that are
    not negative. *)
Lemma loop_dims (rows : list OrderItemRow) (acc : Acc) :
  0 <= maxLength acc -> 0 <= maxWidth acc -> 0 <= maxHeight acc ->
  maxLength (foldl loop_body acc rows)
  = Z.max (maxLength acc) (Spec.max_dimension length_cm (Spec.joined rows))
  /\ maxWidth (foldl loop_body acc rows)
     = Z.max (maxWidth acc) (Spec.max_dimension width_cm (Spec.joined rows))
  /\ maxHeight (foldl loop_body acc rows)
     = Z.max (maxHeight acc) (Spec.max_dimension height_cm (Spec.joined rows)).
Proof.
  revert acc. induction rows as [|r rows IH]; intros acc HL HW HH.
  - cbn [foldl]. unfold Spec.joined, Spec.max_dimension. simpl. lia.
  - cbn [foldl]. rewrite joined_cons.
    destruct (item r) as [it|] eqn:Hit; unfold loop_body; rewrite Hit.
    + destruct (IH {| totalActualWeight :=
                        F64.add (totalActualWeight acc)
                                (F64.mul (weight_grams it) (qty r));
                      maxLength := bump (maxLength acc) (length_cm it);
                      maxWidth := bump (maxWidth acc) (width_cm it);
                      maxHeight := bump (maxHeight acc) (height_cm it) |})
        as (EL & EW & EH); cbn [maxLength maxWidth maxHeight];
        auto using bump_nonneg.
      fold loop_body. rewrite EL, EW, EH. cbn [maxLength maxWidth maxHeight].
      rewrite !max_dimension_cons, !bump_max by assumption.
      cbn [fst]. rewrite !Z.max_assoc. auto.
    + fold loop_body. apply IH; assumption.
Qed.

(** The loop adds the weights exactly while the sum stays within 2^53. *)
Lemma loop_total (rows : list OrderItemRow) (acc : Acc) :
  Forall (fun p => 0 <= weight_grams p.1 /\ 0 <= p.2) (Spec.joined rows) ->
  0 <= totalActualWeight acc ->
  totalActualWeight acc + Spec.total_item_weight (Spec.joined rows) <= 2 ^ 53 ->
  totalActualWeight (foldl loop_body acc rows)
  = totalActualWeight acc + Spec.total_item_weight (Spec.joined rows).
Proof.
  revert acc. induction rows as [|r rows IH]; intros acc Hall Hacc Hsum.
  - cbn [foldl]. unfold Spec.joined, Spec.total_item_weight. simpl. lia.
  - cbn [foldl]. rewrite joined_cons in *.
    destruct (item r) as [it|] eqn:Hit; unfold loop_body; rewrite Hit;
      fold loop_body; [|apply IH; assumption].
    apply Forall_cons in Hall as [[Hw Hq] Hall]. cbn [fst snd] in Hw, Hq.
    pose proof (total_item_weight_nonneg _ Hall) as Hrest.
    unfold Spec.total_item_weight in Hsum |- *. rewrite fmap_cons in Hsum |- *.
    cbn [foldr fst snd] in Hsum |- *.
    fold (Spec.total_item_weight (Spec.joined rows)) in Hsum, Hrest |- *.
    assert (Hprod : 0 <= weight_grams it * qty r) by nia.
    assert (Hstep : F64.add (totalActualWeight acc)
                            (F64.mul (weight_grams it) (qty r))
                    = totalActualWeight acc + weight_grams it * qty r).
    { rewrite DoubleProperties.mul_exact by lia.
      apply DoubleProperties.add_exact. lia. }
    rewrite IH; cbn [totalActualWeight]; rewrite ?Hstep; try assumption; lia.
Qed.

Lemma loop_start_dims (rows : list OrderItemRow) :
  maxLength (loop rows) = Spec.max_dimension length_cm (Spec.joined rows)
  /\ maxWidth (loop rows) = Spec.max_dimension width_cm (Spec.joined rows)
  /\ maxHeight (loop rows) = Spec.max_dimension height_cm (Spec.joined rows).
Proof.
  unfold loop.
  destruct (loop_dims rows
              {| totalActualWeight := 0; maxLength := 0; maxWidth := 0;
                 maxHeight := 0 |}) as (EL & EW & EH); cbn; try lia.
  rewrite EL, EW, EH. cbn [maxLength maxWidth maxHeight].
  pose proof (max_dimension_nonneg length_cm (Spec.joined rows)).
  pose proof (max_dimension_nonneg width_cm (Spec.joined rows)).
  pose proof (max_dimension_nonneg height_cm (Spec.joined rows)).
  lia.
Qed.

(** The dimensions the computation reports are the maxima over the items. *)
Lemma weigh_dims (packaging divisor rounding : Z) (rows : list OrderItemRow) :
  let w := weigh packaging divisor rounding rows in
  w_package_count w = 1
  /\ dim_length_cm w = Spec.max_dimension length_cm (Spec.joined rows)
  /\ dim_width_cm w = Spec.max_dimension width_cm (Spec.joined rows)
  /\ dim_height_cm w = Spec.max_dimension height_cm (Spec.joined rows).
Proof.
  cbv zeta. unfold weigh.
  cbn [w_package_count dim_length_cm dim_width_cm dim_height_cm].
  split; [reflexivity | apply loop_start_dims].
Qed.

(** The actual weight is the sum of the formula while that is exact. *)
Lemma weigh_actual (packaging divisor rounding : Z) (rows : list OrderItemRow) :
  Spec.exact_sum packaging (Spec.joined rows) ->
  actual_weight_grams (weigh packaging divisor rounding rows)
  = Spec.actual_weight packaging 1 (Spec.joined rows).
Proof.
  intros (Hall & Hp & Hsum). unfold weigh. cbn [actual_weight_grams].
  unfold Spec.actual_weight in *.
  pose proof (total_item_weight_nonneg _ Hall) as Hrest.
  unfold loop. rewrite loop_total; cbn [totalActualWeight]; try assumption;
    try lia.
  rewrite DoubleProperties.mul_exact by lia.
  rewrite DoubleProperties.add_exact by lia. lia.
Qed.

(** The rounding of the formulas is that of [Math.round] and [Math.ceil]. *)
Lemma nearest_is_round (x : Q) : Spec.nearest x = Math_round x.
Proof.
  unfold Spec.nearest, Math_round.
  pose proof (Qfloor_le x) as Hf. pose proof (Qlt_floor x) as Hl.
  rewrite inject_Z_plus in Hl. change (inject_Z 1) with 1%Q in Hl.
  set (f := Qfloor x) in *.
  assert (Hstep : forall k : Z,
            (inject_Z k <= x + (1 # 2))%Q -> (x + (1 # 2) < inject_Z k + 1)%Q ->
            k = Qfloor (x + (1 # 2))).
  { intros k Hlo Hhi.
    pose proof (DoubleProperties.floor_ge_int _ _ Hlo).
    assert (Hlt : Qfloor (x + (1 # 2)) < k + 1).
    { apply DoubleProperties.floor_lt_int. rewrite inject_Z_plus.
      change (inject_Z 1) with 1%Q. exact Hhi. }
    lia. }
  destruct (Qle_bool (1 # 2) (x - inject_Z f)) eqn:E.
  - apply Qle_bool_iff in E. apply Hstep.
    + rewrite inject_Z_plus. change (inject_Z 1) with 1%Q. lra.
    + rewrite inject_Z_plus. change (inject_Z 1) with 1%Q. lra.
  - assert (Hlt : (x - inject_Z f < 1 # 2)%Q).
    { destruct (Qlt_le_dec (x - inject_Z f) (1 # 2)) as [Hlt|Hge];
        [exact Hlt|]. apply Qle_bool_iff in Hge. congruence. }
    apply Hstep; lra.
Qed.

Lemma ceil_is_ceil (x : Q) : Spec.ceil x = Math_ceil x.
Proof.
  unfold Spec.ceil, Math_ceil.
  pose proof (Qfloor_le x) as Hf. pose proof (Qlt_floor x) as Hl.
  rewrite inject_Z_plus in Hl. change (inject_Z 1) with 1%Q in Hl.
  set (f := Qfloor x) in *. symmetry.
  destruct (Qeq_bool (inject_Z f) x) eqn:E.
  - apply Qeq_bool_iff in E. apply DoubleProperties.ceiling_unique; lra.
  - apply Qeq_bool_neq in E.
    assert (Hlt : (inject_Z f < x)%Q).
    { destruct (Qlt_le_dec (inject_Z f) x) as [Hlt|Hge]; [exact Hlt|].
      exfalso. apply E. apply Qle_antisym; assumption. }
    apply DoubleProperties.ceiling_unique; rewrite inject_Z_plus;
      change (inject_Z 1) with 1%Q; lra.
Qed.

(** The quotient of nothing is nothing, whatever the divisor. *)
Lemma no_volume_in_doubles (divisor : Z) :
  Math_round (F64.scale (F64.div 0 divisor) 1000) = 0.
Proof.
  unfold F64.div.
  assert (E : F64.round (inject_Z 0 / inject_Z divisor) = 0%Q).
  { unfold F64.round, Qdiv, Qmult. cbn [Qnum inject_Z Z.mul]. reflexivity. }
  rewrite E. reflexivity.
Qed.

(** The volumetric weight is the formula with its quotient and its product
    rounded to doubles, while the volume is exact. *)
Lemma weigh_volumetric (packaging divisor rounding : Z)
    (rows : list OrderItemRow) :
  Spec.volume (Spec.joined rows) <= 2 ^ 53 ->
  volumetric_grams (weigh packaging divisor rounding rows)
  = Spec.volumetric_weight_in_doubles divisor (Spec.joined rows).
Proof.
  unfold weigh. cbn [volumetric_grams].
  destruct (loop_start_dims rows) as (-> & -> & ->).
  unfold Spec.volumetric_weight_in_doubles, Spec.volume.
  set (L := Spec.max_dimension length_cm (Spec.joined rows)).
  set (W := Spec.max_dimension width_cm (Spec.joined rows)).
  set (H := Spec.max_dimension height_cm (Spec.joined rows)).
  pose proof (max_dimension_nonneg length_cm (Spec.joined rows)) as HL.
  pose proof (max_dimension_nonneg width_cm (Spec.joined rows)) as HW.
  pose proof (max_dimension_nonneg height_cm (Spec.joined rows)) as HH.
  fold L in HL. fold W in HW. fold H in HH. intros Hvol.
  rewrite nearest_is_round.
  destruct (Z.ltb_spec 0 L) as [Lpos|Lz];
    [destruct (Z.ltb_spec 0 W) as [Wpos|Wz];
     [destruct (Z.ltb_spec 0 H) as [Hpos|Hz]|]|]; cbn [andb].
  - assert (0 <= L * W <= L * W * H) by nia.
    rewrite (DoubleProperties.mul_exact L W) by lia.
    rewrite DoubleProperties.mul_exact by lia. reflexivity.
  - replace H with 0 by lia. rewrite Z.mul_0_r. symmetry.
    apply no_volume_in_doubles.
  - replace W with 0 by lia. rewrite Z.mul_0_r, Z.mul_0_l. symmetry.
    apply no_volume_in_doubles.
  - replace L with 0 by lia. rewrite !Z.mul_0_l. symmetry.
    apply no_volume_in_doubles.
Qed.

Lemma volume_nonneg (lines : list (Item * Z)) : 0 <= Spec.volume lines.
Proof.
  unfold Spec.volume.
  pose proof (max_dimension_nonneg length_cm lines).
  pose proof (max_dimension_nonneg width_cm lines).
  pose proof (max_dimension_nonneg height_cm lines).
  nia.
Qed.

Lemma round_zero_volume (divisor : Z) :
  Math_round (inject_Z 0 / inject_Z divisor * 1000)%Q = 0.
Proof.
  unfold Math_round.
  assert (E : (inject_Z 0 / inject_Z divisor * 1000 + (1 # 2) == 1 # 2)%Q).
  { unfold Qdiv. rewrite !Qmult_0_l. reflexivity. }
  rewrite E. reflexivity.
Qed.

(** The two roundings to doubles move the volumetric weight by one gram at
    most, while the exact quotient is at most 2^51. *)
Lemma volumetric_close (divisor : Z) (lines : list (Item * Z)) :
  Spec.volume lines <= 2 ^ 53 ->
  0 < divisor <= 2 ^ 53 ->
  Spec.volume lines * 1000 <= 2 ^ 51 * divisor ->
  Z.abs (Spec.volumetric_weight_in_doubles divisor lines
         - Spec.volumetric_weight divisor lines) <= 1.
Proof.
  intros HV Hd HX. pose proof (volume_nonneg lines) as H0.
  unfold Spec.volumetric_weight_in_doubles, Spec.volumetric_weight.
  rewrite !nearest_is_round.
  destruct (Z.eq_dec (Spec.volume lines) 0) as [E|Hne].
  - rewrite E, no_volume_in_doubles, round_zero_volume. simpl. lia.
  - destruct (DoubleProperties.scaled_quotient_err (Spec.volume lines) divisor)
      as [H1 H2]; [lia | exact Hd | exact HX |].
    cbv zeta in H1, H2. unfold Math_round.
    apply DoubleProperties.floor_close; lra.
Qed.

(** Rounding up to a positive unit does not go below the weight, and stays
    below the weight plus one unit. *)
Lemma ceil_times_unit_ge (m r : Z) :
  0 < r -> m <= Math_ceil (inject_Z m / inject_Z r)%Q * r.
Proof.
  intros Hr. unfold Math_ceil.
  assert (Hq : (inject_Z 0 < inject_Z r)%Q) by (rewrite <- Zlt_Qlt; exact Hr).
  change (inject_Z 0) with 0%Q in Hq.
  rewrite Zle_Qle, inject_Z_mult.
  apply (Qmult_le_r _ _ (/ inject_Z r)%Q).
  - apply Qinv_lt_0_compat. exact Hq.
  - rewrite <- Qmult_assoc, Qmult_inv_r, Qmult_1_r
      by (intros E; rewrite E in Hq; discriminate).
    apply Qle_ceiling.
Qed.

Lemma ceil_times_unit_lt (m r : Z) :
  0 < r -> Math_ceil (inject_Z m / inject_Z r)%Q * r < m + r.
Proof.
  intros Hr. unfold Math_ceil.
  assert (Hq : (inject_Z 0 < inject_Z r)%Q) by (rewrite <- Zlt_Qlt; exact Hr).
  change (inject_Z 0) with 0%Q in Hq.
  pose proof (Qceiling_lt (inject_Z m / inject_Z r)%Q) as Hc.
  set (c := Qceiling (inject_Z m / inject_Z r)%Q) in *.
  assert (Hlt : (c - 1) * r < m).
  { rewrite Zlt_Qlt, inject_Z_mult.
    apply (Qmult_lt_r _ _ (/ inject_Z r)%Q).
    - apply Qinv_lt_0_compat. exact Hq.
    - rewrite <- Qmult_assoc, Qmult_inv_r, Qmult_1_r
        by (intros E; rewrite E in Hq; discriminate).
      exact Hc. }
  lia.
Qed.

(** Rounding up in doubles is rounding up, for a weight and a unit below
    2^52. *)
Lemma billed_in_doubles (m r : Z) :
  0 <= m < 2 ^ 52 -> 0 < r <= 2 ^ 52 ->
  F64.mul (Math_ceil (F64.div m r)) r
  = Math_ceil (inject_Z m / inject_Z r)%Q * r.
Proof.
  intros Hm Hr. unfold Math_ceil.
  rewrite DoubleProperties.ceil_div by assumption.
  pose proof (ceil_times_unit_ge m r) as Hge.
  pose proof (ceil_times_unit_lt m r) as Hlt. unfold Math_ceil in Hge, Hlt.
  apply DoubleProperties.mul_exact.
  change (2 ^ 53) with (2 ^ 52 + 2 ^ 52). lia.
Qed.

Lemma weigh_billed (packaging divisor rounding : Z) (rows : list OrderItemRow) :
  let w := weigh packaging divisor rounding rows in
  0 < rounding <= 2 ^ 52 ->
  0 <= Z.max (actual_weight_grams w) (volumetric_grams w) < 2 ^ 52 ->
  w_billed_weight_grams w
  = Spec.billed_weight rounding (actual_weight_grams w) (volumetric_grams w).
Proof.
  cbv zeta. unfold weigh.
  cbn [w_billed_weight_grams actual_weight_grams volumetric_grams].
  intros Hr Hm. unfold Spec.billed_weight. rewrite ceil_is_ceil.
  apply billed_in_doubles; assumption.
Qed.

Lemma handle_computes (db : DB) (id : Z) :
  id <> 0 ->
  handle db (Some id) =
  (Computed id (weights_of db id),
   with_courier_parcels
     (update_order id (set_weights (weights_of db id)) db)
     (courier_parcels db ++ [parcel_of id (weights_of db id)])).
Proof.
  intros Hid. unfold handle. destruct id; [congruence | reflexivity | reflexivity].
Qed.

(** The weights of an order of the store, against the formulas over the
    items of the order and the settings. *)
Lemma weights_of_spec (db : DB) (id : Z) :
  let lines := Spec.contents db id in
  let packaging := Spec.setting db "default_packaging_weight_grams" 50 in
  let divisor := Spec.setting db "volumetric_divisor" 5000 in
  let rounding := Spec.setting db "weight_rounding_grams" 500 in
  let w := weights_of db id in
  w_package_count w = 1
  /\ (Spec.exact_sum packaging lines ->
      actual_weight_grams w = Spec.actual_weight packaging 1 lines)
  /\ (Spec.volume lines <= 2 ^ 53 -> Z.abs divisor <= 2 ^ 53 ->
      volumetric_grams w = Spec.volumetric_weight_in_doubles divisor lines)
  /\ (Spec.volume lines <= 2 ^ 53 -> 0 < divisor <= 2 ^ 53 ->
      Spec.volume lines * 1000 <= 2 ^ 51 * divisor ->
      Z.abs (volumetric_grams w - Spec.volumetric_weight divisor lines) <= 1)
  /\ (0 < rounding <= 2 ^ 52 ->
      0 <= Z.max (actual_weight_grams w) (volumetric_grams w) < 2 ^ 52 ->
      w_billed_weight_grams w
      = Spec.billed_weight rounding (actual_weight_grams w) (volumetric_grams w)).
Proof.
  cbv zeta. unfold weights_of. rewrite <- joined_select.
  split; [apply weigh_dims|]. split; [|split; [|split]].
  - intros Hex. unfold packagingWeight. rewrite or_default_setting.
    + apply weigh_actual, Hex.
    + unfold setting_ids. repeat constructor.
    + destruct Hex as (Hall & Hp & Hsum).
      pose proof (total_item_weight_nonneg _ Hall).
      unfold Spec.actual_weight in Hsum. lia.
  - intros Hvol Hdiv. unfold volumetricDivisor.
    rewrite or_default_setting;
      [apply weigh_volumetric, Hvol | unfold setting_ids; repeat constructor
       | exact Hdiv].
  - intros Hvol Hdiv Hquot. unfold volumetricDivisor.
    rewrite or_default_setting;
      [| unfold setting_ids; repeat constructor | lia].
    rewrite weigh_volumetric by exact Hvol.
    apply volumetric_close; assumption.
  - intros Hunit. unfold weightRounding. rewrite or_default_setting.
    + intros Hm. exact (weigh_billed _ _ _ _ Hunit Hm).
    + unfold setting_ids. repeat constructor.
    + change (2 ^ 53) with (2 ^ 52 + 2 ^ 52). lia.
Qed.

(** C3, as amended.  For every order the weight computation returns
    package_count = 1 and, computing in doubles:
    actual = sum of item.weight_grams x qty + packaging_weight x package_count
    while weights and quantities are not negative and the sum is within
    2^53; volumetric = round(maxL x maxW x maxH / volumetric_divisor x 1000)
    with the maximum of each dimension across the items of the order, the
    quotient and the product each rounded to the nearest double, which is
    within one gram of the formula in exact arithmetic;
    billed = ceil(max(actual, volumetric) / rounding_unit) x rounding_unit for
    weights and a unit below 2^52.  For one item of 200 g and 20 x 15 x 2 cm,
    quantity 2, packaging 50 g, divisor 5000 and rounding 500 it returns
    450 g, 120 g and 500 g. *)
Theorem weight_computation_formula (db : DB) (id : Z) (Hid : id <> 0) :
  let lines := Spec.contents db id in
  let packaging := Spec.setting db "default_packaging_weight_grams" 50 in
  let divisor := Spec.setting db "volumetric_divisor" 5000 in
  let rounding := Spec.setting db "weight_rounding_grams" 500 in
  (exists (w : Weights) (db' : DB),
     handle db (Some id) = (Computed id w, db')
     /\ w_package_count w = 1
     /\ (Spec.exact_sum packaging lines ->
         actual_weight_grams w = Spec.actual_weight packaging 1 lines)
     /\ (Spec.volume lines <= 2 ^ 53 -> Z.abs divisor <= 2 ^ 53 ->
         volumetric_grams w = Spec.volumetric_weight_in_doubles divisor lines)
     /\ (Spec.volume lines <= 2 ^ 53 -> 0 < divisor <= 2 ^ 53 ->
         Spec.volume lines * 1000 <= 2 ^ 51 * divisor ->
         Z.abs (volumetric_grams w - Spec.volumetric_weight divisor lines) <= 1)
     /\ (0 < rounding <= 2 ^ 52 ->
         0 <= Z.max (actual_weight_grams w) (volumetric_grams w) < 2 ^ 52 ->
         w_billed_weight_grams w
         = Spec.billed_weight rounding (actual_weight_grams w)
             (volumetric_grams w)))
  /\ (exists (w : Weights) (db' : DB),
        handle Examples.weighing_db (Some 1) = (Computed 1 w, db')
        /\ actual_weight_grams w = 450
        /\ volumetric_grams w = 120
        /\ w_billed_weight_grams w = 500).
Proof.
  split.
  - eexists _, _. split; [apply handle_computes; exact Hid |].
    apply weights_of_spec.
  - eexists _, _. split; [apply handle_computes; discriminate |].
    vm_compute. auto.
Qed.

Lemma weight_computation_formula_witness :
  exists (w : Weights) (db' : DB),
    handle Examples.weighing_db (Some 1) = (Computed 1 w, db')
    /\ actual_weight_grams w
       = Spec.actual_weight 50 1 (Spec.contents Examples.weighing_db 1)
    /\ volumetric_grams w
       = Spec.volumetric_weight_in_doubles 5000
           (Spec.contents Examples.weighing_db 1)
    /\ w_billed_weight_grams w
       = Spec.billed_weight 500 (actual_weight_grams w) (volumetric_grams w)
    /\ (actual_weight_grams w, volumetric_grams w, w_billed_weight_grams w)
       = (450, 120, 500).
Proof.
  destruct (weight_computation_formula Examples.weighing_db 1)
    as ((w & db' & Hrun & _ & Ha & Hv & _ & Hb) & _); [discriminate|].
  exists w, db'. split; [exact Hrun|].
  assert (Hw : w = weights_of Examples.weighing_db 1).
  { rewrite handle_computes in Hrun by discriminate. now injection Hrun. }
  split; [|split; [|split]].
  - apply Ha. split; [|split].
    + repeat constructor; cbn; lia.
    + vm_compute. discriminate.
    + vm_compute. discriminate.
  - apply Hv; vm_compute; discriminate.
  - apply Hb; rewrite ?Hw; vm_compute; split; reflexivity || discriminate.
  - rewrite Hw. reflexivity.
Defined.

(** C3 as it is written fails: for one box of 22 x 13 x 7 cm and the divisor
    4000 the formula gives round(500.5) = 501 g, and the computation, whose
    quotient 2002 / 4000 is rounded to a double before it is multiplied by
    1000, returns 500 g. *)
Lemma volumetric_weight_tie_counterexample :
  ~ (forall (db : DB) (id : Z),
       id <> 0 ->
       exists (w : Weights) (db' : DB),
         handle db (Some id) = (Computed id w, db')
         /\ volumetric_grams w
            = Spec.volumetric_weight (Spec.setting db "volumetric_divisor" 5000)
                (Spec.contents db id)).
Proof.
  intros H. destruct (H MoreExamples.box_db 1) as (w & db' & Hrun & Hv);
    [discriminate|].
  rewrite handle_computes in Hrun by discriminate. injection Hrun as <- _.
  vm_compute in Hv. discriminate Hv.
Qed.




End WeightProperties.

(** ** Properties of the courier status mapper *)

Module CourierProperties.
Import JS Store DelhiveryWebhook.

Lemma toLowerCase_app (a b : string) :
  toLowerCase (a ++ b) = (toLowerCase a ++ toLowerCase b)%string.
Proof.
  induction a as [|c a IH]; simpl; [reflexivity | now rewrite IH].
Qed.

Lemma startsWith_iff (s p : string) :
  startsWith s p = true <-> exists post, s = (p ++ post)%string.
Proof.
  revert s. induction p as [|a p IH]; intros s; simpl.
  - split; [intros _; now exists s | reflexivity].
  - destruct s as [|b s].
    + split; [discriminate | intros [post E]; discriminate].
    + destruct (Ascii.eqb_spec a b) as [->|Hne].
      * rewrite IH. split; intros [post E]; exists post;
          [now rewrite E | now injection E].
      * split; [discriminate | intros [post E]; injection E; congruence].
Qed.

Lemma includes_iff (s p : string) :
  includes s p = true <-> exists pre post, s = (pre ++ p ++ post)%string.
Proof.
  induction s as [|c s IH].
  - simpl includes. rewrite startsWith_iff. split.
    + intros [post E]. now exists EmptyString, post.
    + intros (pre & post & E). destruct pre; [now exists post | discriminate].
  - cbn [includes]. rewrite orb_true_iff, IH, startsWith_iff. split.
    + intros [[post E] | (pre & post & E)].
      * now exists EmptyString, post.
      * exists (String c pre), post. simpl. now rewrite E.
    + intros (pre & post & E). destruct pre as [|c' pre].
      * left. now exists post.
      * right. exists pre, post. now injection E.
Qed.

(** Lowering works letter by letter, so a split of the lowered text comes
    from a split of the text. *)
Lemma toLowerCase_split (s a b : string) :
  toLowerCase s = (a ++ b)%string ->
  exists s1 s2, s = (s1 ++ s2)%string /\ toLowerCase s1 = a /\ toLowerCase s2 = b.
Proof.
  revert s. induction a as [|c a IH]; intros s E.
  - now exists EmptyString, s.
  - destruct s as [|d s]; [discriminate |].
    simpl in E. injection E as Hc E.
    destruct (IH s E) as (s1 & s2 & -> & H1 & H2).
    exists (String d s1), s2. simpl. now rewrite Hc, H1.
Qed.

Lemma includes_lower_iff (t p : string) :
  includes (toLowerCase t) p = true <-> Spec.mentions t p.
Proof.
  rewrite includes_iff. unfold Spec.mentions. split.
  - intros (pre' & post' & E).
    destruct (toLowerCase_split _ _ _ E) as (pre & rest & -> & Hpre & Hrest).
    destruct (toLowerCase_split _ _ _ Hrest) as (mid & post & -> & Hmid & Hpost).
    now exists pre, mid, post.
  - intros (pre & mid & post & -> & Hmid).
    exists (toLowerCase pre), (toLowerCase post).
    now rewrite !toLowerCase_app, Hmid.
Qed.

Lemma includes_lower_false (t p : string) :
  includes (toLowerCase t) p = false <-> ~ Spec.mentions t p.
Proof.
  rewrite <- includes_lower_iff. destruct (includes (toLowerCase t) p);
    split; intros H; try reflexivity; try discriminate; now exfalso.
Qed.

Lemma pickup_related_iff (t : string) :
  Spec.pickup_related t <->
  includes (toLowerCase t) "picked" || includes (toLowerCase t) "pickup" = true.
Proof.
  unfold Spec.pickup_related. now rewrite orb_true_iff, !includes_lower_iff.
Qed.

Lemma on_the_way_iff (t : string) :
  Spec.on_the_way t <->
  includes (toLowerCase t) "in transit" || includes (toLowerCase t) "in_transit"
  || includes (toLowerCase t) "dispatched"
  || includes (toLowerCase t) "out for delivery" = true.
Proof.
  unfold Spec.on_the_way. rewrite !orb_true_iff, !includes_lower_iff. tauto.
Qed.

Lemma called_off_iff (t : string) :
  Spec.called_off t <->
  includes (toLowerCase t) "cancelled" || includes (toLowerCase t) "rto"
  || includes (toLowerCase t) "return" = true.
Proof.
  unfold Spec.called_off. rewrite !orb_true_iff, !includes_lower_iff. tauto.
Qed.

(** The chain of tests, rule by rule: the first rule that matches decides. *)
Lemma new_status_rules (t : string) :
  (Spec.pickup_related t -> new_status (toLowerCase t) = Some "processing")
  /\ (~ Spec.pickup_related t -> Spec.on_the_way t ->
      new_status (toLowerCase t) = Some "out_for_delivery")
  /\ (~ Spec.pickup_related t -> ~ Spec.on_the_way t -> Spec.says_delivered t ->
      new_status (toLowerCase t) = Some "delivered")
  /\ (~ Spec.pickup_related t -> ~ Spec.on_the_way t -> ~ Spec.says_delivered t ->
      Spec.called_off t -> new_status (toLowerCase t) = Some "cancelled")
  /\ (~ Spec.pickup_related t -> ~ Spec.on_the_way t -> ~ Spec.says_delivered t ->
      ~ Spec.called_off t -> new_status (toLowerCase t) = None).
Proof.
  rewrite pickup_related_iff, on_the_way_iff, called_off_iff.
  unfold Spec.says_delivered. rewrite <- includes_lower_iff.
  unfold new_status.
  destruct (includes (toLowerCase t) "picked" || includes (toLowerCase t) "pickup");
    [intuition congruence |].
  destruct (includes (toLowerCase t) "in transit"
            || includes (toLowerCase t) "in_transit"
            || includes (toLowerCase t) "dispatched"
            || includes (toLowerCase t) "out for delivery");
    [intuition congruence |].
  destruct (includes (toLowerCase t) "delivered"); [intuition congruence |].
  destruct (includes (toLowerCase t) "cancelled" || includes (toLowerCase t) "rto"
            || includes (toLowerCase t) "return"); intuition congruence.
Qed.

(** What the handler does with an event that resolves to an order. *)
Lemma handle_resolved (db : DB) (payload : DelhiveryPayload) (order : Order) :
  Spec.courier_event_resolves db payload order ->
  let logged :=
    insert_courier_event
      {| ce_order_id := Some (order_id order); ce_courier_name := "delhivery";
         ce_event_type := status_text payload;
         ce_event_payload := FromDelhivery payload |} db in
  handle db payload =
  match new_status (toLowerCase (Spec.courier_status_text payload)) with
  | Some s => (Processed (order_id order) (Some s),
               update_order (order_id order) (set_status s) logged)
  | None => (Processed (order_id order) None, logged)
  end.
Proof.
  intros [Hawb Hsel]. unfold handle. rewrite Hawb, Hsel. reflexivity.
Qed.

Lemma update_order_orders (id : Z) (f : Order -> Order) (db : DB) :
  orders (update_order id f db) =
  map (fun o => if order_id o =? id then f o else o) (orders db).
Proof. reflexivity. Qed.

(** C8, as amended.  For every courier event that resolves to an order the
    status text is matched, whatever its letter case, against the rules in
    their order, and the first rule that matches decides: pickup text gives
    "processing"; otherwise transit, dispatch or out-for-delivery text gives
    "out_for_delivery"; otherwise text containing "delivered" gives
    "delivered"; otherwise cancellation, return or RTO text gives "cancelled";
    text matching no rule leaves the orders as they are.  In particular a text
    containing "out for delivery" in any letter case, and no pickup text,
    gives "out_for_delivery". *)
Theorem courier_status_first_match (db : DB) (payload : DelhiveryPayload)
    (order : Order) :
  Spec.courier_event_resolves db payload order ->
  let t := Spec.courier_status_text payload in
  exists (st : option string) (db' : DB),
    handle db payload = (Processed (order_id order) st, db')
    /\ orders db' =
       match st with
       | Some s =>
           map (fun o => if order_id o =? order_id order then set_status s o else o)
               (orders db)
       | None => orders db
       end
    /\ (Spec.pickup_related t -> st = Some "processing")
    /\ (~ Spec.pickup_related t -> Spec.on_the_way t ->
        st = Some "out_for_delivery")
    /\ (~ Spec.pickup_related t -> ~ Spec.on_the_way t ->
        Spec.says_delivered t -> st = Some "delivered")
    /\ (~ Spec.pickup_related t -> ~ Spec.on_the_way t ->
        ~ Spec.says_delivered t -> Spec.called_off t -> st = Some "cancelled")
    /\ (~ Spec.pickup_related t -> ~ Spec.on_the_way t ->
        ~ Spec.says_delivered t -> ~ Spec.called_off t -> st = None)
    /\ (Spec.mentions t "out for delivery" -> ~ Spec.pickup_related t ->
        st = Some "out_for_delivery").
Proof.
  intros Hres t.
  pose proof (handle_resolved db payload order Hres) as Hrun. cbv zeta in Hrun.
  destruct (new_status_rules t) as (R1 & R2 & R3 & R4 & R5).
  fold t in Hrun.
  exists (new_status (toLowerCase t)).
  destruct (new_status (toLowerCase t)) as [s|] eqn:E; eexists;
    (split; [exact Hrun |]);
    (split; [reflexivity |]);
    repeat split; intros; auto;
    apply R2; auto; unfold Spec.on_the_way; auto.
Qed.

Lemma courier_status_first_match_witness :
  exists (st : option string) (db' : DB),
    handle Examples.shipped_db (Examples.courier_event "AWB1" "Out For Delivery")
    = (Processed 1 st, db')
    /\ st = Some "out_for_delivery".
Proof.
  assert (Hres : Spec.courier_event_resolves Examples.shipped_db
                   (Examples.courier_event "AWB1" "Out For Delivery")
                   (Examples.an_order 1 "paid" "processing")).
  { split; reflexivity. }
  destruct (courier_status_first_match _ _ _ Hres)
    as (st & db' & Hrun & _ & _ & _ & _ & _ & _ & Hout).
  exists st, db'. split; [exact Hrun |].
  apply Hout.
  - exists "", "Out For Delivery", "". split; reflexivity.
  - rewrite pickup_related_iff. vm_compute. discriminate.
Defined.

(** C8 as it is written fails: a status text that contains "out for delivery"
    together with pickup text is mapped to "processing". *)
Lemma out_for_delivery_after_pickup_counterexample :
  ~ (forall (db : DB) (payload : DelhiveryPayload) (order : Order),
       Spec.courier_event_resolves db payload order ->
       Spec.mentions (Spec.courier_status_text payload) "out for delivery" ->
       exists db' : DB,
         handle db payload
         = (Processed (order_id order) (Some "out_for_delivery"), db')).
Proof.
  intros H.
  destruct (H Examples.shipped_db
              (Examples.courier_event "AWB1" "Picked up - Out For Delivery")
              (Examples.an_order 1 "paid" "processing")) as [db' Hrun].
  - split; reflexivity.
  - exists "Picked up - ", "Out For Delivery", "". split; reflexivity.
  - vm_compute in Hrun. discriminate Hrun.
Qed.

End CourierProperties.

(** ** Properties of the order assembler *)

Module OrderProperties.
Import JS Store Outbound CreateOrder.

Lemma set_payment_link_keeps (id link : option string) :
  Spec.keeps_amounts (set_payment_link id link).
Proof. intros o. repeat split. Qed.

Lemma update_order_same (id : Z) (l : list Order) :
  l = map (fun o => if order_id o =? id then o else o) l.
Proof.
  induction l as [|o l IH]; simpl; [reflexivity|].
  rewrite <- IH. now destruct (order_id o =? id).
Qed.

(** The loop: on success the lines follow the request, each at the price of
    its catalog item, and the total is the running total over them. *)
Lemma price_lines_inr (itemsData : list Item) (requested : list (Z * Z))
    (total : Z) (lines : list Line) (t : Z) (ls : list Line) :
  price_lines itemsData requested total lines = inr (t, ls) ->
  exists new,
    ls = (lines ++ new)%list
    /\ t = Spec.running_total total new
    /\ Forall2 (Spec.priced_from itemsData) requested new.
Proof.
  revert total lines. induction requested as [|[id q] rest IH]; intros total lines H.
  - simpl in H. injection H as <- <-. exists []. rewrite app_nil_r.
    split; [reflexivity|]. split; [reflexivity | constructor].
  - simpl in H.
    destruct (List.find (fun i => item_id i =? id) itemsData) as [it|] eqn:Hfind;
      [|discriminate].
    destruct (Z.ltb_spec (stock it) q) as [Hlt|Hge]; [discriminate|].
    destruct (IH _ _ H) as (new & -> & -> & Hall).
    exists ({| line_item_id := id; line_qty := q;
               line_unit_price_paise := F64.Number (price_paise it) |} :: new).
    split; [now rewrite <- app_assoc|].
    split; [reflexivity|].
    constructor; [|exact Hall].
    repeat split. exists it. auto.
Qed.

(** The amount of a request is not negative when its prices and quantities
    are not. *)
Lemma request_amount_nonneg (db : DB) (requested : list (Z * Z)) :
  Forall (fun line =>
            0 <= line.2
            /\ forall it,
                 List.find (fun i => item_id i =? line.1) (items db) = Some it ->
                 0 <= price_paise it <= 2 ^ 53)
         requested ->
  0 <= Spec.request_amount db requested.
Proof.
  unfold Spec.request_amount.
  induction 1 as [|line rest [Hq Hp] _ IH]; [reflexivity|].
  rewrite fmap_cons. cbn [foldr].
  destruct (List.find _ (items db)) as [it|]; [|lia].
  specialize (Hp it eq_refl). nia.
Qed.

(** While the amounts are exact the running total is their sum, the sum is
    the amount of the request, and every line has the price of its catalog
    item. *)
Lemma priced_lines_exact (db : DB) (requested : list (Z * Z))
    (lines : list Line) (t : Z) :
  Forall2 (Spec.priced_from (items db)) requested lines ->
  Forall (fun line =>
            0 <= line.2
            /\ forall it,
                 List.find (fun i => item_id i =? line.1) (items db) = Some it ->
                 0 <= price_paise it <= 2 ^ 53)
         requested ->
  0 <= t ->
  t + Spec.request_amount db requested <= 2 ^ 53 ->
  Spec.running_total t lines = t + foldr Z.add 0 (Spec.line_amount <$> lines)
  /\ foldr Z.add 0 (Spec.line_amount <$> lines) = Spec.request_amount db requested
  /\ Forall2
       (fun request l =>
          exists it,
            List.find (fun i => item_id i =? request.1) (items db) = Some it
            /\ line_unit_price_paise l = price_paise it)
       requested lines.
Proof.
  intros Hall. revert t.
  induction Hall as [|r l rs ls (H1 & H2 & it & Hf & Hp & Hs) _ IH];
    intros t Hrange Ht Hsum.
  - split; [simpl; lia|]. split; [reflexivity | constructor].
  - apply Forall_cons in Hrange as [[Hq Hprice] Hrange].
    specialize (Hprice it Hf).
    pose proof (request_amount_nonneg db rs Hrange) as Hrest.
    unfold Spec.request_amount in Hsum. rewrite fmap_cons in Hsum.
    cbn [foldr] in Hsum. rewrite Hf in Hsum.
    fold (Spec.request_amount db rs) in Hsum.
    assert (Hprod : 0 <= price_paise it * r.2) by nia.
    rewrite DoubleProperties.Number_exact in Hp by lia.
    assert (Hstep : F64.add t (F64.mul (line_unit_price_paise l) (line_qty l))
                    = t + price_paise it * r.2).
    { rewrite Hp, H2. rewrite DoubleProperties.mul_exact by lia.
      apply DoubleProperties.add_exact. lia. }
    destruct (IH (t + price_paise it * r.2)) as (Et & Es & Ef);
      [exact Hrange | lia | lia |].
    assert (Hline : Spec.line_amount l = price_paise it * r.2).
    { unfold Spec.line_amount. now rewrite Hp, H2. }
    change (Spec.running_total t (l :: ls))
      with (Spec.running_total
              (F64.add t (F64.mul (line_unit_price_paise l) (line_qty l))) ls).
    rewrite Hstep, Et, fmap_cons. cbn [foldr]. rewrite Hline, Es.
    split; [lia|]. split.
    + unfold Spec.request_amount. rewrite fmap_cons. cbn [foldr].
      now rewrite Hf.
    + constructor; [|exact Ef]. exists it. split; assumption.
Qed.

(** The loop stops with an error when a requested item is missing. *)
Lemma price_lines_unknown (itemsData : list Item) (requested : list (Z * Z))
    (total : Z) (lines : list Line) :
  (exists line, line ∈ requested
                /\ List.find (fun i => item_id i =? line.1) itemsData = None) ->
  exists e, price_lines itemsData requested total lines = inl e.
Proof.
  revert total lines. induction requested as [|[id q] rest IH];
    intros total lines (line & Hin & Hnone).
  - inversion Hin.
  - simpl.
    destruct (List.find (fun i => item_id i =? id) itemsData) as [it|] eqn:Hfind;
      [|now eexists].
    destruct (stock it <? q); [now eexists|].
    apply IH. exists line. split; [|exact Hnone].
    apply elem_of_cons in Hin as [->|Hin]; [|exact Hin].
    simpl in Hnone. congruence.
Qed.

(** The loop stops at the first missing item when the lines before it are
    in stock. *)
Lemma price_lines_first_unknown (itemsData : list Item)
    (before after : list (Z * Z)) (id q total : Z) (lines : list Line) :
  Forall (fun line =>
            exists it, List.find (fun i => item_id i =? line.1) itemsData = Some it
                       /\ line.2 <= stock it) before ->
  List.find (fun i => item_id i =? id) itemsData = None ->
  price_lines itemsData (before ++ (id, q) :: after) total lines
  = inl (UnknownItem id).
Proof.
  intros Hbefore Hnone. revert total lines.
  induction Hbefore as [|[i qi] before (it & Hfind & Hstock) _ IH];
    intros total lines; simpl.
  - now rewrite Hnone.
  - simpl in Hfind, Hstock. rewrite Hfind.
    destruct (Z.ltb_spec (stock it) qi); [lia | apply IH].
Qed.

Lemma find_none_not_in (items : list Item) (id : Z) :
  (forall it, it ∈ items -> item_id it <> id) ->
  List.find (fun i => item_id i =? id) items = None.
Proof.
  intros H. induction items as [|it items IH]; [reflexivity|]. simpl.
  destruct (Z.eqb_spec (item_id it) id) as [E|_].
  - exfalso. apply (H it); [left | exact E].
  - apply IH. intros it' Hin. apply H. now right.
Qed.

(** Looking an item up in the selection [.in("id", itemIds)] is looking it
    up in the catalog, for an id of the request. *)
Lemma find_in_selection (items : list Item) (ids : list Z) (id : Z) :
  id ∈ ids ->
  List.find (fun i => item_id i =? id) (filter (fun i => item_id i ∈ ids) items)
  = List.find (fun i => item_id i =? id) items.
Proof.
  intros Hid. induction items as [|it items IH]; [reflexivity|].
  rewrite filter_cons. destruct (decide (item_id it ∈ ids)) as [Hin|Hout]; simpl.
  - now rewrite IH.
  - destruct (Z.eqb_spec (item_id it) id) as [E|_]; [congruence | exact IH].
Qed.

Lemma priced_from_catalog (items : list Item) (requested : list (Z * Z))
    (new : list Line) :
  Forall2 (Spec.priced_from (filter (fun i => item_id i ∈ requested.*1) items))
          requested new ->
  Forall2 (Spec.priced_from items) requested new.
Proof.
  set (ids := requested.*1).
  assert (Hids : forall r, r ∈ requested -> r.1 ∈ ids).
  { intros r Hr. subst ids. apply list_elem_of_fmap. now exists r. }
  clearbody ids. intros H. induction H as [|r l rs ls Hrl _ IH]; constructor.
  - destruct Hrl as (H1 & H2 & it & Hfind & Hp & Hs).
    repeat split; try assumption. exists it.
    rewrite find_in_selection in Hfind by (apply Hids; left). auto.
  - apply IH. intros r' Hr'. apply Hids. now right.
Qed.

(** What a successful call has done. *)
Lemma handle_created (env : Env) (db db' : DB) (req : CreateOrderRequest)
    (id total : Z) (link lid : option string) (fx : list Effect) :
  handle env db req = (Created id total link lid, db', fx) ->
  exists (school : School) (lines : list Line) (g : Order -> Order),
    let items_total := Spec.running_total 0 lines in
    let charge := delivery_charge env db (req_delivery_type req) in
    Forall2 (Spec.priced_from (items db)) (req_items req) lines
    /\ id = orders_seq db
    /\ total = F64.add items_total charge
    /\ Spec.keeps_amounts g
    /\ orders db' =
       map (fun o => if order_id o =? id then g o else o)
           (orders db ++ [new_order id school req charge items_total total])
    /\ order_items db' = (order_items db ++ (order_item_of id <$> lines))%list
    /\ items db' = items db.
Proof.
  unfold handle. intros H.
  destruct (school_query_fails env); [discriminate|].
  destruct (maybeSingle _) as [|school|]; try discriminate.
  destruct (items_query_fails env); [discriminate|].
  destruct (price_lines _ _ _ _) as [e|[items_total lines]] eqn:Hp; [discriminate|].
  destruct (order_insert_fails env); [discriminate|].
  cbn [insert_order] in H.
  destruct (order_items_insert_fails env); [discriminate|].
  apply price_lines_inr in Hp as (new & Hls & Htot & Hall).
  simpl in Hls. subst lines items_total.
  apply priced_from_catalog in Hall.
  unfold finish in H. cbn [order_id new_order] in H.
  destruct (razorpay env) as [[|lid0 url]|]; injection H as <- <- <- <- <- <-.
  - exists school, new, (fun o => o). cbn zeta.
    repeat split; try assumption; try reflexivity.
    cbn [orders insert_order_items]. apply update_order_same.
  - exists school, new,
      (set_payment_link (if truthy lid0 then lid0 else None)
                        (if truthy url then url else None)).
    cbn zeta. repeat split; try assumption; try reflexivity.
  - exists school, new, (fun o => o). cbn zeta.
    repeat split; try assumption; try reflexivity.
    cbn [orders insert_order_items]. apply update_order_same.
Qed.

Lemma filter_none {A} (P : A -> Prop) `{!forall x, Decision (P x)} (l : list A) :
  (forall x, x ∈ l -> ~ P x) -> filter P l = [].
Proof.
  intros Hno. induction l as [|x l IH]; [reflexivity|].
  rewrite filter_cons. destruct (decide (P x)) as [Hp|_].
  - exfalso. apply (Hno x); [left | exact Hp].
  - apply IH. intros y Hy. apply Hno. now right.
Qed.

Lemma filter_all {A} (P : A -> Prop) `{!forall x, Decision (P x)} (l : list A) :
  (forall x, x ∈ l -> P x) -> filter P l = l.
Proof.
  intros Hall. induction l as [|x l IH]; [reflexivity|].
  rewrite filter_cons. destruct (decide (P x)) as [_|Hn].
  - f_equal. apply IH. intros y Hy. apply Hall. now right.
  - exfalso. apply Hn, Hall. left.
Qed.

(** Selecting by id commutes with a change of the rows that keeps the id. *)
Lemma filter_id_map (id : Z) (h : Order -> Order) (l : list Order) :
  (forall o, order_id (h o) = order_id o) ->
  filter (fun o => order_id o = id) (map h l)
  = map h (filter (fun o => order_id o = id) l).
Proof.
  intros Hh. induction l as [|o l IH]; [reflexivity|]. simpl map.
  rewrite !filter_cons, Hh.
  destruct (decide (order_id o = id)); simpl; now rewrite IH.
Qed.

Lemma lines_total_of_lines (id : Z) (lines : list Line) :
  Spec.lines_total (order_item_of id <$> lines)
  = foldr Z.add 0 (Spec.line_amount <$> lines).
Proof.
  unfold Spec.lines_total. induction lines as [|l lines IH]; [reflexivity|].
  rewrite !fmap_cons. cbn [foldr]. now rewrite IH.
Qed.

(** C2, as amended.  For every successful order-creation call whose prices
    and quantities are not negative and whose amount with the delivery charge
    is within 2^53, the persisted order has items_total_paise equal to the
    sum, over its order items, of the unit price snapshotted from the catalog
    at order time times the quantity, and total_amount_paise =
    items_total_paise + delivery_charge_paise; the totals are stored with the
    order, so a later change of a catalog price leaves the order and its
    items, and with them the totals, as they are. *)
Theorem order_totals_at_creation (env : Env) (db db' : DB)
    (req : CreateOrderRequest) (id total : Z) (link lid : option string)
    (fx : list Effect) :
  Spec.sequence_ahead db ->
  Spec.exact_amounts db (delivery_charge env db (req_delivery_type req))
    (req_items req) ->
  handle env db req = (Created id total link lid, db', fx) ->
  exists o : Order,
    filter (fun o => order_id o = id) (orders db') = [o]
    /\ Forall2
         (fun request oi =>
            oi_item_id oi = request.1 /\ oi_qty oi = request.2
            /\ exists it,
                 List.find (fun i => item_id i =? request.1) (items db) = Some it
                 /\ oi_unit_price_paise oi = price_paise it)
         (req_items req) (Spec.order_lines db' id)
    /\ items_total_paise o = Spec.lines_total (Spec.order_lines db' id)
    /\ total_amount_paise o = items_total_paise o + delivery_charge_paise o
    /\ total = total_amount_paise o
    /\ forall (editingItem : Z) (itemData : Item),
         let later := Catalog.handleSaveItem editingItem itemData db' in
         filter (fun o => order_id o = id) (orders later) = [o]
         /\ Spec.order_lines later id = Spec.order_lines db' id.
Proof.
  intros [Hord Hitems] (Hrange & Hcharge & Hsum) Hrun.
  destruct (handle_created _ _ _ _ _ _ _ _ _ Hrun)
    as (school & lines & g & Hall & Hid & Htotal & Hg & Horders & Hlines & _).
  cbv zeta in Htotal, Horders.
  set (charge := delivery_charge env db (req_delivery_type req)) in *.
  pose proof (request_amount_nonneg db _ Hrange) as Hamount.
  destruct (priced_lines_exact db _ _ 0 Hall Hrange) as (Erun & Eamount & Hprices);
    [lia | lia |].
  rewrite Z.add_0_l in Erun.
  set (items_total := Spec.running_total 0 lines) in *.
  assert (Etotal : total = items_total + charge).
  { rewrite Htotal. apply DoubleProperties.add_exact. lia. }
  clear Htotal.
  set (new := new_order id school req charge items_total total) in *.
  assert (Hsel : filter (fun o => order_id o = id) (orders db') = [g new]).
  { rewrite Horders, filter_id_map.
    - rewrite filter_app, (filter_none _ (orders db)).
      + rewrite filter_cons, filter_nil.
        destruct (decide (order_id new = id)) as [_|Hn]; [|now exfalso].
        simpl. now rewrite Z.eqb_refl.
      + intros o Ho E. specialize (Hord o Ho). lia.
    - intros o. destruct (order_id o =? id); [apply Hg | reflexivity]. }
  assert (Hol : Spec.order_lines db' id = order_item_of id <$> lines).
  { unfold Spec.order_lines. rewrite Hlines, filter_app, filter_none, filter_all.
    - reflexivity.
    - intros oi Hoi. apply list_elem_of_fmap in Hoi as (l & -> & _). reflexivity.
    - intros oi Hoi E. specialize (Hitems oi Hoi). lia. }
  destruct (Hg new) as (_ & Gi & Gt & Gc).
  exists (g new). split; [exact Hsel|]. rewrite Hol. split.
  { clear -Hall Hprices.
    induction Hall as [|r l rs ls (H1 & H2 & _) _ IH];
      rewrite ?fmap_cons; constructor.
    - apply Forall2_cons in Hprices as [(it & Hf & Hp) _].
      repeat split; try assumption. exists it. split; assumption.
    - apply IH. now apply Forall2_cons in Hprices as [_ Hprices]. }
  rewrite lines_total_of_lines, Gi, Gt, Gc.
  cbn [items_total_paise total_amount_paise delivery_charge_paise new new_order].
  split; [exact Erun|]. split; [exact Etotal|]. split; [reflexivity|].
  intros editingItem itemData. split; [exact Hsel | exact Hol].
Qed.

Lemma order_totals_at_creation_witness :
  exists o : Order,
    filter (fun o => order_id o = 1)
           (orders (handle Examples.quiet Examples.shop_db
                      (Examples.request_for [(1, 2)])).1.2) = [o]
    /\ items_total_paise o = 24000
    /\ total_amount_paise o = 29000.
Proof.
  destruct (order_totals_at_creation Examples.quiet Examples.shop_db
              (handle Examples.quiet Examples.shop_db
                 (Examples.request_for [(1, 2)])).1.2
              (Examples.request_for [(1, 2)]) 1 29000 None None
              [PostComputeWeights 1])
    as (o & Hsel & _ & Hit & Htot & Ht & _).
  - split; intros x Hx; inversion Hx.
  - split; [|split].
    + constructor; [|constructor]. split; [cbn; lia|].
      intros it Hit. injection Hit as <-. cbn. lia.
    + vm_compute. discriminate.
    + vm_compute. discriminate.
  - reflexivity.
  - exists o. split; [exact Hsel|]. split; [|now symmetry].
    vm_compute in Hsel. injection Hsel as <-. reflexivity.
Defined.

(** C2 as it is written fails: the total is a sum of doubles.  At the price
    1073741825, the product for the quantity 8388609 is beyond 2^53 and is
    rounded; with a second line of the quantity -8388608 the stored
    items_total_paise is 1073741824, and the sum over the order items is
    1073741825. *)
Lemma rounded_line_amount_counterexample :
  ~ (forall (env : Env) (db db' : DB) (req : CreateOrderRequest)
            (id total : Z) (link lid : option string) (fx : list Effect),
       Spec.sequence_ahead db ->
       handle env db req = (Created id total link lid, db', fx) ->
       exists o : Order,
         filter (fun o => order_id o = id) (orders db') = [o]
         /\ items_total_paise o = Spec.lines_total (Spec.order_lines db' id)).
Proof.
  intros H.
  destruct (H Examples.quiet MoreExamples.atlas_db
              (handle Examples.quiet MoreExamples.atlas_db
                 (Examples.request_for [(5, 8388609); (5, -8388608)])).1.2
              (Examples.request_for [(5, 8388609); (5, -8388608)])
              1 1073746824 None None [PostComputeWeights 1])
    as (o & Hsel & Htot).
  - split; intros x Hx; inversion Hx.
  - vm_compute. reflexivity.
  - vm_compute in Hsel. injection Hsel as <-.
    vm_compute in Htot. discriminate Htot.
Qed.

Lemma find_in_request (db : DB) (requested : list (Z * Z)) (line : Z * Z) :
  line ∈ requested ->
  List.find (fun i => item_id i =? line.1)
            (filter (fun i => item_id i ∈ requested.*1) (items db))
  = List.find (fun i => item_id i =? line.1) (items db).
Proof.
  intros Hin. apply find_in_selection, list_elem_of_fmap. now exists line.
Qed.

(** C5, as amended.  For every order-creation request that names an item id
    the catalog does not have, the call is rejected and the store is left as
    it was: no Order row and no OrderItem row is created.  The error is
    UnknownItem when the reads succeed, the school code resolves and every
    item listed before the unknown one is in stock; otherwise it is the error
    of the earlier check. *)
Theorem unknown_item_rejected (env : Env) (db : DB) (req : CreateOrderRequest) :
  Spec.has_unknown_item db req ->
  exists e : Error,
    handle env db req = (Rejected e, db, [])
    /\ forall (before after : list (Z * Z)) (id q : Z),
         req_items req = (before ++ (id, q) :: after)%list ->
         Spec.not_in_catalog db id ->
         Forall (Spec.in_stock db) before ->
         school_query_fails env = false ->
         items_query_fails env = false ->
         Spec.school_resolves db req ->
         e = UnknownItem id.
Proof.
  intros (line & Hin & Hnot). unfold handle.
  destruct (school_query_fails env) eqn:Hsq.
  { eexists. split; [reflexivity | intros; discriminate]. }
  destruct (filter _ (schools db)) as [|school [|s2 rest]] eqn:Hschool; cbn [maybeSingle].
  { eexists. split; [reflexivity|].
    intros ? ? ? ? _ _ _ _ _ [s Hs]. unfold Spec.school_resolves in Hs.
    rewrite Hschool in Hs. discriminate. }
  2:{ eexists. split; [reflexivity|].
      intros ? ? ? ? _ _ _ _ _ [s Hs]. rewrite Hschool in Hs. discriminate. }
  destruct (items_query_fails env) eqn:Hiq.
  { eexists. split; [reflexivity | intros; discriminate]. }
  destruct (price_lines_unknown
              (filter (fun i => item_id i ∈ (req_items req).*1) (items db))
              (req_items req) 0 []) as [e He].
  { exists line. split; [exact Hin|].
    rewrite find_in_request by exact Hin. apply find_none_not_in, Hnot. }
  change (map fst (req_items req)) with ((req_items req).*1).
  rewrite He. exists e. split; [reflexivity|].
  intros before after id q Hreq Hid Hbefore _ _ _.
  rewrite Hreq in He.
  rewrite price_lines_first_unknown in He.
  - now injection He.
  - rewrite <- Hreq. apply Forall_forall. intros l Hl.
    rewrite Forall_forall in Hbefore. destruct (Hbefore l Hl) as (it & Hf & Hs).
    exists it. split; [|exact Hs]. rewrite find_in_request; [exact Hf|].
    rewrite Hreq. apply elem_of_app. now left.
  - rewrite <- Hreq.
    pose proof (find_in_request db (req_items req) (id, q)) as Hf.
    cbn [fst] in Hf. rewrite Hf.
    + apply find_none_not_in, Hid.
    + rewrite Hreq. apply elem_of_app. right. left.
Qed.

Lemma unknown_item_rejected_witness :
  handle Examples.quiet Examples.shop_db (Examples.request_for [(1, 2); (99, 1)])
  = (Rejected (UnknownItem 99), Examples.shop_db, []).
Proof.
  destruct (unknown_item_rejected Examples.quiet Examples.shop_db
              (Examples.request_for [(1, 2); (99, 1)])) as (e & Hrun & He).
  - exists (99, 1). split; [right; left|].
    intros it Hit. apply list_elem_of_singleton in Hit as ->. discriminate.
  - rewrite Hrun. f_equal. f_equal. f_equal.
    apply (He [(1, 2)] [] 99 1); try reflexivity.
    + intros it Hit. apply list_elem_of_singleton in Hit as ->. discriminate.
    + constructor; [|constructor]. exists Examples.notebook.
      split; [reflexivity | simpl; lia].
    + eexists. reflexivity.
Defined.

(** C5 as it is written fails: with an earlier item short of stock, a request
    that also names an unknown item is rejected with InsufficientStock. *)
Lemma unknown_item_after_short_stock_counterexample :
  ~ (forall (env : Env) (db : DB) (req : CreateOrderRequest),
       Spec.has_unknown_item db req ->
       exists (id : Z) (db' : DB) (fx : list Effect),
         handle env db req = (Rejected (UnknownItem id), db', fx)).
Proof.
  intros H.
  destruct (H Examples.quiet Examples.shop_db
              (Examples.request_for [(1, 50); (99, 1)]))
    as (id & db' & fx & Hrun).
  - exists (99, 1). split; [right; left|].
    intros it Hit. apply list_elem_of_singleton in Hit as ->. discriminate.
  - vm_compute in Hrun. discriminate Hrun.
Qed.

(** C6, as amended.  The order row and its items are written by two
    separate inserts.  When a call that would succeed has the insert of its
    order items fail, it answers with a server error and the order row it
    has inserted stays in the store, without items: there is no transaction
    and no compensating delete. *)
Theorem failed_items_insert_leaves_order (env : Env) (db db_ok : DB)
    (req : CreateOrderRequest) (id total : Z) (link lid : option string)
    (fx : list Effect) :
  Spec.sequence_ahead db ->
  handle env db req = (Created id total link lid, db_ok, fx) ->
  exists (o : Order) (db' : DB),
    handle (Spec.failing_items_insert env) db req = (Rejected ServerError, db', [])
    /\ orders db' = (orders db ++ [o])%list
    /\ order_id o = id
    /\ order_items db' = order_items db
    /\ Spec.order_lines db' id = [].
Proof.
  intros [_ Hitems]. unfold handle. cbn [Spec.failing_items_insert
    school_query_fails items_query_fails order_insert_fails
    order_items_insert_fails].
  destruct (school_query_fails env); [discriminate|].
  destruct (maybeSingle _) as [|school|]; try discriminate.
  destruct (items_query_fails env); [discriminate|].
  replace (delivery_charge (Spec.failing_items_insert env) db)
    with (delivery_charge env db) by reflexivity.
  destruct (price_lines _ _ _ _) as [e|[items_total lines]]; [discriminate|].
  destruct (order_insert_fails env); [discriminate|].
  cbn [insert_order].
  destruct (order_items_insert_fails env); [discriminate|].
  intros Hrun. assert (Hid : id = orders_seq db).
  { unfold finish in Hrun. cbn [order_id new_order] in Hrun.
    destruct (razorpay env) as [[|? ?]|]; now injection Hrun. }
  eexists _, _. split; [reflexivity|]. cbn [orders order_items order_id new_order].
  repeat split; [now symmetry|].
  unfold Spec.order_lines. cbn [order_items]. apply filter_none.
  intros oi Hoi E. specialize (Hitems oi Hoi). lia.
Qed.

Lemma failed_items_insert_leaves_order_witness :
  exists (o : Order) (db' : DB),
    handle Examples.items_insert_down Examples.shop_db
           (Examples.request_for [(1, 2)])
    = (Rejected ServerError, db', [])
    /\ orders db' = [o]
    /\ Spec.order_lines db' 1 = [].
Proof.
  destruct (failed_items_insert_leaves_order Examples.quiet Examples.shop_db
              (handle Examples.quiet Examples.shop_db
                 (Examples.request_for [(1, 2)])).1.2
              (Examples.request_for [(1, 2)]) 1 29000 None None
              [PostComputeWeights 1])
    as (o & db' & Hrun & Ho & _ & _ & Hl).
  - split; intros x Hx; inversion Hx.
  - reflexivity.
  - exists o, db'. auto.
Defined.

(** C6 as it is written fails: the insert of the items fails and the order
    stays in the store with no item. *)
Lemma orphan_order_counterexample :
  ~ (forall (env : Env) (db db' : DB) (req : CreateOrderRequest)
            (r : Response) (fx : list Effect),
       order_items_insert_fails env = true ->
       handle env db req = (r, db', fx) ->
       forall o, o ∈ orders db' ->
                 o ∈ orders db \/ Spec.order_lines db' (order_id o) <> []).
Proof.
  intros H.
  destruct (H Examples.items_insert_down Examples.shop_db _
              (Examples.request_for [(1, 2)]) _ _ eq_refl eq_refl
              (new_order 1 (Build_School 1 "Hill School" "1001" None true)
                 (Examples.request_for [(1, 2)]) 5000 24000 29000))
    as [Hold|Hlines].
  - vm_compute. left.
  - inversion Hold.
  - apply Hlines. reflexivity.
Qed.

End OrderProperties.

(** ** Properties of the payment reconciler *)

Module PaymentProperties.
Import JS Store Outbound RazorpayWebhook.


Lemma logWebhook_events (orderId : option Z) (e : RazorpayEvent) (db : DB) :
  courier_events (logWebhook orderId e db)
  = (courier_events db ++ [Spec.payment_audit orderId e])%list.
Proof. reflexivity. Qed.

Lemma is_event_true (e : RazorpayEvent) (name : string) :
  ev_event e = Some name -> is_event (ev_event e) name = true.
Proof. intros ->. unfold is_event. now rewrite bool_decide_eq_true. Qed.

Lemma is_event_other (e : RazorpayEvent) (name other : string) :
  ev_event e = Some name -> name <> other -> is_event (ev_event e) other = false.
Proof.
  intros -> Hne. unfold is_event. rewrite bool_decide_eq_false. congruence.
Qed.

(** The handler on a payment.failed event that passes the signature check. *)
Lemma handle_failed_event (env : Env) (db : DB) (e : RazorpayEvent) :
  Spec.signature_accepted env ->
  ev_event e = Some "payment.failed" ->
  handle env db (Some e) = payment_event env db (Some "payment.failed") e.
Proof.
  intros Hsig Hev. unfold handle. rewrite Hsig.
  rewrite (is_event_other e "payment.failed" "payment_link.paid") by (auto; discriminate).
  rewrite (is_event_other e "payment.failed" "payment.captured") by (auto; discriminate).
  rewrite (is_event_true e "payment.failed") by exact Hev.
  simpl. now rewrite Hev.
Qed.

Lemma filter_map_stable {A} (P : A -> Prop) `{!forall x, Decision (P x)}
    (h : A -> A) (l : list A) :
  (forall x, P (h x) <-> P x) -> filter P (map h l) = map h (filter P l).
Proof.
  intros Hst. induction l as [|x l IH]; [reflexivity|]. simpl map.
  rewrite !filter_cons.
  destruct (decide (P (h x))) as [Hy|Hn], (decide (P x)) as [Hy'|Hn'];
    simpl; rewrite ?IH; try reflexivity.
  - exfalso. apply Hn', Hst, Hy.
  - exfalso. apply Hn, Hst, Hy'.
Qed.

(** *** The two updates against the schema *)

(** orders has no column paid_at: the update of a completed payment is
    refused, whatever the rows. *)
Lemma paid_update_refused (id : Z) (db : DB) :
  update_orders paid_columns id set_paid db = None.
Proof. reflexivity. Qed.

Lemma update_logged_paid (id : Z) (db : DB) :
  update_logged paid_columns id set_paid db = db.
Proof. reflexivity. Qed.

(** The status of a failed payment is none of those the CHECK on
    orders.status lists. *)
Lemma set_failed_violates_check (o : Order) : order_checks (set_failed o) = false.
Proof.
  unfold order_checks. cbn [status set_failed].
  rewrite (bool_decide_eq_false_2
             ("payment_failed"
              ∈ ["pending"; "confirmed"; "processing"; "out_for_delivery";
                 "delivered"; "cancelled"])).
  - apply andb_false_r.
  - intros H. repeat (apply elem_of_cons in H as [H|H]; [discriminate H|]).
    inversion H.
Qed.

(** The update of a failed payment is refused when it has a row to change. *)
Lemma failed_update_refused (id : Z) (db : DB) (o : Order) :
  o ∈ orders db -> order_id o = id ->
  update_orders failed_columns id set_failed db = None.
Proof.
  intros Hin Hid. unfold update_orders.
  assert (Hsel : o ∈ filter (fun o => order_id o = id) (orders db)).
  { apply list_elem_of_filter. split; assumption. }
  destruct (filter (fun o => order_id o = id) (orders db)) as [|o1 l];
    [inversion Hsel|].
  cbn [forallb]. rewrite set_failed_violates_check. cbn [andb].
  now rewrite andb_false_r.
Qed.

Lemma with_orders_same (db : DB) : with_orders db (orders db) = db.
Proof. destruct db; reflexivity. Qed.

Lemma map_no_row (id : Z) (f : Order -> Order) (l : list Order) :
  filter (fun o => order_id o = id) l = [] ->
  map (fun o => if order_id o =? id then f o else o) l = l.
Proof.
  induction l as [|o l IH]; [reflexivity|]. rewrite filter_cons.
  destruct (decide (order_id o = id)) as [E|Hne]; [discriminate|].
  intros Hnone. simpl.
  destruct (Z.eqb_spec (order_id o) id); [contradiction|].
  now rewrite IH.
Qed.

Lemma update_order_no_row (id : Z) (f : Order -> Order) (db : DB) :
  filter (fun o => order_id o = id) (orders db) = [] ->
  update_order id f db = db.
Proof.
  intros Hnone. unfold update_order. rewrite map_no_row by exact Hnone.
  apply with_orders_same.
Qed.

(** Either way the store is as it was: with a row to change the update is
    refused, and without one it changes nothing. *)
Lemma update_logged_failed (id : Z) (db : DB) :
  update_logged failed_columns id set_failed db = db.
Proof.
  unfold update_logged, update_orders.
  destruct (filter (fun o => order_id o = id) (orders db)) as [|o l] eqn:Hsel.
  - cbn. apply update_order_no_row, Hsel.
  - cbn [forallb]. rewrite set_failed_violates_check. cbn [andb].
    now rewrite andb_false_r.
Qed.

(** What the payment webhook leaves behind: the store as it was, or the
    store with one audit record more. *)
Lemma payment_webhook_store (env : Env) (db : DB) (body : option RazorpayEvent) :
  (handle env db body).1.2 = db
  \/ exists (oid : option Z) (e : RazorpayEvent),
       body = Some e /\ (handle env db body).1.2 = logWebhook oid e db.
Proof.
  unfold handle.
  destruct (_ && _); [now left|].
  destruct body as [e|]; [|now left].
  destruct (is_event _ "payment_link.paid").
  { unfold payment_link_paid.
    destruct (ev_payment_link e); [|now left].
    destruct (by_payment_id _ _); try (now left); try (right; now eexists _, _).
    destruct (already_paid _); right; now eexists _, _. }
  destruct (_ || _); [|right; now eexists _, _].
  unfold payment_event.
  destruct (ev_payment e); [|right; now eexists _, _].
  destruct (find_order _ _) as [[orderRow|]|]; try (now left);
    try (right; now eexists _, _).
  destruct (_ && _); [right; now eexists _, _|].
  destruct (is_event _ _); cbn [fst snd]; right; eexists _, _.
  - split; reflexivity.
  - now rewrite update_logged_failed.
Qed.

(** The payment webhook never changes an order. *)
Lemma payment_webhook_keeps_orders (env : Env) (db : DB)
    (body : option RazorpayEvent) :
  orders (handle env db body).1.2 = orders db.
Proof.
  destruct (payment_webhook_store env db body) as [->|(oid & e & _ & ->)];
    reflexivity.
Qed.

(** *** The duplicate gate of the paid events *)

(** What the gate does for an order whose payment status is "paid": the
    event is logged and nothing else happens. *)
Lemma paid_order_is_duplicate (env : Env) (db : DB) (e : RazorpayEvent)
    (ent : RazorpayEntity) (r : OrderRow) :
  Spec.signature_accepted env ->
  ev_event e = Some "payment_link.paid" ->
  ev_payment_link e = Some ent ->
  by_payment_id db (if truthy (ent_id ent) then ent_id ent else None) = OneRow r ->
  row_payment_status r = "paid" ->
  handle env db (Some e)
  = (AlreadyPaid, logWebhook (Some (row_id r)) e db, []).
Proof.
  intros Hsig Hev Hent Hsel Hpaid. unfold handle. rewrite Hsig.
  rewrite (is_event_true e "payment_link.paid") by exact Hev.
  cbn [negb andb]. unfold payment_link_paid. rewrite Hent, Hsel.
  unfold already_paid. rewrite Hpaid. reflexivity.
Qed.

Lemma paid_capture_is_duplicate (env : Env) (db : DB) (e : RazorpayEvent)
    (ent : RazorpayEntity) (r : OrderRow) :
  Spec.signature_accepted env ->
  ev_event e = Some "payment.captured" ->
  ev_payment e = Some ent ->
  find_order db ent = Some (Some r) ->
  row_payment_status r = "paid" ->
  handle env db (Some e)
  = (AlreadyPaid, logWebhook (Some (row_id r)) e db, []).
Proof.
  intros Hsig Hev Hent Hfind Hpaid. unfold handle. rewrite Hsig.
  rewrite (is_event_other e "payment.captured" "payment_link.paid")
    by (auto; discriminate).
  rewrite (is_event_true e "payment.captured") by exact Hev.
  cbn [negb andb orb]. unfold payment_event. rewrite Hent, Hfind.
  rewrite (is_event_true e "payment.captured") by exact Hev.
  unfold already_paid. rewrite Hpaid. reflexivity.
Qed.

(** The gate on a selected row reads the payment status only: the lifecycle
    status of the order has no part in it. *)
Lemma gate_reads_payment_status_only (o : Order) :
  already_paid (select_row o) = String.eqb (payment_status o) "paid".
Proof.
  unfold already_paid. cbn [select_row row_payment_status row_status].
  rewrite bool_decide_eq_false_2 by discriminate. apply orb_false_r.
Qed.

Lemma gate_open (o : Order) :
  payment_status o <> "paid" -> already_paid (select_row o) = false.
Proof.
  intros Hne. rewrite gate_reads_payment_status_only. now apply String.eqb_neq.
Qed.

(** A paid event for an order not marked paid: the update is refused and
    only logged, and the handler goes on to the audit record, the
    notification and the two calls. *)
Lemma link_paid_step (env : Env) (db : DB) (e : RazorpayEvent)
    (ent : RazorpayEntity) (order : Order) :
  Spec.signature_accepted env ->
  ev_event e = Some "payment_link.paid" ->
  ev_payment_link e = Some ent ->
  by_payment_id db (Notions.link_id ent) = OneRow (select_row order) ->
  payment_status order <> "paid" ->
  handle env db (Some e)
  = (Done, logWebhook (Some (order_id order)) e db,
     ([SendWhatsApp (parent_phone order)
         (PaymentReceived (order_id order) (total_amount_paise order));
       PostComputeWeights (order_id order);
       PostCreateShipment (order_id order)]
      ++ match shipment_awb env with
         | Some (String c r) =>
             [SendWhatsApp (parent_phone order)
                (ShipmentCreated (order_id order) (String c r))]
         | _ => []
         end)%list).
Proof.
  intros Hsig Hev Hent Hsel Hopen. unfold handle. rewrite Hsig.
  rewrite (is_event_true e "payment_link.paid") by exact Hev.
  cbn [negb andb]. unfold payment_link_paid. rewrite Hent.
  unfold Notions.link_id in Hsel. rewrite Hsel, (gate_open _ Hopen).
  reflexivity.
Qed.

Lemma capture_step (env : Env) (db : DB) (e : RazorpayEvent)
    (ent : RazorpayEntity) (order : Order) :
  Spec.signature_accepted env ->
  ev_event e = Some "payment.captured" ->
  ev_payment e = Some ent ->
  find_order db ent = Some (Some (select_row order)) ->
  payment_status order <> "paid" ->
  handle env db (Some e)
  = (Done, logWebhook (Some (order_id order)) e db,
     [SendWhatsApp (parent_phone order)
        (PaymentReceived (order_id order) (total_amount_paise order))]).
Proof.
  intros Hsig Hev Hent Hfind Hopen. unfold handle. rewrite Hsig.
  rewrite (is_event_other e "payment.captured" "payment_link.paid")
    by (auto; discriminate).
  rewrite (is_event_true e "payment.captured") by exact Hev.
  cbn [negb andb orb]. unfold payment_event. rewrite Hent, Hfind.
  rewrite (is_event_true e "payment.captured") by exact Hev.
  rewrite (gate_open _ Hopen). reflexivity.
Qed.

(** C1, where the code departs from it.  The gate holds back an event for an
    order whose payment status is "paid", but no delivery ever sets that
    status: the update of a completed payment names the column paid_at, which
    orders does not have, so the database refuses it and the handler only
    logs the error.  For every paid event that resolves to an order not
    marked paid, the delivery answers success, writes the audit record, sends
    the payment notification and requests weight computation and shipment,
    and leaves the orders as they were; a second delivery of the event finds
    the order as before and does all of it again. *)
Theorem paid_event_is_processed_on_every_delivery (env : Env) (db : DB)
    (e : RazorpayEvent) (ent : RazorpayEntity) (order : Order) :
  Spec.signature_accepted env ->
  ev_event e = Some "payment_link.paid" ->
  ev_payment_link e = Some ent ->
  by_payment_id db (Notions.link_id ent) = OneRow (select_row order) ->
  payment_status order <> "paid" ->
  exists (db1 db2 : DB) (fx : list Effect),
    handle env db (Some e) = (Done, db1, fx)
    /\ handle env db1 (Some e) = (Done, db2, fx)
    /\ [SendWhatsApp (parent_phone order)
          (PaymentReceived (order_id order) (total_amount_paise order));
        PostComputeWeights (order_id order);
        PostCreateShipment (order_id order)] `prefix_of` fx
    /\ update_orders paid_columns (order_id order) set_paid db = None
    /\ orders db1 = orders db
    /\ orders db2 = orders db
    /\ courier_events db2
       = (courier_events db
          ++ [Spec.payment_audit (Some (order_id order)) e;
              Spec.payment_audit (Some (order_id order)) e])%list.
Proof.
  intros Hsig Hev Hent Hsel Hopen.
  set (db1 := logWebhook (Some (order_id order)) e db).
  assert (Hsel1 : by_payment_id db1 (Notions.link_id ent)
                  = OneRow (select_row order)) by exact Hsel.
  eexists db1, (logWebhook (Some (order_id order)) e db1), _.
  split; [apply (link_paid_step env db e ent order); assumption|].
  split; [apply (link_paid_step env db1 e ent order); assumption|].
  split; [apply prefix_app_r; reflexivity|].
  split; [reflexivity|]. split; [reflexivity|]. split; [reflexivity|].
  unfold db1. rewrite !logWebhook_events, <- app_assoc. reflexivity.
Qed.

Lemma paid_event_is_processed_on_every_delivery_witness :
  let db := Examples.one_order_db "pending" "pending" in
  let e := Examples.link_paid "plink_1" in
  exists (db1 db2 : DB) (fx : list Effect),
    handle Examples.verified db (Some e) = (Done, db1, fx)
    /\ handle Examples.verified db1 (Some e) = (Done, db2, fx)
    /\ length (filter (fun x => is_notification x = true) fx) = 2%nat
    /\ (payment_status <$> orders db2) = ["pending"]
    /\ (status <$> orders db2) = ["pending"].
Proof.
  destruct (paid_event_is_processed_on_every_delivery Examples.verified
              (Examples.one_order_db "pending" "pending")
              (Examples.link_paid "plink_1")
              {| ent_id := Some "plink_1"; ent_notes_order_id := None;
                 ent_order_id := None |}
              (Examples.an_order 1 "pending" "pending"))
    as (db1 & db2 & fx & Hrun1 & Hrun2 & _ & _ & _ & Ho2 & _);
    try reflexivity; try discriminate.
  exists db1, db2, fx. split; [exact Hrun1|]. split; [exact Hrun2|].
  rewrite Ho2. split; [|split; reflexivity].
  vm_compute in Hrun1. injection Hrun1 as _ <-. reflexivity.
Defined.

(** The same in the branch of payment.captured. *)
Lemma captured_event_is_processed_on_every_delivery (env : Env) (db : DB)
    (e : RazorpayEvent) (ent : RazorpayEntity) (order : Order) :
  Spec.signature_accepted env ->
  ev_event e = Some "payment.captured" ->
  ev_payment e = Some ent ->
  find_order db ent = Some (Some (select_row order)) ->
  payment_status order <> "paid" ->
  exists db1 db2 : DB,
    let fx := [SendWhatsApp (parent_phone order)
                 (PaymentReceived (order_id order) (total_amount_paise order))] in
    handle env db (Some e) = (Done, db1, fx)
    /\ handle env db1 (Some e) = (Done, db2, fx)
    /\ orders db1 = orders db
    /\ orders db2 = orders db.
Proof.
  intros Hsig Hev Hent Hfind Hopen.
  set (db1 := logWebhook (Some (order_id order)) e db).
  assert (Hfind1 : find_order db1 ent = Some (Some (select_row order)))
    by exact Hfind.
  exists db1, (logWebhook (Some (order_id order)) e db1). cbv zeta.
  split; [apply (capture_step env db e ent order); assumption|].
  split; [apply (capture_step env db1 e ent order); assumption|].
  split; reflexivity.
Qed.

(** *** The failed payment *)

(** The row an event resolves to is the selection of an order of the
    store. *)
Lemma single_row_of_order (P : Order -> Prop) `{!forall o, Decision (P o)}
    (db : DB) (r : OrderRow) :
  maybeSingle (select_row <$> filter P (orders db)) = OneRow r ->
  exists o, o ∈ orders db /\ select_row o = r.
Proof.
  destruct (filter P (orders db)) as [|o [|o2 l]] eqn:Hsel; try discriminate.
  intros Hrow. injection Hrow as <-. exists o. split; [|reflexivity].
  assert (Hin : o ∈ filter P (orders db)) by (rewrite Hsel; left).
  now apply list_elem_of_filter in Hin.
Qed.

Lemma found_row_of_order (db : DB) (ent : RazorpayEntity) (r : OrderRow) :
  find_order db ent = Some (Some r) ->
  exists o, o ∈ orders db /\ select_row o = r.
Proof.
  unfold find_order, by_id, by_payment_id.
  destruct (ent_notes_order_id ent) as [[|n|n]|];
    repeat match goal with
      | |- context [match maybeSingle ?l with _ => _ end] =>
          let E := fresh "E" in destruct (maybeSingle l) eqn:E
      | |- context [truthy ?v] => destruct (truthy v)
      end; intros Hfound; try discriminate Hfound; injection Hfound as ->;
    eapply single_row_of_order; eassumption.
Qed.

Lemma payment_failed_step (env : Env) (db : DB) (e : RazorpayEvent)
    (ent : RazorpayEntity) (r : OrderRow) :
  ev_payment e = Some ent ->
  find_order db ent = Some (Some r) ->
  payment_event env db (Some "payment.failed") e
  = (Done, logWebhook (Some (row_id r)) e db,
     [SendWhatsApp (row_parent_phone r) (PaymentFailed (row_id r))]).
Proof.
  intros Hent Hfind. unfold payment_event. rewrite Hent, Hfind.
  assert (E : is_event (Some "payment.failed") "payment.captured" = false)
    by reflexivity.
  rewrite E. cbv beta iota zeta. cbn [andb].
  now rewrite update_logged_failed.
Qed.

(** C10, where the code departs from it.  For every payment.failed event
    that resolves to an order the payment webhook applies no duplicate gate
    and sends the failure notification to the buyer, on a repeated delivery
    too; but the order is not marked: the update sets the lifecycle status
    "payment_failed", which the CHECK on orders.status does not allow, so the
    database refuses the update as a whole, the handler only logs the error,
    and the payment status and the lifecycle status stay as they were. *)
Theorem failed_payment_marks_no_order (env : Env) (db : DB) (e : RazorpayEvent)
    (ent : RazorpayEntity) (order : Order) :
  Spec.signature_accepted env ->
  ev_event e = Some "payment.failed" ->
  ev_payment e = Some ent ->
  find_order db ent = Some (Some (select_row order)) ->
  exists db1 db2 : DB,
    handle env db (Some e)
    = (Done, db1,
       [SendWhatsApp (parent_phone order) (PaymentFailed (order_id order))])
    /\ update_orders failed_columns (order_id order) set_failed db = None
    /\ orders db1 = orders db
    /\ courier_events db1
       = (courier_events db
          ++ [Spec.payment_audit (Some (order_id order)) e])%list
    /\ handle env db1 (Some e)
       = (Done, db2,
          [SendWhatsApp (parent_phone order) (PaymentFailed (order_id order))])
    /\ orders db2 = orders db.
Proof.
  intros Hsig Hev Hent Hfind.
  set (db1 := logWebhook (Some (order_id order)) e db).
  assert (Hfind1 : find_order db1 ent = Some (Some (select_row order)))
    by exact Hfind.
  exists db1, (logWebhook (Some (order_id order)) e db1).
  rewrite !handle_failed_event by assumption.
  rewrite (payment_failed_step env db e ent _ Hent Hfind).
  rewrite (payment_failed_step env db1 e ent _ Hent Hfind1).
  cbn [row_id row_parent_phone select_row].
  split; [reflexivity|]. split.
  { destruct (found_row_of_order db ent _ Hfind) as (o & Hin & Ho).
    apply (failed_update_refused _ db o Hin).
    change (row_id (select_row o) = row_id (select_row order)).
    now rewrite Ho. }
  repeat split.
Qed.

Lemma failed_payment_marks_no_order_witness :
  exists db1 : DB,
    handle Examples.verified (Examples.one_order_db "pending" "pending")
           (Some (Examples.payment_of "payment.failed" 1))
    = (Done, db1, [SendWhatsApp "919800000001" (PaymentFailed 1)])
    /\ (payment_status <$> orders db1) = ["pending"]
    /\ (status <$> orders db1) = ["pending"].
Proof.
  destruct (failed_payment_marks_no_order Examples.verified
              (Examples.one_order_db "pending" "pending")
              (Examples.payment_of "payment.failed" 1)
              {| ent_id := Some "pay_1"; ent_notes_order_id := Some 1;
                 ent_order_id := None |}
              (Examples.an_order 1 "pending" "pending"))
    as (db1 & db2 & Hrun & _ & Horders & _); try reflexivity.
  exists db1. split; [exact Hrun|]. rewrite Horders. split; reflexivity.
Defined.

(** *** Events that resolve to no order *)

(** A paid event whose payment link belongs to no order is acknowledged and
    logged, and no order is touched. *)
Lemma unresolved_link_is_logged (env : Env) (db : DB) (e : RazorpayEvent)
    (ent : RazorpayEntity) :
  Spec.signature_accepted env ->
  ev_event e = Some "payment_link.paid" ->
  ev_payment_link e = Some ent ->
  by_payment_id db (if truthy (ent_id ent) then ent_id ent else None) = NoRow ->
  exists db' : DB,
    handle env db (Some e) = (NoMatchingOrder, db', [])
    /\ http_status NoMatchingOrder = 200
    /\ orders db' = orders db
    /\ courier_events db' = (courier_events db ++ [Spec.payment_audit None e])%list.
Proof.
  intros Hsig Hev Hent Hsel. unfold handle. rewrite Hsig.
  rewrite (is_event_true e "payment_link.paid") by exact Hev.
  cbn [negb andb]. unfold payment_link_paid. rewrite Hent, Hsel.
  eexists. repeat split.
Qed.

(** The same for payment.captured and payment.failed. *)
Lemma unresolved_payment_is_logged (env : Env) (db : DB) (e : RazorpayEvent)
    (ent : RazorpayEntity) :
  Spec.signature_accepted env ->
  ev_event e = Some "payment.captured" \/ ev_event e = Some "payment.failed" ->
  ev_payment e = Some ent ->
  find_order db ent = Some None ->
  exists db' : DB,
    handle env db (Some e) = (NoMatchingOrder, db', [])
    /\ orders db' = orders db
    /\ courier_events db' = (courier_events db ++ [Spec.payment_audit None e])%list.
Proof.
  intros Hsig Hev Hent Hsel. unfold handle. rewrite Hsig. cbn [negb andb].
  assert (Hnot : is_event (ev_event e) "payment_link.paid" = false).
  { destruct Hev as [Hev|Hev];
      eapply is_event_other; try exact Hev; discriminate. }
  assert (Hany : is_event (ev_event e) "payment.captured"
                 || is_event (ev_event e) "payment.failed" = true).
  { destruct Hev as [Hev|Hev]; rewrite (is_event_true _ _ Hev);
      [reflexivity | apply orb_true_r]. }
  rewrite Hnot, Hany. unfold payment_event. rewrite Hent, Hsel.
  eexists. repeat split.
Qed.

End PaymentProperties.

(** ** Events that resolve to no order, at the courier webhook *)

Module AuditProperties.
Import JS Store.

(** The courier webhook returns before it writes its audit record when the
    tracking id selects no order. *)
Lemma unresolved_courier_event_is_dropped (db : DB) (payload : DelhiveryPayload) :
  truthy (or_else (dp_awb payload) (dp_waybill payload)) = true ->
  filter (fun o => courier_awb o = or_else (dp_awb payload) (dp_waybill payload))
         (orders db) = [] ->
  DelhiveryWebhook.handle db payload = (DelhiveryWebhook.OrderNotFound, db).
Proof.
  intros Hawb Hsel. unfold DelhiveryWebhook.handle. now rewrite Hawb, Hsel.
Qed.

(** C9, where the code departs from it.  A courier event whose tracking id
    belongs to no order is acknowledged with success and changes no order,
    but no audit record of it is written: the log of events is as before. *)
Theorem unresolved_courier_event_leaves_no_audit_record :
  let db := Examples.shipped_db in
  let payload := Examples.courier_event "AWB404" "Delivered" in
  DelhiveryWebhook.handle db payload = (DelhiveryWebhook.OrderNotFound, db)
  /\ DelhiveryWebhook.http_status DelhiveryWebhook.OrderNotFound = 200
  /\ courier_events (DelhiveryWebhook.handle db payload).2 = courier_events db.
Proof.
  repeat split.
Qed.

End AuditProperties.

(** ** Properties of the conversation engine *)

Module ConversationProperties.
Import JS Store Outbound WhatsappWebhook.

(** whatsapp_messages has no column message_sid: the insert of the inbound
    message is refused, and the handler, which does not read the answer,
    goes on with the store as it was. *)
Lemma log_message_refused (phone sid : option string) (raw : string) (db : DB) :
  log_message phone sid raw db = db.
Proof. reflexivity. Qed.

(** A code that selects a school matches an active school. *)
Lemma selected_school_matches (db : DB) (body : string) (school : School)
    (rest : list School) :
  filter (fun s => code_4digit s = body ∧ school_active s = true) (schools db)
  = school :: rest ->
  existsb (fun s => String.eqb (code_4digit s) body && school_active s)
          (schools db) = true.
Proof.
  intros Hsel.
  assert (Hin : school ∈ filter (fun s => code_4digit s = body
                                          ∧ school_active s = true) (schools db))
    by (rewrite Hsel; left).
  apply list_elem_of_filter in Hin as [[Hcode Hactive] Hin].
  apply existsb_exists. exists school. split.
  - now apply list_elem_of_In.
  - rewrite Hactive, andb_true_r. now apply String.eqb_eq.
Qed.

(** What the pattern of the handler takes as a code is a four-digit code. *)
Lemma four_digits_is_code (body : string) :
  four_digits body = true -> Spec.four_digit_code body = true.
Proof.
  destruct body as [|a [|b [|c [|d [|e r]]]]]; try discriminate.
  unfold four_digits. intros H.
  apply andb_prop in H as [H Hd]. apply andb_prop in H as [H Hc].
  apply andb_prop in H as [Ha Hb].
  unfold Spec.four_digit_code, Spec.all_digits.
  cbn [String.length Nat.eqb list_ascii_of_string forallb andb].
  change (Spec.decimal_digit a) with (is_digit a).
  change (Spec.decimal_digit b) with (is_digit b).
  change (Spec.decimal_digit c) with (is_digit c).
  change (Spec.decimal_digit d) with (is_digit d).
  now rewrite Ha, Hb, Hc, Hd.
Qed.

(** The state machine on an input that the table does not list for its
    state and that the engine does not take beyond the table: the store is
    returned as it is, with one guidance prompt. *)
Lemma state_machine_invalid (env : Env) (db : DB) (phone : string)
    (conversation : option Conversation) (body : string) :
  Spec.valid_input db conversation body = false ->
  Spec.also_taken conversation body = false ->
  Spec.reprompt phone db (state_machine env db phone conversation body).
Proof.
  unfold Spec.valid_input, Spec.also_taken, state_machine, Spec.reprompt.
  destruct (String.eqb (state_of conversation) AWAIT_CODE).
  { unfold await_code. destruct (four_digits body) eqn:H4; simpl.
    - destruct (filter _ (schools db)) as [|s [|s2 l]] eqn:Hsel; simpl;
        intros Hv _; try (split; [reflexivity | now eexists]).
      rewrite (four_digits_is_code body H4) in Hv.
      rewrite (selected_school_matches db body s [] Hsel) in Hv.
      discriminate Hv.
    - intros _ _. split; [reflexivity | now eexists]. }
  destruct (String.eqb (state_of conversation) AWAIT_CLASS).
  { unfold await_class. intros _.
    destruct (field "classes" (context_of conversation));
      try (intros _; split; [reflexivity | now eexists]).
    destruct (parseInt body) as [n|];
      [| intros _; split; [reflexivity | now eexists]].
    intros Ht.
    replace ((n - 1 <? 0) || (Z.of_nat (length l) <=? n - 1)) with true.
    - split; [reflexivity | now eexists].
    - symmetry. apply andb_false_iff in Ht as [Ht|Ht].
      + apply Z.leb_gt in Ht. apply orb_true_iff. left. apply Z.ltb_lt. lia.
      + apply Z.leb_gt in Ht. apply orb_true_iff. right. apply Z.leb_le. lia. }
  destruct (String.eqb (state_of conversation) AWAIT_CATEGORY).
  { unfold await_category. intros Hv _. apply orb_false_iff in Hv as [-> ->].
    split; [reflexivity | now eexists]. }
  destruct (String.eqb (state_of conversation) AWAIT_DELIVERY).
  { unfold await_delivery. intros Hv _. apply orb_false_iff in Hv as [-> ->].
    split; [reflexivity | now eexists]. }
  destruct (String.eqb (state_of conversation) AWAIT_ADDRESS); [discriminate|].
  destruct (String.eqb (state_of conversation) AWAIT_CONFIRM).
  { unfold await_confirm. intros _ ->. split; [reflexivity | now eexists]. }
  intros _ _. split; [reflexivity | now eexists].
Qed.

(** C7, as amended.  The text of a message is read with the blanks around it
    removed.  In every conversation state a message whose text fails the
    validator of the state, and is none of the inputs the engine takes
    beyond the table (START in any letter case; in AWAIT_CONFIRM the word
    CONFIRM in any letter case; in AWAIT_CLASS a text that begins with a
    number from 1 to the length of the class list), leaves the conversation
    table, and so the state and the context of the sender, as they are; the
    only thing sent is one guidance prompt, and nothing when the text is
    blank.  From every state the input START, in any letter case, deletes
    the conversation record of the sender, whose state is then the initial
    AWAIT_CODE. *)
Theorem conversation_never_advances_on_invalid_input (env : Env) (db : DB)
    (from bodyText messageSid rawPayload : string) :
  from <> "" ->
  let body := trim bodyText in
  let phone := normalize_phone from in
  let conversation := whatsapp_conversations db !! phone in
  let out := handle env db (Text from bodyText messageSid rawPayload) in
  (Spec.valid_input db conversation body = false ->
   Spec.also_taken conversation body = false ->
   is_start body = false ->
     whatsapp_conversations out.1 = whatsapp_conversations db
     /\ orders out.1 = orders db
     /\ (body <> "" ->
         exists m, out.2 = [SendWhatsApp phone m] /\ guidance m = true)
     /\ (body = "" -> out.2 = []))
  /\ (is_start body = true ->
      out.2 = [SendWhatsApp phone Welcome]
      /\ whatsapp_conversations out.1 = delete phone (whatsapp_conversations db)
      /\ whatsapp_conversations out.1 !! phone = None
      /\ state_of (whatsapp_conversations out.1 !! phone) = AWAIT_CODE)
  /\ is_start "START" = true.
Proof.
  intros Hfrom body phone conversation out.
  assert (Hf : String.eqb from "" = false) by now apply String.eqb_neq.
  subst out. unfold handle. fold body. rewrite Hf. cbn [orb].
  rewrite !log_message_refused.
  split; [|split; [|reflexivity]].
  - intros Hinvalid Hnot Hstart.
    destruct (String.eqb_spec body "") as [Hempty|Hfull].
    + cbn [fst snd]. repeat split. intros Hne. contradiction.
    + fold phone. unfold is_start in Hstart. rewrite Hstart. fold conversation.
      destruct (state_machine_invalid env db phone conversation body
                  Hinvalid Hnot) as (Hdb & m & Hfx & Hm).
      rewrite Hdb. repeat split.
      * intros _. now exists m.
      * intros Hempty. contradiction.
  - intros Hstart.
    assert (Hfull : String.eqb body "" = false).
    { destruct body; [discriminate Hstart | reflexivity]. }
    rewrite Hfull. fold phone. unfold is_start in Hstart. rewrite Hstart.
    cbn [fst snd delete_conversation with_conversations whatsapp_conversations].
    rewrite lookup_delete_eq. repeat split.
Qed.

Lemma conversation_never_advances_on_invalid_input_witness :
  let db := Examples.chatting_db in
  let phone := "919800000001" in
  (let out := handle Examples.chat_env db (Text "+919800000001" "7" "wamid.1" "{}") in
   whatsapp_conversations out.1 = whatsapp_conversations db
   /\ out.2 = [SendWhatsApp phone InvalidSelection])
  /\ (let out := handle Examples.chat_env db
                   (Text "+919800000001" "START" "wamid.2" "{}") in
      whatsapp_conversations out.1 !! phone = None
      /\ state_of (whatsapp_conversations out.1 !! phone) = AWAIT_CODE).
Proof.
  split.
  - destruct (conversation_never_advances_on_invalid_input Examples.chat_env
                Examples.chatting_db "+919800000001" "7" "wamid.1" "{}")
      as (Hinvalid & _ & _); [discriminate|].
    destruct Hinvalid as (Hconv & _); [reflexivity | reflexivity | reflexivity |].
    split; [exact Hconv | reflexivity].
  - destruct (conversation_never_advances_on_invalid_input Examples.chat_env
                Examples.chatting_db "+919800000001" "START" "wamid.2" "{}")
      as (_ & Hstart & _); [discriminate |].
    destruct (Hstart eq_refl) as (_ & _ & Hnone & Hstate).
    split; [exact Hnone | exact Hstate].
Defined.

(** C7 as it is written fails: in AWAIT_CLASS the text "1abc" is no index
    into the class list, and the engine, which reads the number a text
    begins with, records the first class and moves on to AWAIT_CATEGORY. *)
Lemma text_after_the_index_counterexample :
  ~ (forall (env : Env) (db : DB) (from bodyText messageSid rawPayload : string),
       from <> "" ->
       let body := trim bodyText in
       let phone := normalize_phone from in
       Spec.valid_input db (whatsapp_conversations db !! phone) body = false ->
       body <> "START" ->
       whatsapp_conversations
         (handle env db (Text from bodyText messageSid rawPayload)).1
       = whatsapp_conversations db).
Proof.
  intros H.
  specialize (H Examples.chat_env Examples.chatting_db "+919800000001" "1abc"
                "wamid.3" "{}").
  cbv zeta in H.
  assert (Hstate : conv_state
                     <$> whatsapp_conversations
                           (handle Examples.chat_env Examples.chatting_db
                              (Text "+919800000001" "1abc" "wamid.3" "{}")).1
                         !! "919800000001"
                   = Some "AWAIT_CLASS").
  { rewrite H; [reflexivity | discriminate | reflexivity | discriminate]. }
  vm_compute in Hstate. discriminate Hstate.
Qed.

(** In the same way the lower-case words are taken: "confirm" places the
    order and "start" deletes the conversation. *)
Lemma lower_case_words_are_taken :
  Spec.valid_input MoreExamples.confirming_db
    (whatsapp_conversations MoreExamples.confirming_db !! "919800000001")
    "confirm" = false
  /\ PostCreateOrder
       (JObj [("school_code", JStr "1001"); ("class_id", JNum 1);
              ("category", JStr "books");
              ("items",
               JArr [JObj [("item_id", JNum 1); ("qty", JNum 1)];
                     JObj [("item_id", JNum 2); ("qty", JNum 1)];
                     JObj [("item_id", JNum 3); ("qty", JNum 1)]]);
              ("delivery_type", JStr "school");
              ("parent_phone", JStr "919800000001");
              ("parent_name", JNull); ("address", JNull)])
     ∈ (handle MoreExamples.order_placed MoreExamples.confirming_db
          (Text "+919800000001" "confirm" "wamid.4" "{}")).2
  /\ whatsapp_conversations
       (handle MoreExamples.order_placed MoreExamples.confirming_db
          (Text "+919800000001" "confirm" "wamid.4" "{}")).1
     !! "919800000001" = None
  /\ Spec.valid_input Examples.chatting_db
       (whatsapp_conversations Examples.chatting_db !! "919800000001")
       "start" = false
  /\ whatsapp_conversations
       (handle Examples.chat_env Examples.chatting_db
          (Text "+919800000001" "start" "wamid.5" "{}")).1
     !! "919800000001" = None.
Proof.
  split; [reflexivity|]. split; [vm_compute; left|].
  split; [reflexivity|]. split; reflexivity.
Qed.

End ConversationProperties.

(** ** The amounts of an order are written once *)

Module LifecycleProperties.
Import JS Store Outbound.

Lemma update_order_amounts (id : Z) (f : Order -> Order) (l : list Order) :
  Spec.keeps_amounts f ->
  Spec.amounts <$> map (fun o => if order_id o =? id then f o else o) l
  = Spec.amounts <$> l.
Proof.
  intros Hf. rewrite <- list_fmap_compose. apply list_fmap_ext. intros _ o _. simpl.
  destruct (order_id o =? id); [|reflexivity].
  destruct (Hf o) as (H1 & H2 & H3 & H4). unfold Spec.amounts. congruence.
Qed.

Lemma set_status_keeps (s : string) : Spec.keeps_amounts (set_status s).
Proof. intros o. repeat split. Qed.

Lemma set_paid_keeps : Spec.keeps_amounts RazorpayWebhook.set_paid.
Proof. intros o. repeat split. Qed.

Lemma set_failed_keeps : Spec.keeps_amounts RazorpayWebhook.set_failed.
Proof. intros o. repeat split. Qed.

Lemma set_weights_keeps (w : ComputeWeights.Weights) :
  Spec.keeps_amounts (ComputeWeights.set_weights w).
Proof. intros o. repeat split. Qed.

Create HintDb keeps.

#[local] Hint Resolve set_status_keeps set_paid_keeps set_failed_keeps
  set_weights_keeps : keeps.

Ltac same_amounts :=
  rewrite ?PaymentProperties.update_logged_paid,
    ?PaymentProperties.update_logged_failed,
    ?ConversationProperties.log_message_refused;
  cbn [orders order_items fst snd update_order with_orders
       RazorpayWebhook.logWebhook insert_courier_event with_courier_events
       ComputeWeights.with_courier_parcels
       WhatsappWebhook.saveState
       WhatsappWebhook.delete_conversation WhatsappWebhook.with_conversations
       Catalog.handleSaveItem];
  try (split; [reflexivity | reflexivity]);
  (split; [apply update_order_amounts; auto with keeps | reflexivity]).

(** No later request to the system rewrites the amounts of an order or its
    order items: what create-order stored stays. *)
Lemma amounts_written_once (db db' : DB) :
  Spec.later_request db db' ->
  Spec.amounts <$> orders db' = Spec.amounts <$> orders db
  /\ order_items db' = order_items db.
Proof.
  intros [env ? body | ? payload | ? id | env ? m | ? ? ?].
  - unfold RazorpayWebhook.handle.
    destruct (_ && _); [same_amounts|].
    destruct body as [e|]; [|same_amounts].
    destruct (RazorpayWebhook.is_event _ "payment_link.paid").
    { unfold RazorpayWebhook.payment_link_paid.
      destruct (ev_payment_link e); [|same_amounts].
      destruct (RazorpayWebhook.by_payment_id _ _); try same_amounts.
      destruct (RazorpayWebhook.already_paid _); same_amounts. }
    destruct (_ || _); [|same_amounts].
    unfold RazorpayWebhook.payment_event.
    destruct (ev_payment e); [|same_amounts].
    destruct (RazorpayWebhook.find_order _ _) as [[orderRow|]|]; try same_amounts.
    destruct (_ && _); [same_amounts|].
    destruct (RazorpayWebhook.is_event _ _); same_amounts.
  - unfold DelhiveryWebhook.handle.
    destruct (negb _); [same_amounts|].
    destruct (maybeSingle _); try same_amounts.
    destruct (DelhiveryWebhook.new_status _); same_amounts.
  - unfold ComputeWeights.handle. destruct id as [[|p|p]|]; same_amounts.
  - unfold WhatsappWebhook.handle. destruct m as [raw|from text sid raw];
      [same_amounts|].
    destruct (_ || _); [same_amounts|].
    destruct (String.eqb _ "START"); [same_amounts|].
    unfold WhatsappWebhook.state_machine.
    repeat match goal with
      | |- context [if String.eqb ?a ?b then _ else _] => destruct (String.eqb a b)
      end;
      unfold WhatsappWebhook.await_code, WhatsappWebhook.await_class,
        WhatsappWebhook.await_category, WhatsappWebhook.await_delivery,
        WhatsappWebhook.await_address, WhatsappWebhook.await_confirm;
      repeat match goal with
        | |- context [match ?x with _ => _ end] => destruct x
        end; same_amounts.
  - same_amounts.
Qed.

Lemma amounts_stay (db db' : DB) :
  rtc Spec.later_request db db' ->
  Spec.amounts <$> orders db' = Spec.amounts <$> orders db
  /\ order_items db' = order_items db.
Proof.
  induction 1 as [db | db mid db' Hstep _ [IHa IHi]]; [split; reflexivity|].
  destruct (amounts_written_once _ _ Hstep) as [Ha Hi]. split; congruence.
Qed.

End LifecycleProperties.

(** ** Further properties of the weight calculator *)

Module MoreWeightProperties.
Import JS Store ComputeWeights.

Lemma set_weights_twice (id : Z) (w : Weights) (l : list Order) :
  map (fun o => if order_id o =? id then set_weights w o else o)
      (map (fun o => if order_id o =? id then set_weights w o else o) l)
  = map (fun o => if order_id o =? id then set_weights w o else o) l.
Proof.
  rewrite map_map. apply map_ext. intros o.
  destruct (order_id o =? id) eqn:E; cbn [order_id set_weights]; rewrite E;
    reflexivity.
Qed.

(** X1.  The weight computation is idempotent: run a second time for the same
    order it answers with the same weights and leaves the orders as the
    first run left them. *)
Theorem weights_idempotent (db : DB) (id : Z) (Hid : id <> 0) :
  let first := handle db (Some id) in
  let second := handle first.2 (Some id) in
  second.1 = first.1 /\ orders second.2 = orders first.2.
Proof.
  cbv zeta. rewrite (WeightProperties.handle_computes db id Hid). cbn [fst snd].
  rewrite WeightProperties.handle_computes by exact Hid. cbn [fst snd].
  split; [reflexivity|].
  cbn [orders with_courier_parcels update_order with_orders].
  apply set_weights_twice.
Qed.

Lemma weights_idempotent_witness :
  let first := handle Examples.weighing_db (Some 1) in
  let second := handle first.2 (Some 1) in
  second.1 = first.1 /\ orders second.2 = orders first.2.
Proof.
  apply (weights_idempotent Examples.weighing_db 1). discriminate.
Defined.

Lemma or_default_nonzero (v : option Z) (d : Z) : d <> 0 -> or_default v d <> 0.
Proof. intros Hd. destruct v as [[|p|p]|]; simpl; try assumption; discriminate. Qed.

Lemma settingsMap_with_setting (db : DB) (key k : string) (v : option Z) :
  k ∈ setting_ids ->
  settingsMap setting_ids (Notions.with_setting key v db) !! k
  = F64.Number <$> (if decide (key = k) then v else settings db !! k).
Proof.
  intros Hk. rewrite WeightProperties.settingsMap_lookup by exact Hk.
  cbn [settings Notions.with_setting]. destruct v as [n|].
  - rewrite lookup_insert. destruct (decide (key = k)); reflexivity.
  - rewrite lookup_delete. destruct (decide (key = k)); reflexivity.
Qed.

(** X2.  The weight computation never divides by zero: the volumetric
    divisor and the rounding unit it uses are never 0, because a setting
    stored as 0 is read like a missing one and replaced by its fallback. *)
Theorem no_division_by_zero (db : DB) :
  volumetricDivisor db <> 0
  /\ weightRounding db <> 0
  /\ forall (key : string) (id : Z),
       key ∈ setting_ids ->
       weights_of (Notions.with_setting key (Some 0) db) id
       = weights_of (Notions.with_setting key None db) id.
Proof.
  split; [apply or_default_nonzero; discriminate|].
  split; [apply or_default_nonzero; discriminate|].
  intros key id Hkey. unfold weights_of, packagingWeight, volumetricDivisor,
    weightRounding.
  rewrite !settingsMap_with_setting by (unfold setting_ids; repeat constructor).
  assert (Hrows : select_order_items (Notions.with_setting key (Some 0) db) id
                  = select_order_items (Notions.with_setting key None db) id)
    by reflexivity.
  rewrite Hrows.
  repeat match goal with
    | |- context [decide (key = ?k)] => destruct (decide (key = k))
    end; reflexivity.
Qed.

Lemma no_division_by_zero_witness :
  weights_of (Notions.with_setting "volumetric_divisor" (Some 0)
                Examples.weighing_db) 1
  = weights_of (Notions.with_setting "volumetric_divisor" None
                  Examples.weighing_db) 1.
Proof.
  destruct (no_division_by_zero Examples.weighing_db) as (_ & _ & Hzero).
  apply Hzero. unfold setting_ids. repeat constructor.
Defined.

(** X3.  With a positive rounding unit, and weights and a unit below 2^52,
    the billed weight exceeds the larger of the actual and the volumetric
    weight by less than one rounding unit: the computation rounds up to the
    next multiple, never further. *)
Theorem billed_weight_is_next_multiple (db : DB) (id : Z) :
  let w := weights_of db id in
  0 < weightRounding db <= 2 ^ 52 ->
  0 <= Z.max (actual_weight_grams w) (volumetric_grams w) < 2 ^ 52 ->
  w_billed_weight_grams w
  < Z.max (actual_weight_grams w) (volumetric_grams w) + weightRounding db.
Proof.
  cbv zeta. unfold weights_of. intros Hunit Hm.
  rewrite (WeightProperties.weigh_billed _ _ _ _ Hunit Hm).
  unfold Spec.billed_weight. rewrite WeightProperties.ceil_is_ceil.
  apply WeightProperties.ceil_times_unit_lt, Hunit.
Qed.

Lemma billed_weight_is_next_multiple_witness :
  let w := weights_of Examples.weighing_db 1 in
  w_billed_weight_grams w
  < Z.max (actual_weight_grams w) (volumetric_grams w)
    + weightRounding Examples.weighing_db.
Proof.
  apply (billed_weight_is_next_multiple Examples.weighing_db 1).
  - vm_compute. split; [reflexivity | discriminate].
  - vm_compute. split; [discriminate | reflexivity].
Defined.

Lemma lacks_max_dimension (dim : Item -> option Z) (lines : list (Item * Z)) :
  Notions.lacks dim lines -> Spec.max_dimension dim lines = 0.
Proof.
  induction lines as [|p lines IH]; intros Hl; [reflexivity|].
  rewrite WeightProperties.max_dimension_cons, IH.
  - destruct (Hl p) as [->| ->]; [left | reflexivity | reflexivity].
  - intros p' Hin. apply Hl. now right.
Qed.

(** X4.  When no item of an order has one of the three dimensions (it is
    null or zero on every item), the volumetric weight is 0, and the billed
    weight is the actual weight rounded up, for a weight and a unit below
    2^52. *)
Theorem missing_dimension_means_no_volume (db : DB) (id : Z) :
  (Notions.lacks length_cm (Spec.contents db id)
   \/ Notions.lacks width_cm (Spec.contents db id)
   \/ Notions.lacks height_cm (Spec.contents db id)) ->
  let w := weights_of db id in
  volumetric_grams w = 0
  /\ (0 < weightRounding db <= 2 ^ 52 ->
      0 <= actual_weight_grams w < 2 ^ 52 ->
      w_billed_weight_grams w
      = Spec.billed_weight (weightRounding db) (actual_weight_grams w) 0).
Proof.
  intros Hl. cbv zeta.
  assert (Hv : volumetric_grams (weights_of db id) = 0).
  { unfold weights_of, weigh. cbn [volumetric_grams].
    destruct (WeightProperties.loop_start_dims (select_order_items db id))
      as (-> & -> & ->).
    rewrite !WeightProperties.joined_select.
    destruct Hl as [Hl|[Hl|Hl]]; rewrite (lacks_max_dimension _ _ Hl);
      cbn [Z.ltb Z.compare andb]; rewrite ?andb_false_r; reflexivity. }
  split; [exact Hv|]. intros Hunit Ha.
  transitivity (Spec.billed_weight (weightRounding db)
                  (actual_weight_grams (weights_of db id))
                  (volumetric_grams (weights_of db id)));
    [|now rewrite Hv].
  apply WeightProperties.weigh_billed; [exact Hunit|].
  fold (weights_of db id). rewrite Hv. lia.
Qed.

Lemma missing_dimension_means_no_volume_witness :
  let w := weights_of MoreExamples.pencil_db 1 in
  volumetric_grams w = 0
  /\ w_billed_weight_grams w
     = Spec.billed_weight (weightRounding MoreExamples.pencil_db)
         (actual_weight_grams w) 0.
Proof.
  destruct (missing_dimension_means_no_volume MoreExamples.pencil_db 1)
    as [Hv Hb].
  - right. right. intros p Hp.
    apply list_elem_of_singleton in Hp. subst p. left. reflexivity.
  - split; [exact Hv|]. apply Hb.
    + vm_compute. split; [reflexivity | discriminate].
    + vm_compute. split; [discriminate | reflexivity].
Defined.

End MoreWeightProperties.

(** ** Further properties of the order assembler *)

Module MoreOrderProperties.
Import JS Store Outbound CreateOrder.

(** X5.  A call that is rejected with a validation error (invalid school,
    unknown item, insufficient stock), or with a server error that does not
    come from the insert of the order items, has written nothing and has
    called nobody. *)
Theorem rejection_writes_nothing (env : Env) (db db' : DB)
    (req : CreateOrderRequest) (e : Error) (fx : list Effect) :
  handle env db req = (Rejected e, db', fx) ->
  e <> ServerError \/ order_items_insert_fails env = false ->
  db' = db /\ fx = [].
Proof.
  unfold handle. intros Hrun Hwhy.
  destruct (school_query_fails env); [now injection Hrun as <- <- <-|].
  destruct (maybeSingle _) as [|school|]; try now injection Hrun as <- <- <-.
  destruct (items_query_fails env); [now injection Hrun as <- <- <-|].
  destruct (price_lines _ _ _ _) as [e'|[items_total lines]];
    [now injection Hrun as <- <- <-|].
  destruct (order_insert_fails env); [now injection Hrun as <- <- <-|].
  cbn [insert_order] in Hrun.
  destruct (order_items_insert_fails env).
  - injection Hrun as <- _ _. destruct Hwhy as [Hne|Hf]; [now exfalso | discriminate].
  - unfold finish in Hrun. destruct (razorpay env) as [[|? ?]|]; discriminate.
Qed.

Lemma rejection_writes_nothing_witness :
  handle Examples.quiet Examples.shop_db (Examples.request_for [(99, 1)])
  = (Rejected (UnknownItem 99), Examples.shop_db, []).
Proof.
  destruct (rejection_writes_nothing Examples.quiet Examples.shop_db
              (handle Examples.quiet Examples.shop_db
                 (Examples.request_for [(99, 1)])).1.2
              (Examples.request_for [(99, 1)]) (UnknownItem 99)
              (handle Examples.quiet Examples.shop_db
                 (Examples.request_for [(99, 1)])).2) as [Hdb Hfx].
  - reflexivity.
  - left. discriminate.
  - reflexivity.
Defined.

(** The loop stops at the first line short of stock when the lines before
    it are in stock. *)
Lemma price_lines_first_short (itemsData : list Item)
    (before after : list (Z * Z)) (id q total : Z) (lines : list Line)
    (it : Item) :
  Forall (fun line =>
            exists it, List.find (fun i => item_id i =? line.1) itemsData = Some it
                       /\ line.2 <= stock it) before ->
  List.find (fun i => item_id i =? id) itemsData = Some it ->
  stock it < q ->
  price_lines itemsData (before ++ (id, q) :: after) total lines
  = inl (InsufficientStock id).
Proof.
  intros Hbefore Hfind Hshort. revert total lines.
  induction Hbefore as [|[i qi] before (it' & Hfind' & Hstock) _ IH];
    intros total lines; simpl.
  - rewrite Hfind. destruct (Z.ltb_spec (stock it) q); [reflexivity | lia].
  - simpl in Hfind', Hstock. rewrite Hfind'.
    destruct (Z.ltb_spec (stock it') qi); [lia | apply IH].
Qed.

(** X6.  The items are checked in the order of the request and the first
    offending line decides: when the reads succeed, the school resolves and
    the lines before it are in stock, a line that asks for more than the
    stock of its item is answered with InsufficientStock for that item, and
    the store is left as it was. *)
Theorem first_short_line_decides (env : Env) (db : DB) (req : CreateOrderRequest)
    (before after : list (Z * Z)) (id q : Z) (it : Item) :
  school_query_fails env = false ->
  items_query_fails env = false ->
  Spec.school_resolves db req ->
  req_items req = (before ++ (id, q) :: after)%list ->
  Forall (Spec.in_stock db) before ->
  List.find (fun i => item_id i =? id) (items db) = Some it ->
  stock it < q ->
  handle env db req = (Rejected (InsufficientStock id), db, []).
Proof.
  intros Hsq Hiq [school Hschool] Hreq Hbefore Hfind Hshort.
  unfold handle. rewrite Hsq, Hschool, Hiq. cbn [maybeSingle].
  change (map fst (req_items req)) with ((req_items req).*1).
  assert (Hp : price_lines
                 (filter (fun i => item_id i ∈ (req_items req).*1) (items db))
                 (req_items req) 0 [] = inl (InsufficientStock id)).
  { pose proof (price_lines_first_short
                  (filter (fun i => item_id i ∈ (req_items req).*1) (items db))
                  before after id q 0 [] it) as Hstop.
    rewrite <- Hreq in Hstop. apply Hstop.
    - apply Forall_forall. intros l Hl.
      rewrite Forall_forall in Hbefore. destruct (Hbefore l Hl) as (it' & Hf & Hs).
      exists it'. split; [|exact Hs].
      rewrite OrderProperties.find_in_request; [exact Hf|].
      rewrite Hreq. apply elem_of_app. now left.
    - pose proof (OrderProperties.find_in_request db (req_items req) (id, q)) as Hf.
      cbn [fst] in Hf. rewrite Hf; [exact Hfind|].
      rewrite Hreq. apply elem_of_app. right. left.
    - exact Hshort. }
  rewrite Hp. reflexivity.
Qed.

Lemma first_short_line_decides_witness :
  handle Examples.quiet Examples.shop_db (Examples.request_for [(1, 2); (1, 50)])
  = (Rejected (InsufficientStock 1), Examples.shop_db, []).
Proof.
  apply (first_short_line_decides Examples.quiet Examples.shop_db
           (Examples.request_for [(1, 2); (1, 50)]) [(1, 2)] [] 1 50
           Examples.notebook); try reflexivity.
  - eexists. reflexivity.
  - constructor; [|constructor]. exists Examples.notebook.
    split; [reflexivity | simpl; lia].
Defined.

(** The delivery charge, read under [Number], is a double. *)
Lemma charge_is_a_double (env : Env) (db : DB) (delivery_type : string) :
  F64.round_int (delivery_charge env db delivery_type)
  = delivery_charge env db delivery_type.
Proof.
  unfold delivery_charge, nullish_default.
  destruct (settings_query_fails env);
    destruct (String.eqb delivery_type "school");
    rewrite ?lookup_empty, ?lookup_fmap; try reflexivity;
    match goal with
    | |- context [filter ?P ?m !! ?k] => destruct (filter P m !! k)
    end; try reflexivity; cbn [fmap option_fmap option_map default];
    apply DoubleProperties.Number_idem.
Qed.

(** X7.  An empty list of items is not refused: when nothing fails and the
    school resolves, the call creates an order without any item, whose total
    is the delivery charge alone. *)
Theorem empty_request_creates_empty_order (env : Env) (db : DB)
    (req : CreateOrderRequest) :
  req_items req = [] ->
  school_query_fails env = false ->
  items_query_fails env = false ->
  order_insert_fails env = false ->
  order_items_insert_fails env = false ->
  Spec.school_resolves db req ->
  exists (link lid : option string) (db' : DB) (fx : list Effect) (o : Order),
    handle env db req
    = (Created (orders_seq db) (delivery_charge env db (req_delivery_type req))
               link lid, db', fx)
    /\ order_items db' = order_items db
    /\ o ∈ orders db'
    /\ order_id o = orders_seq db
    /\ items_total_paise o = 0
    /\ total_amount_paise o = delivery_charge env db (req_delivery_type req).
Proof.
  intros Hreq Hsq Hiq Hoi Hoii [school Hschool].
  unfold handle. rewrite Hsq, Hschool, Hiq, Hreq, Hoi. cbn [maybeSingle map].
  cbn [price_lines insert_order]. rewrite Hoii. unfold finish.
  cbn [order_id new_order]. unfold F64.add.
  rewrite Z.add_0_l, charge_is_a_double.
  destruct (razorpay env) as [[|lid0 url]|];
    [ eexists _, _, _, _,
        (new_order (orders_seq db) school req
           (delivery_charge env db (req_delivery_type req)) 0
           (delivery_charge env db (req_delivery_type req)))
    | eexists _, _, _, _,
        (set_payment_link (if truthy lid0 then lid0 else None)
           (if truthy url then url else None)
           (new_order (orders_seq db) school req
              (delivery_charge env db (req_delivery_type req)) 0
              (delivery_charge env db (req_delivery_type req))))
    | eexists _, _, _, _,
        (new_order (orders_seq db) school req
           (delivery_charge env db (req_delivery_type req)) 0
           (delivery_charge env db (req_delivery_type req))) ];
    (split; [reflexivity|]);
    cbn [order_items orders insert_order_items update_order with_orders fmap
         list_fmap];
    rewrite ?app_nil_r; (split; [reflexivity|]);
    (split; [|repeat split]).
  - apply elem_of_app. right. left.
  - rewrite map_app. apply elem_of_app. right.
    cbn [map order_id new_order]. rewrite Z.eqb_refl. left.
  - apply elem_of_app. right. left.
Qed.

Lemma empty_request_creates_empty_order_witness :
  exists (db' : DB),
    handle Examples.quiet Examples.shop_db (Examples.request_for [])
    = (Created 1 5000 None None, db', [PostComputeWeights 1])
    /\ order_items db' = [].
Proof.
  destruct (empty_request_creates_empty_order Examples.quiet Examples.shop_db
              (Examples.request_for []))
    as (link & lid & db' & fx & o & Hrun & Hitems & _); try reflexivity.
  - eexists. reflexivity.
  - exists db'. split; [|exact Hitems].
    rewrite Hrun. vm_compute in Hrun. injection Hrun as <- <- _ <-. reflexivity.
Defined.

(** What a successful call leaves alone, and where it leaves the sequence. *)
Lemma created_frame (env : Env) (db db' : DB) (req : CreateOrderRequest)
    (id total : Z) (link lid : option string) (fx : list Effect) :
  handle env db req = (Created id total link lid, db', fx) ->
  schools db' = schools db /\ settings db' = settings db
  /\ items db' = items db /\ id = orders_seq db
  /\ orders_seq db' = orders_seq db + 1.
Proof.
  unfold handle. intros Hrun.
  destruct (school_query_fails env); [discriminate|].
  destruct (maybeSingle _) as [|school|]; try discriminate.
  destruct (items_query_fails env); [discriminate|].
  destruct (price_lines _ _ _ _) as [e'|[items_total lines]]; [discriminate|].
  destruct (order_insert_fails env); [discriminate|].
  cbn [insert_order] in Hrun.
  destruct (order_items_insert_fails env); [discriminate|].
  unfold finish in Hrun. cbn [order_id new_order] in Hrun.
  destruct (razorpay env) as [[|? ?]|]; injection Hrun as <- _ _ _ <- _;
    repeat split.
Qed.

(** Whether a call succeeds, and with which total, depends on the store
    through the schools, the settings and the catalog only. *)
Lemma created_depends_on_catalog (env : Env) (db1 db2 db1' : DB)
    (req : CreateOrderRequest) (id total : Z) (link lid : option string)
    (fx : list Effect) :
  schools db2 = schools db1 -> settings db2 = settings db1 ->
  items db2 = items db1 ->
  handle env db1 req = (Created id total link lid, db1', fx) ->
  exists (db2' : DB) (fx' : list Effect),
    handle env db2 req = (Created (orders_seq db2) total link lid, db2', fx').
Proof.
  unfold handle, delivery_charge. intros -> -> ->.
  destruct (school_query_fails env); [discriminate|].
  destruct (maybeSingle _) as [|school|]; try discriminate.
  destruct (items_query_fails env); [discriminate|].
  destruct (price_lines _ _ _ _) as [e'|[items_total lines]]; [discriminate|].
  destruct (order_insert_fails env); [discriminate|].
  cbn [insert_order].
  destruct (order_items_insert_fails env); [discriminate|].
  unfold finish. cbn [order_id new_order].
  destruct (razorpay env) as [[|? ?]|]; intros Hrun;
    injection Hrun as _ <- <- <- _ _; eexists _, _; reflexivity.
Qed.

(** X8.  Stock is checked, not reserved: a successful call leaves the
    catalog, and so the stock of every item, as it was, and the same request
    sent again succeeds again, as the next order and for the same total. *)
Theorem stock_is_not_reserved (env : Env) (db db' : DB)
    (req : CreateOrderRequest) (id total : Z) (link lid : option string)
    (fx : list Effect) :
  handle env db req = (Created id total link lid, db', fx) ->
  items db' = items db
  /\ exists (db'' : DB) (fx' : list Effect),
       handle env db' req = (Created (id + 1) total link lid, db'', fx').
Proof.
  intros Hrun.
  destruct (created_frame _ _ _ _ _ _ _ _ _ Hrun) as (Hs & Hset & Hi & Hid & Hseq).
  split; [exact Hi|].
  destruct (created_depends_on_catalog env db db' db' req id total link lid fx
              Hs Hset Hi Hrun) as (db'' & fx' & Hagain).
  exists db'', fx'. rewrite Hagain, Hseq, Hid. reflexivity.
Qed.

Lemma stock_is_not_reserved_witness :
  let db' := (handle Examples.quiet Examples.shop_db
                (Examples.request_for [(1, 10)])).1.2 in
  items db' = items Examples.shop_db
  /\ exists (db'' : DB) (fx' : list Effect),
       handle Examples.quiet db' (Examples.request_for [(1, 10)])
       = (Created 2 125000 None None, db'', fx').
Proof.
  apply (stock_is_not_reserved Examples.quiet Examples.shop_db _
           (Examples.request_for [(1, 10)]) 1 125000 None None
           [PostComputeWeights 1]).
  reflexivity.
Defined.

End MoreOrderProperties.

(** ** How the handlers compose *)

Module CompositionProperties.
Import JS Store Outbound.




End CompositionProperties.

(** ** Further properties of the payment reconciler *)

Module MorePaymentProperties.
Import JS Store Outbound RazorpayWebhook.


(** X11.  A failed payment is not final, and neither event marks the order:
    after a payment.failed event, a payment.captured event that resolves to
    the same order is processed as well and sends the payment notification,
    and only that (this branch requests neither weights nor shipment); the
    orders are as they were before the two events. *)
Theorem captured_after_failed_is_processed (env env' : Env) (db : DB)
    (failed captured : RazorpayEvent) (ent : RazorpayEntity) (order : Order) :
  Spec.signature_accepted env ->
  Spec.signature_accepted env' ->
  ev_event failed = Some "payment.failed" ->
  ev_payment failed = Some ent ->
  ev_event captured = Some "payment.captured" ->
  ev_payment captured = Some ent ->
  find_order db ent = Some (Some (select_row order)) ->
  payment_status order <> "paid" ->
  exists (db1 db2 : DB),
    handle env db (Some failed)
    = (Done, db1,
       [SendWhatsApp (parent_phone order) (PaymentFailed (order_id order))])
    /\ handle env' db1 (Some captured)
       = (Done, db2,
          [SendWhatsApp (parent_phone order)
             (PaymentReceived (order_id order) (total_amount_paise order))])
    /\ orders db2 = orders db.
Proof.
  intros Hsig Hsig' Hevf Hentf Hevc Hentc Hfind Hopen.
  set (db1 := logWebhook (Some (order_id order)) failed db).
  assert (Hfind1 : find_order db1 ent = Some (Some (select_row order)))
    by exact Hfind.
  exists db1, (logWebhook (Some (order_id order)) captured db1).
  rewrite PaymentProperties.handle_failed_event by assumption.
  rewrite (PaymentProperties.payment_failed_step env db failed ent _ Hentf Hfind).
  split; [reflexivity|].
  rewrite (PaymentProperties.capture_step env' db1 captured ent order)
    by assumption.
  split; reflexivity.
Qed.

Lemma captured_after_failed_is_processed_witness :
  exists (db1 db2 : DB),
    handle Examples.verified (Examples.one_order_db "pending" "pending")
           (Some (Examples.payment_of "payment.failed" 1))
    = (Done, db1, [SendWhatsApp "919800000001" (PaymentFailed 1)])
    /\ handle Examples.verified db1
              (Some (Examples.payment_of "payment.captured" 1))
       = (Done, db2, [SendWhatsApp "919800000001" (PaymentReceived 1 29000)])
    /\ orders db2 = orders (Examples.one_order_db "pending" "pending").
Proof.
  destruct (captured_after_failed_is_processed Examples.verified
              Examples.verified
              (Examples.one_order_db "pending" "pending")
              (Examples.payment_of "payment.failed" 1)
              (Examples.payment_of "payment.captured" 1)
              {| ent_id := Some "pay_1"; ent_notes_order_id := Some 1;
                 ent_order_id := None |}
              (Examples.an_order 1 "pending" "pending"))
    as (db1 & db2 & H1 & H2 & H3); try reflexivity; try discriminate.
  exists db1, db2. auto.
Defined.

End MorePaymentProperties.

(** ** Further properties of the courier status mapper *)

Module MoreCourierProperties.
Import JS Store DelhiveryWebhook.

Lemma resolves_after_status (db : DB) (p q : DelhiveryPayload) (order : Order)
    (s : string) (ev : CourierEvent) :
  Spec.courier_event_resolves db p order ->
  or_else (dp_awb q) (dp_waybill q) = or_else (dp_awb p) (dp_waybill p) ->
  Spec.courier_event_resolves
    (update_order (order_id order) (set_status s) (insert_courier_event ev db))
    q (set_status s order).
Proof.
  intros [Hawb Hsel] Hsame. split; [rewrite Hsame; exact Hawb|].
  rewrite Hsame.
  cbn [orders update_order with_orders insert_courier_event with_courier_events].
  rewrite PaymentProperties.filter_map_stable.
  - rewrite Hsel. simpl. now rewrite Z.eqb_refl.
  - intros o. destruct (order_id o =? order_id order); reflexivity.
Qed.

(** X12.  Courier events compose and the last recognised one wins, whatever
    the order's status was: when an event that resolves to an order is
    followed by a second event with the same tracking id, the second resolves
    to the same order, both are appended to the audit log in their order, and
    the order ends with the status of the second event if its text matches a
    rule and with that of the first otherwise.  Nothing compares the new
    status with the current one. *)
Theorem last_recognised_courier_event_wins (db : DB)
    (first second : DelhiveryPayload) (order : Order) (s1 : string) :
  Spec.courier_event_resolves db first order ->
  or_else (dp_awb second) (dp_waybill second)
  = or_else (dp_awb first) (dp_waybill first) ->
  new_status (toLowerCase (Spec.courier_status_text first)) = Some s1 ->
  let st2 := new_status (toLowerCase (Spec.courier_status_text second)) in
  exists db1 db2 : DB,
    handle db first = (Processed (order_id order) (Some s1), db1)
    /\ handle db1 second = (Processed (order_id order) st2, db2)
    /\ (forall o, o ∈ orders db2 -> order_id o = order_id order ->
                  status o = default s1 st2)
    /\ exists e1 e2,
         courier_events db2 = (courier_events db ++ [e1; e2])%list
         /\ ce_event_payload e1 = FromDelhivery first
         /\ ce_event_payload e2 = FromDelhivery second.
Proof.
  intros Hres Hsame Hs1 st2.
  pose proof (CourierProperties.handle_resolved db first order Hres) as H1.
  cbv zeta in H1. rewrite Hs1 in H1.
  exists (handle db first).2. rewrite H1. cbn [snd].
  pose proof (resolves_after_status db first second order s1
                {| ce_order_id := Some (order_id order);
                   ce_courier_name := "delhivery";
                   ce_event_type := status_text first;
                   ce_event_payload := FromDelhivery first |} Hres Hsame)
    as Hres2.
  pose proof (CourierProperties.handle_resolved _ second _ Hres2) as H2.
  cbv zeta in H2. fold st2 in H2. cbn [order_id set_status] in H2.
  destruct st2 as [s2|].
  - eexists. split; [reflexivity|]. split; [exact H2|]. split.
    + intros o Ho Hid.
      cbn [orders update_order with_orders insert_courier_event
           with_courier_events] in Ho.
      apply list_elem_of_fmap in Ho as (o1 & -> & _).
      destruct (Z.eqb_spec (order_id o1) (order_id order)) as [_|Hne];
        [reflexivity | contradiction].
    + eexists _, _. split.
      { cbn [courier_events update_order with_orders insert_courier_event
             with_courier_events].
        rewrite <- app_assoc. reflexivity. }
      split; reflexivity.
  - eexists. split; [reflexivity|]. split; [exact H2|]. split.
    + intros o Ho Hid.
      cbn [orders update_order with_orders insert_courier_event
           with_courier_events] in Ho.
      apply list_elem_of_fmap in Ho as (o1 & -> & _).
      destruct (Z.eqb_spec (order_id o1) (order_id order)) as [_|Hne];
        [reflexivity | contradiction].
    + eexists _, _. split.
      { cbn [courier_events update_order with_orders insert_courier_event
             with_courier_events].
        rewrite <- app_assoc. reflexivity. }
      split; reflexivity.
Qed.

Lemma last_recognised_courier_event_wins_witness :
  exists db1 db2 : DB,
    handle Examples.shipped_db (Examples.courier_event "AWB1" "Delivered")
    = (Processed 1 (Some "delivered"), db1)
    /\ handle db1 (Examples.courier_event "AWB1" "Picked up")
       = (Processed 1 (Some "processing"), db2)
    /\ (forall o, o ∈ orders db2 -> order_id o = 1 -> status o = "processing").
Proof.
  destruct (last_recognised_courier_event_wins Examples.shipped_db
              (Examples.courier_event "AWB1" "Delivered")
              (Examples.courier_event "AWB1" "Picked up")
              (Examples.an_order 1 "paid" "processing") "delivered")
    as (db1 & db2 & H1 & H2 & H3 & _).
  - split; reflexivity.
  - reflexivity.
  - reflexivity.
  - exists db1, db2. split; [exact H1|]. split; [exact H2|]. exact H3.
Defined.

End MoreCourierProperties.

(** ** Invariants of the store under every request *)

Module InvariantProperties.
Import JS Store Outbound.

(** The runs of a later request, each closed by [fin]. *)
Ltac later_runs fin :=
  intros [env ? body | ? payload | ? id | env ? m | ? ? ?];
  [ unfold RazorpayWebhook.handle;
    destruct (_ && _); [fin|];
    destruct body as [e|]; [|fin];
    destruct (RazorpayWebhook.is_event _ "payment_link.paid");
    [ unfold RazorpayWebhook.payment_link_paid;
      destruct (ev_payment_link e); [|fin];
      destruct (RazorpayWebhook.by_payment_id _ _); try fin;
      destruct (RazorpayWebhook.already_paid _); fin |];
    destruct (_ || _); [|fin];
    unfold RazorpayWebhook.payment_event;
    destruct (ev_payment e); [|fin];
    destruct (RazorpayWebhook.find_order _ _) as [[orderRow|]|]; try fin;
    destruct (_ && _); [fin|];
    destruct (RazorpayWebhook.is_event _ _); fin
  | unfold DelhiveryWebhook.handle;
    destruct (negb _); [fin|];
    destruct (maybeSingle _); try fin;
    destruct (DelhiveryWebhook.new_status _); fin
  | unfold ComputeWeights.handle; destruct id as [[|p|p]|]; fin
  | unfold WhatsappWebhook.handle; destruct m as [raw|from text sid raw];
    [fin|];
    destruct (_ || _); [fin|];
    destruct (String.eqb _ "START"); [fin|];
    unfold WhatsappWebhook.state_machine;
    repeat match goal with
      | |- context [if String.eqb ?a ?b then _ else _] => destruct (String.eqb a b)
      end;
    unfold WhatsappWebhook.await_code, WhatsappWebhook.await_class,
      WhatsappWebhook.await_category, WhatsappWebhook.await_delivery,
      WhatsappWebhook.await_address, WhatsappWebhook.await_confirm;
    repeat match goal with
      | |- context [match ?x with _ => _ end] => destruct x
      end; fin
  | fin ].

Ltac project :=
  rewrite ?PaymentProperties.update_logged_paid,
    ?PaymentProperties.update_logged_failed,
    ?ConversationProperties.log_message_refused;
  cbn [orders orders_seq order_items courier_events whatsapp_messages
       fst snd update_order with_orders
       RazorpayWebhook.logWebhook insert_courier_event with_courier_events
       ComputeWeights.with_courier_parcels
       WhatsappWebhook.saveState
       WhatsappWebhook.delete_conversation WhatsappWebhook.with_conversations
       Catalog.handleSaveItem CreateShipment.record_awb
       CreateOrder.insert_order CreateOrder.insert_order_items].

Lemma later_sequence (db db' : DB) :
  Spec.later_request db db' -> orders_seq db' = orders_seq db.
Proof. later_runs ltac:(project; reflexivity). Qed.

Ltac grows :=
  project;
  first [ by apply prefix_app_r | by split; apply prefix_app_r
        | split; [reflexivity || by apply prefix_app_r
                 | reflexivity || by apply prefix_app_r] ].

Lemma later_logs (db db' : DB) :
  Spec.later_request db db' ->
  courier_events db `prefix_of` courier_events db'
  /\ whatsapp_messages db `prefix_of` whatsapp_messages db'.
Proof. later_runs ltac:(grows). Qed.


Lemma set_shipped_keeps (awb : string) :
  Spec.keeps_amounts (CreateShipment.set_shipped awb).
Proof. intros o. repeat split. Qed.

#[local] Hint Resolve LifecycleProperties.set_weights_keeps set_shipped_keeps
  OrderProperties.set_payment_link_keeps : keeps.

Lemma weights_run (db : DB) (id : option Z) :
  let db' := (ComputeWeights.handle db id).2 in
  orders_seq db' = orders_seq db
  /\ Spec.amounts <$> orders db' = Spec.amounts <$> orders db
  /\ order_items db' = order_items db
  /\ courier_events db' = courier_events db
  /\ whatsapp_messages db' = whatsapp_messages db.
Proof.
  cbv zeta. unfold ComputeWeights.handle.
  destruct id as [[|p|p]|]; project; repeat split;
    apply LifecycleProperties.update_order_amounts; auto with keeps.
Qed.

Ltac kept :=
  project; repeat split;
  first [assumption | reflexivity | by apply prefix_app_r | idtac].

(** What a shipment request leaves of the store: the sequence, the amounts
    and the lines as they were, the audit log at most longer. *)
Lemma shipment_run (env : CreateShipment.Env) (db : DB) (id : option Z) :
  let db' := (CreateShipment.handle env db id).1.2 in
  orders_seq db' = orders_seq db
  /\ Spec.amounts <$> orders db' = Spec.amounts <$> orders db
  /\ order_items db' = order_items db
  /\ courier_events db `prefix_of` courier_events db'
  /\ whatsapp_messages db' = whatsapp_messages db.
Proof.
  cbv zeta. unfold CreateShipment.handle.
  destruct id as [[|p|p]|]; try (kept; fail);
    (destruct (filter _ _) as [|order [|]]; try (kept; fail);
     destruct (_ && _); [kept; fail|];
     match goal with
     | |- context [CreateShipment.parcels_of ?d _] => set (db1 := d)
     end;
     assert (H1 : orders_seq db1 = orders_seq db
                  /\ Spec.amounts <$> orders db1 = Spec.amounts <$> orders db
                  /\ order_items db1 = order_items db
                  /\ courier_events db1 = courier_events db
                  /\ whatsapp_messages db1 = whatsapp_messages db)
       by (unfold db1; destruct (CreateShipment.unweighed order);
           [apply weights_run | repeat split]);
     destruct H1 as (Hs & Ha & Hi & Hc & Hw);
     assert (Hship : forall i awb,
               Spec.amounts <$> orders (CreateShipment.record_awb i awb db1)
               = Spec.amounts <$> orders db)
       by (intros i awb; project; rewrite <- Ha;
           apply LifecycleProperties.update_order_amounts; auto with keeps);
     destruct (CreateShipment.parcels_of db1 _) as [|first rest];
       [project; rewrite Hc; kept; fail|];
     destruct (negb _);
       [cbn [fst snd]; rewrite Hship; project; rewrite Hc; kept; fail|];
     destruct (CreateShipment.courier env) as [|w data];
       [project; rewrite Hc; kept; fail|];
     destruct (or_else _ _) as [[|c r]|];
       try (project; rewrite Hc; kept; fail);
     cbn [fst snd];
     change (orders (insert_courier_event ?e ?d)) with (orders d);
     rewrite Hship; project; rewrite Hc; kept).
Qed.

(** What an order request leaves of the store: at most one order more, with
    the next id of the sequence, and lines of that order only. *)
Lemma order_run (env : CreateOrder.Env) (db : DB) (req : CreateOrderRequest) :
  let db' := (CreateOrder.handle env db req).1.2 in
  orders_seq db <= orders_seq db'
  /\ courier_events db' = courier_events db
  /\ whatsapp_messages db' = whatsapp_messages db
  /\ exists (new : list Order) (rows : list OrderItem),
       Spec.amounts <$> orders db'
       = ((Spec.amounts <$> orders db) ++ (Spec.amounts <$> new))%list
       /\ order_items db' = (order_items db ++ rows)%list
       /\ (new = [] \/ exists o, new = [o] /\ order_id o = orders_seq db
                                 /\ orders_seq db < orders_seq db')
       /\ Forall (fun oi => oi_order_id oi = orders_seq db
                            /\ orders_seq db < orders_seq db') rows.
Proof.
  cbv zeta. unfold CreateOrder.handle.
  assert (Hsame : orders_seq db <= orders_seq db
    /\ courier_events db = courier_events db
    /\ whatsapp_messages db = whatsapp_messages db
    /\ exists (new : list Order) (rows : list OrderItem),
       Spec.amounts <$> orders db
       = ((Spec.amounts <$> orders db) ++ (Spec.amounts <$> new))%list
       /\ order_items db = (order_items db ++ rows)%list
       /\ (new = [] \/ exists o, new = [o] /\ order_id o = orders_seq db
                                 /\ orders_seq db < orders_seq db)
       /\ Forall (fun oi => oi_order_id oi = orders_seq db
                            /\ orders_seq db < orders_seq db) rows).
  { split; [lia|]. split; [reflexivity|]. split; [reflexivity|].
    exists [], []. rewrite !app_nil_r. repeat split; auto. }
  destruct (CreateOrder.school_query_fails env); [exact Hsame|].
  destruct (maybeSingle _) as [|school|]; try exact Hsame.
  destruct (CreateOrder.items_query_fails env); [exact Hsame|].
  destruct (CreateOrder.price_lines _ _ _ _) as [e|[t lines]]; [exact Hsame|].
  destruct (CreateOrder.order_insert_fails env); [exact Hsame|].
  cbn [CreateOrder.insert_order].
  set (o := CreateOrder.new_order (orders_seq db) school req _ t _).
  assert (Hid : order_id o = orders_seq db) by reflexivity.
  assert (Hrows : forall ls : list CreateOrder.Line,
            Forall (fun oi => oi_order_id oi = orders_seq db
                              /\ orders_seq db < orders_seq db + 1)
                   (map (CreateOrder.order_item_of (order_id o)) ls)).
  { intros ls. apply Forall_forall. intros oi Hoi.
    apply list_elem_of_fmap in Hoi as (l & -> & _). split; [exact Hid | lia]. }
  destruct (CreateOrder.order_items_insert_fails env).
  { project. split; [lia|]. split; [reflexivity|]. split; [reflexivity|].
    exists [o], []. rewrite fmap_app, app_nil_r.
    split; [reflexivity|]. split; [reflexivity|].
    split; [right; exists o; split; [reflexivity | split; [exact Hid | lia]] | constructor]. }
  unfold CreateOrder.finish.
  destruct (CreateOrder.razorpay env) as [[|lid url]|]; project;
    (split; [lia|]); (split; [reflexivity|]); (split; [reflexivity|]);
    exists [o], (map (CreateOrder.order_item_of (order_id o)) lines);
    rewrite ?LifecycleProperties.update_order_amounts by auto with keeps;
    rewrite fmap_app;
    (split; [reflexivity|]); (split; [reflexivity|]);
    (split; [right; exists o; split; [reflexivity | split; [exact Hid | lia]] | apply Hrows]).
Qed.

Lemma request_logs (db db' : DB) :
  Notions.request db db' ->
  courier_events db `prefix_of` courier_events db'
  /\ whatsapp_messages db `prefix_of` whatsapp_messages db'.
Proof.
  intros H. destruct H as [d d' Hlater | env d req | env d id].
  - apply later_logs, Hlater.
  - destruct (order_run env d req) as (_ & -> & -> & _). split; reflexivity.
  - destruct (shipment_run env d id) as (_ & _ & _ & Hc & ->).
    split; [exact Hc | reflexivity].
Qed.

Lemma request_orders (db db' : DB) :
  Notions.request db db' ->
  orders_seq db <= orders_seq db'
  /\ exists (new : list Order) (rows : list OrderItem),
       Spec.amounts <$> orders db'
       = ((Spec.amounts <$> orders db) ++ (Spec.amounts <$> new))%list
       /\ order_items db' = (order_items db ++ rows)%list
       /\ (new = [] \/ exists o, new = [o] /\ order_id o = orders_seq db
                                 /\ orders_seq db < orders_seq db')
       /\ Forall (fun oi => oi_order_id oi = orders_seq db
                            /\ orders_seq db < orders_seq db') rows.
Proof.
  intros H. destruct H as [d d' Hlater | env d req | env d id].
  - destruct (LifecycleProperties.amounts_written_once _ _ Hlater) as [Ha Hi].
    rewrite (later_sequence _ _ Hlater). split; [lia|].
    exists [], []. rewrite Ha, Hi, !app_nil_r. repeat split; auto.
  - destruct (order_run env d req) as (Hs & _ & _ & H). split; assumption.
  - destruct (shipment_run env d id) as (Hs & Ha & Hi & _).
    rewrite Hs. split; [lia|].
    exists [], []. rewrite Ha, Hi, !app_nil_r. repeat split; auto.
Qed.

(** X13.  The two logs are append-only: over any sequence of requests to any
    handler (payment, courier and chat webhooks, compute-weights,
    create-order, create-shipment, catalog edits) the courier_events and
    whatsapp_messages found at the start are still there, unchanged and in
    the same order, at the head of the logs. *)
Theorem logs_are_append_only (db db' : DB) :
  rtc Notions.request db db' ->
  courier_events db `prefix_of` courier_events db'
  /\ whatsapp_messages db `prefix_of` whatsapp_messages db'.
Proof.
  induction 1 as [db | db mid db' Hstep _ [IHc IHw]]; [split; reflexivity|].
  destruct (request_logs _ _ Hstep) as [Hc Hw].
  split; etrans; eassumption.
Qed.

Lemma logs_are_append_only_witness :
  let db' :=
    (DelhiveryWebhook.handle Examples.shipped_db
       (Examples.courier_event "AWB1" "Delivered")).2 in
  courier_events Examples.shipped_db `prefix_of` courier_events db'
  /\ whatsapp_messages Examples.shipped_db `prefix_of` whatsapp_messages db'.
Proof.
  apply logs_are_append_only, rtc_once, Notions.later, Spec.courier_webhook.
Defined.

(** X14.  Orders are never deleted or repriced: over any sequence of requests
    to any handler the orders found at the start are still there in the same
    order with the same id, items total, delivery charge and total amount,
    and so are their order items; requests only add orders and lines behind
    them. *)
Theorem orders_are_never_repriced (db db' : DB) :
  rtc Notions.request db db' ->
  (Spec.amounts <$> orders db) `prefix_of` (Spec.amounts <$> orders db')
  /\ order_items db `prefix_of` order_items db'.
Proof.
  induction 1 as [db | db mid db' Hstep _ [IHa IHi]]; [split; reflexivity|].
  destruct (request_orders _ _ Hstep) as (_ & new & rows & Ha & Hi & _).
  split; (etrans; [|eassumption]); [rewrite Ha | rewrite Hi];
    by apply prefix_app_r.
Qed.

Lemma orders_are_never_repriced_witness :
  let db1 :=
    (CreateOrder.handle Examples.quiet Examples.shop_db
       (Examples.request_for [(1, 2)])).1.2 in
  let db2 := (RazorpayWebhook.handle Examples.verified db1
                (Some (Examples.payment_of "payment.captured" 1))).1.2 in
  (Spec.amounts <$> orders Examples.shop_db)
    `prefix_of` (Spec.amounts <$> orders db2)
  /\ order_items Examples.shop_db `prefix_of` order_items db2.
Proof.
  apply orders_are_never_repriced.
  eapply rtc_l; [apply Notions.order_request|].
  apply rtc_once, Notions.later, Spec.payment_webhook.
Defined.

Lemma ids_of_amounts (l : list Order) :
  order_id <$> l = (fun a : Z * Z * Z * Z => a.1.1.1) <$> (Spec.amounts <$> l).
Proof. rewrite <- list_fmap_compose. reflexivity. Qed.

Lemma request_numbering (db db' : DB) :
  Notions.request db db' ->
  Notions.well_numbered db -> Notions.well_numbered db'.
Proof.
  intros Hreq [[Hord Hitems] Hnodup].
  destruct (request_orders _ _ Hreq) as (Hseq & new & rows & Ha & Hi & Hnew & Hrows).
  assert (Hids : order_id <$> orders db'
                 = ((order_id <$> orders db) ++ (order_id <$> new))%list).
  { rewrite !ids_of_amounts, Ha, fmap_app. reflexivity. }
  assert (Hin : forall i, i ∈ order_id <$> orders db' -> i < orders_seq db').
  { intros i. rewrite Hids, elem_of_app. intros [Hi0|Hi0].
    - apply list_elem_of_fmap in Hi0 as (o & -> & Ho). specialize (Hord o Ho). lia.
    - destruct Hnew as [->|(o & -> & Ho & Hlt)].
      + apply elem_of_nil in Hi0 as [].
      + apply list_elem_of_singleton in Hi0 as ->. cbn. lia. }
  split; [split|].
  - intros o Ho. apply Hin, list_elem_of_fmap. exists o. auto.
  - intros oi. rewrite Hi, elem_of_app. intros [Hoi|Hoi].
    + specialize (Hitems oi Hoi). lia.
    + rewrite Forall_forall in Hrows. destruct (Hrows oi Hoi). lia.
  - rewrite Hids. apply NoDup_app. split; [exact Hnodup|]. split.
    + intros i Hi0 Hi1. apply list_elem_of_fmap in Hi0 as (o & -> & Ho).
      specialize (Hord o Ho).
      destruct Hnew as [->|(o' & -> & Ho' & Hlt)].
      * apply elem_of_nil in Hi1 as [].
      * apply list_elem_of_singleton in Hi1. lia.
    + destruct Hnew as [->|(o' & -> & _)]; [constructor | apply NoDup_singleton].
Qed.

(** X15.  Order ids are never reused: if the ids of the orders are pairwise
    different and, like those of the order items, below the sequence, this
    still holds after any sequence of requests to any handler, also when
    create-order fails after it has inserted the order. *)
Theorem order_ids_stay_unique (db db' : DB) :
  rtc Notions.request db db' ->
  Notions.well_numbered db -> Notions.well_numbered db'.
Proof.
  induction 1 as [db | db mid db' Hstep _ IH]; [auto|].
  intros Hwn. apply IH, (request_numbering _ _ Hstep), Hwn.
Qed.

Lemma order_ids_stay_unique_witness :
  Notions.well_numbered
    (CreateOrder.handle (Spec.failing_items_insert Examples.quiet)
       (CreateOrder.handle Examples.quiet Examples.shop_db
          (Examples.request_for [(1, 2)])).1.2
       (Examples.request_for [(1, 1)])).1.2.
Proof.
  eapply order_ids_stay_unique.
  - eapply rtc_l; [apply Notions.order_request|].
    apply rtc_once, Notions.order_request.
  - split; [split|].
    + intros o Ho. vm_compute in Ho. inversion Ho.
    + intros oi Hoi. vm_compute in Hoi. inversion Hoi.
    + vm_compute. constructor.
Defined.

End InvariantProperties.

(** ** Properties of the courier hand-over *)

Module ShipmentProperties.
Import JS Store CreateShipment.

Lemma filter_map_select {A} (P Q : A -> Prop) `{!forall x, Decision (P x)}
    `{!forall x, Decision (Q x)} (h : A -> A) (l : list A) :
  (forall x, x ∈ l -> P (h x) <-> Q x) ->
  filter P (map h l) = map h (filter Q l).
Proof.
  induction l as [|x l IH]; intros Hst; [reflexivity|]. simpl map.
  rewrite !filter_cons.
  assert (Hx : P (h x) <-> Q x) by (apply Hst; left).
  rewrite IH by (intros y Hy; apply Hst; now right).
  destruct (decide (P (h x))) as [Hy|Hn], (decide (Q x)) as [Hy'|Hn'];
    try reflexivity; exfalso; tauto.
Qed.

Lemma selected_id (id : Z) (l : list Order) (order : Order) :
  filter (fun o => order_id o = id) l = [order] -> order_id order = id.
Proof.
  intros Hsel.
  assert (Hin : order ∈ filter (fun o => order_id o = id) l)
    by (rewrite Hsel; left).
  apply list_elem_of_filter in Hin as [Hid _]. exact Hid.
Qed.

Lemma sorted_parcels_nil (l : list CourierParcel) :
  @merge_sort _ by_parcel_index by_parcel_index_dec l = [] -> l = [].
Proof.
  intros Hnil. apply Permutation_nil_r. rewrite <- Hnil. symmetry.
  apply merge_sort_Permutation.
Qed.

Lemma parcels_of_after_weights (db : DB) (ps : list CourierParcel) (id : Z)
    (w : ComputeWeights.Weights) :
  parcels_of
    (ComputeWeights.with_courier_parcels db
       (ps ++ [ComputeWeights.parcel_of id w])%list) id <> [].
Proof.
  unfold parcels_of. intros Hnil. apply sorted_parcels_nil in Hnil.
  cbn [courier_parcels ComputeWeights.with_courier_parcels] in Hnil.
  rewrite filter_app, filter_cons in Hnil.
  destruct (decide _) as [_|Hn]; [|now apply Hn].
  now apply app_eq_nil in Hnil as [_ ?].
Qed.

(** X16.  create-shipment weighs an order that has no billed weight before it
    hands it over, and asks nothing about payment: for every order without a
    billed weight, whatever its payment status and status, with
    compute-weights reachable and no courier key configured, the answer is a
    mock shipment under "MOCK" followed by the clock; the order then carries
    the computed weights, that tracking id, the service "delhivery" and the
    status "processing", and every parcel of the order, the new one included,
    carries the tracking id. *)
Theorem unweighed_order_is_weighed_then_shipped (env : Env) (db : DB) (id : Z)
    (order : Order) :
  id <> 0 ->
  filter (fun o => order_id o = id) (orders db) = [order] ->
  unweighed order = true ->
  compute_weights_reachable env = true ->
  delhivery_api_key env = false ->
  let w := ComputeWeights.weights_of db id in
  let awb := "MOCK" +:+ pretty (now env) in
  exists db' : DB,
    handle env db (Some id) = (MockShipment id awb, db', None)
    /\ filter (fun o => order_id o = id) (orders db')
       = [set_shipped awb (ComputeWeights.set_weights w order)]
    /\ set_parcel_awb awb (ComputeWeights.parcel_of id w) ∈ courier_parcels db'
    /\ forall p, p ∈ courier_parcels db' -> cp_order_id p = id ->
                 cp_awb p = Some awb.
Proof.
  intros Hid Hsel Hunw Hreach Hkey w awb.
  pose proof (selected_id _ _ _ Hsel) as Hoid.
  exists (record_awb id awb (ComputeWeights.handle db (Some id)).2).
  split.
  - unfold handle.
    destruct id as [|p|p]; [congruence|..];
      rewrite Hsel, Hunw, Hreach, Hkey; cbn [negb andb];
      (destruct (parcels_of _ _) as [|first rest] eqn:Hp;
       [exfalso; revert Hp; cbn [ComputeWeights.handle snd];
        apply parcels_of_after_weights | reflexivity]).
  - rewrite (WeightProperties.handle_computes db id Hid). cbn [snd].
    fold w.
    cbn [record_awb orders courier_parcels update_order with_orders
         ComputeWeights.with_courier_parcels].
    split; [|split].
    + rewrite !PaymentProperties.filter_map_stable, Hsel.
      * cbn [map]. rewrite Hoid, Z.eqb_refl.
        cbn [order_id ComputeWeights.set_weights].
        rewrite Hoid, Z.eqb_refl. reflexivity.
      * intros o. destruct (order_id o =? id); reflexivity.
      * intros o. destruct (order_id o =? id); reflexivity.
    + rewrite map_app. apply elem_of_app. right. cbn [map cp_order_id
        ComputeWeights.parcel_of]. rewrite Z.eqb_refl. left.
    + intros p Hp Hpid. apply list_elem_of_fmap in Hp as (q & -> & _).
      destruct (Z.eqb_spec (cp_order_id q) id) as [_|Hne];
        [reflexivity | contradiction].
Qed.

Lemma unweighed_order_is_weighed_then_shipped_witness :
  exists db' : DB,
    handle MoreExamples.no_courier_key Examples.weighing_db (Some 1)
    = (MockShipment 1 "MOCK1700000000000", db', None)
    /\ forall p, p ∈ courier_parcels db' -> cp_order_id p = 1 ->
                 cp_awb p = Some "MOCK1700000000000".
Proof.
  destruct (unweighed_order_is_weighed_then_shipped
              MoreExamples.no_courier_key Examples.weighing_db 1
              (Examples.an_order 1 "pending" "pending"))
    as (db' & Hrun & _ & _ & Hall); try reflexivity; [discriminate|].
  exists db'. split; [exact Hrun | exact Hall].
Defined.

Lemma update_order_dispatch (id : Z) (f : Order -> Order) (l : list Order) :
  (forall o, Notions.dispatch_state (f o) = Notions.dispatch_state o) ->
  Notions.dispatch_state <$> map (fun o => if order_id o =? id then f o else o) l
  = Notions.dispatch_state <$> l.
Proof.
  intros Hf. rewrite <- list_fmap_compose. apply list_fmap_ext. intros _ o _.
  simpl. destruct (order_id o =? id); [apply Hf | reflexivity].
Qed.

Lemma weights_keep_dispatch (db : DB) (id : option Z) :
  let db' := (ComputeWeights.handle db id).2 in
  Notions.dispatch_state <$> orders db' = Notions.dispatch_state <$> orders db
  /\ courier_events db' = courier_events db
  /\ forall p, p ∈ courier_parcels db' ->
               p ∈ courier_parcels db \/ cp_awb p = None.
Proof.
  cbv zeta. unfold ComputeWeights.handle.
  destruct id as [[|p|p]|]; cbn [snd orders courier_events courier_parcels
    update_order with_orders ComputeWeights.with_courier_parcels];
    (split; [reflexivity || (apply update_order_dispatch; reflexivity)|]);
    (split; [reflexivity|]); intros q Hq; auto;
    apply elem_of_app in Hq as [Hq|Hq]; auto;
    apply list_elem_of_singleton in Hq as ->; right; reflexivity.
Qed.

(** X17.  A hand-over that fails marks nothing as shipped: whenever
    create-shipment answers with an error (400 or 500) - a missing or unknown
    order id, compute-weights unreachable, no parcels, the courier refusing
    or answering without a waybill - every order has the status, tracking id
    and courier service it had, the audit log is as it was, and no parcel has
    received a tracking id; at most the weights have been written. *)
Theorem failed_shipment_marks_nothing (env : Env) (db : DB) (id : option Z) :
  let out := handle env db id in
  http_status out.1.1 <> 200 ->
  Notions.dispatch_state <$> orders out.1.2
  = Notions.dispatch_state <$> orders db
  /\ courier_events out.1.2 = courier_events db
  /\ forall p, p ∈ courier_parcels out.1.2 ->
               p ∈ courier_parcels db \/ cp_awb p = None.
Proof.
  cbv zeta. unfold handle.
  assert (Hsame : Notions.dispatch_state <$> orders db
                  = Notions.dispatch_state <$> orders db
                  /\ courier_events db = courier_events db
                  /\ forall p, p ∈ courier_parcels db ->
                               p ∈ courier_parcels db \/ cp_awb p = None)
    by (repeat split; auto).
  destruct id as [[|p|p]|]; try (intros _; exact Hsame);
    (destruct (filter _ _) as [|order [|]]; try (intros _; exact Hsame);
     destruct (_ && _); [intros _; exact Hsame|];
     match goal with
     | |- context [parcels_of ?d _] => set (db1 := d)
     end;
     assert (H1 : Notions.dispatch_state <$> orders db1
                  = Notions.dispatch_state <$> orders db
                  /\ courier_events db1 = courier_events db
                  /\ forall p, p ∈ courier_parcels db1 ->
                               p ∈ courier_parcels db \/ cp_awb p = None)
       by (unfold db1; destruct (unweighed order);
           [apply weights_keep_dispatch | exact Hsame]);
     destruct (parcels_of db1 _) as [|first rest]; [intros _; exact H1|];
     destruct (negb _); [cbn [fst snd http_status]; congruence|];
     destruct (courier env) as [|wb data]; [intros _; exact H1|];
     destruct (or_else _ _) as [[|c r]|]; try (intros _; exact H1);
     cbn [fst snd http_status]; congruence).
Qed.

Lemma failed_shipment_marks_nothing_witness :
  let out := handle MoreExamples.courier_refuses Examples.weighing_db (Some 1) in
  out.1.1 = Failed
  /\ Notions.dispatch_state <$> orders out.1.2
     = Notions.dispatch_state <$> orders Examples.weighing_db.
Proof.
  split; [reflexivity|].
  apply (failed_shipment_marks_nothing MoreExamples.courier_refuses
           Examples.weighing_db (Some 1)).
  vm_compute. discriminate.
Defined.

Lemma dispatched_orders (env : Env) (db : DB) (id : Z) (awb : string) :
  Notions.dispatched (handle env db (Some id)).1.1 id awb ->
  exists (order : Order) (g : Order -> Order),
    filter (fun o => order_id o = id) (orders db) = [order]
    /\ (forall o, order_id (g o) = order_id o /\ courier_awb (g o) = courier_awb o)
    /\ orders (handle env db (Some id)).1.2
       = map (fun o => if order_id o =? id then set_shipped awb (g o) else o)
             (orders db)
    /\ awb <> "".
Proof.
  unfold handle, Notions.dispatched.
  destruct id as [|p|p]; [intros [?|?]; discriminate|..];
    (destruct (filter _ _) as [|order [|]]; try (intros [?|?]; discriminate);
     destruct (_ && _); [intros [?|?]; discriminate|];
     intros Hout;
     match type of Hout with
     | context [parcels_of ?d ?i] =>
         set (g := if unweighed order
                   then ComputeWeights.set_weights
                          (ComputeWeights.weights_of db i)
                   else fun o => o);
         exists order, g;
         split; [reflexivity|];
         split; [intros o; unfold g; destruct (unweighed order);
                 split; reflexivity|];
         assert (H1 : orders d
                      = map (fun o => if order_id o =? i then g o else o)
                            (orders db))
           by (unfold g; destruct (unweighed order);
               [reflexivity | apply OrderProperties.update_order_same]);
         assert (H2 : forall a,
                    orders (record_awb i a d)
                    = map (fun o => if order_id o =? i
                                    then set_shipped a (g o) else o)
                          (orders db))
           by (intros a;
               cbn [record_awb orders update_order with_orders
                    ComputeWeights.with_courier_parcels];
               rewrite H1, map_map; apply map_ext; intros o;
               destruct (order_id o =? i) eqn:E; [|rewrite E; reflexivity];
               unfold g; destruct (unweighed order);
               cbn [order_id ComputeWeights.set_weights]; rewrite E;
               reflexivity);
         revert Hout;
         destruct (parcels_of d i) as [|first rest];
           [intros [?|?]; discriminate|];
         destruct (negb _);
           [cbn [fst snd]; intros [Hr|Hr]; [discriminate|];
            injection Hr as <-; split; [apply H2 | discriminate]|];
         destruct (courier env) as [|wb data]; [intros [?|?]; discriminate|];
         destruct (or_else _ _) as [[|c r]|]; try (intros [?|?]; discriminate);
         cbn [fst snd]; intros [Hr|Hr]; [|discriminate];
         injection Hr as <-; split; [apply H2 | discriminate]
     end).
Qed.

(** X18.  The courier webhook finds what create-shipment dispatched: after a
    hand-over that answers with a tracking id (from the courier, or a mock
    one), a courier event carrying that tracking id resolves to the order,
    provided no other order already has the same tracking id; the event is
    then written to the audit log under the order's id. *)
Theorem courier_event_finds_shipped_order (env : Env) (db : DB) (id : Z)
    (awb : string) (payload : DelhiveryPayload) :
  let out := handle env db (Some id) in
  Notions.dispatched out.1.1 id awb ->
  (forall o, o ∈ orders db -> order_id o <> id -> courier_awb o <> Some awb) ->
  or_else (dp_awb payload) (dp_waybill payload) = Some awb ->
  exists (st : option string) (db' : DB),
    DelhiveryWebhook.handle out.1.2 payload
    = (DelhiveryWebhook.Processed id st, db')
    /\ courier_events db'
       = (courier_events out.1.2
          ++ [{| ce_order_id := Some id; ce_courier_name := "delhivery";
                 ce_event_type := DelhiveryWebhook.status_text payload;
                 ce_event_payload := FromDelhivery payload |}])%list.
Proof.
  cbv zeta. intros Hout Hothers Hawb.
  destruct (dispatched_orders env db id awb Hout)
    as (order & g & Hsel & Hg & Horders & Hne).
  pose proof (selected_id _ _ _ Hsel) as Hoid.
  set (db1 := (handle env db (Some id)).1.2) in *.
  assert (Hres : Spec.courier_event_resolves db1 payload
                   (set_shipped awb (g order))).
  { split; rewrite Hawb; [destruct awb; [contradiction | reflexivity]|].
    rewrite Horders.
    rewrite (filter_map_select _ (fun o => order_id o = id)).
    - rewrite Hsel. cbn [map]. rewrite Hoid. now rewrite Z.eqb_refl.
    - intros o Ho. destruct (Z.eqb_spec (order_id o) id) as [He|Hn].
      + split; [intros _; exact He | reflexivity].
      + split; [intros Hc; destruct (Hothers o Ho Hn Hc) | contradiction]. }
  pose proof (CourierProperties.handle_resolved db1 payload _ Hres) as Hrun.
  cbv zeta in Hrun. cbn [order_id set_shipped] in Hrun.
  destruct (Hg order) as [Hgid _]. rewrite Hgid, Hoid in Hrun.
  destruct (DelhiveryWebhook.new_status _) as [s|];
    eexists _, _; (split; [exact Hrun | reflexivity]).
Qed.

Lemma courier_event_finds_shipped_order_witness :
  let out := handle MoreExamples.courier_accepts Examples.weighing_db (Some 1) in
  out.1.1 = Shipped 1 "DL2041"
  /\ exists (st : option string) (db' : DB),
       DelhiveryWebhook.handle out.1.2 (Examples.courier_event "DL2041" "Delivered")
       = (DelhiveryWebhook.Processed 1 st, db').
Proof.
  split; [reflexivity|].
  destruct (courier_event_finds_shipped_order MoreExamples.courier_accepts
              Examples.weighing_db 1 "DL2041"
              (Examples.courier_event "DL2041" "Delivered"))
    as (st & db' & Hrun & _).
  - left. reflexivity.
  - intros o Ho Hn. vm_compute in Ho.
    apply list_elem_of_singleton in Ho as ->. now contradiction Hn.
  - reflexivity.
  - exists st, db'. exact Hrun.
Defined.

End ShipmentProperties.

(** ** Further properties of the conversation engine *)

Module MoreConversationProperties.
Import JS Store Outbound WhatsappWebhook.

(** The runs of the state machine, each closed by [fin]. *)
Ltac machine_runs fin :=
  unfold state_machine;
  repeat match goal with
    | |- context [if String.eqb ?a ?b then _ else _] => destruct (String.eqb a b)
    end;
  unfold await_code, await_class, await_category, await_delivery,
    await_address, await_confirm;
  repeat match goal with
    | |- context [match ?x with _ => _ end] => destruct x
    end; fin.

Ltac stored :=
  rewrite ?ConversationProperties.log_message_refused;
  cbn [whatsapp_messages whatsapp_conversations fst snd saveState
       delete_conversation with_conversations].

(** X19.  The chat webhook logs no inbound message: its insert into
    whatsapp_messages names the column message_sid, which the table does not
    have (and for a payload without a sender it gives a null phone to a
    column that is NOT NULL), so the database refuses the row; the handler
    does not read the answer and goes on.  Whatever the call and the state
    of the conversation, whatsapp_messages is after the call what it was
    before. *)
Theorem chat_messages_are_not_logged (env : Env) (db : DB) (m : Inbound) :
  whatsapp_messages (handle env db m).1 = whatsapp_messages db
  /\ forall (phone : option string) (raw : string),
       insert_whatsapp_message
         ["phone"; "direction"; "message_sid"; "raw_payload"]
         {| wm_phone := phone; wm_direction := "in"; wm_raw_payload := raw |} db
       = None.
Proof.
  split; [|reflexivity].
  unfold handle. destruct m as [raw|from text sid raw].
  { stored. reflexivity. }
  destruct (_ || _); [stored; reflexivity|].
  destruct (String.eqb _ "START"); [stored; reflexivity|].
  machine_runs ltac:(stored; reflexivity).
Qed.

(** X20.  A chat message touches the conversation of its sender only: the
    conversation record kept under any other phone is after the call what it
    was before, and a call without a message object changes none. *)
Theorem other_conversations_are_untouched (env : Env) (db : DB) (m : Inbound)
    (other : string) :
  Notions.sender m <> Some other ->
  whatsapp_conversations (handle env db m).1 !! other
  = whatsapp_conversations db !! other.
Proof.
  unfold handle. destruct m as [raw|from text sid raw]; [reflexivity|].
  cbn [Notions.sender]. intros Hother.
  assert (Hne : normalize_phone from <> other) by congruence.
  destruct (_ || _); [reflexivity|].
  destruct (String.eqb _ "START").
  { stored. now rewrite lookup_delete_ne. }
  machine_runs ltac:(stored;
                     rewrite ?lookup_insert_ne, ?lookup_delete_ne by exact Hne;
                     reflexivity).
Qed.

Lemma other_conversations_are_untouched_witness :
  whatsapp_conversations
    (handle Examples.chat_env Examples.chatting_db
       (Text "+919800000002" "1001" "wamid.3" "{}")).1 !! "919800000001"
  = whatsapp_conversations Examples.chatting_db !! "919800000001".
Proof.
  apply other_conversations_are_untouched. vm_compute. discriminate.
Defined.

Lemma handle_text (env : Env) (db : DB) (from text sid raw : string) :
  from <> "" -> trim text <> "" -> is_start (trim text) = false ->
  handle env db (Text from text sid raw)
  = state_machine env
      (log_message (Some (normalize_phone from)) (non_empty sid) raw db)
      (normalize_phone from)
      (whatsapp_conversations db !! normalize_phone from) (trim text).
Proof.
  intros Hfrom Hbody Hstart. unfold handle.
  apply String.eqb_neq in Hfrom, Hbody. rewrite Hfrom, Hbody. cbn [orb].
  unfold is_start in Hstart. rewrite Hstart. reflexivity.
Qed.

Lemma in_await_delivery (env : Env) (db : DB) (phone body : string)
    (c : Conversation) :
  conv_state c = AWAIT_DELIVERY ->
  state_machine env db phone (Some c) body
  = await_delivery env db phone (Some c) body.
Proof. intros H. unfold state_machine, state_of. rewrite H. reflexivity. Qed.

Lemma in_await_address (env : Env) (db : DB) (phone body : string)
    (c : Conversation) :
  conv_state c = AWAIT_ADDRESS ->
  state_machine env db phone (Some c) body
  = await_address env db phone (Some c) body.
Proof. intros H. unfold state_machine, state_of. rewrite H. reflexivity. Qed.

Lemma in_await_confirm (env : Env) (db : DB) (phone body : string)
    (c : Conversation) :
  conv_state c = AWAIT_CONFIRM ->
  state_machine env db phone (Some c) body
  = await_confirm env db phone (conv_context c) body.
Proof. intros H. unfold state_machine, state_of. rewrite H. reflexivity. Qed.

(** X21.  Home delivery is followed by the address: when a conversation waits
    for the delivery choice, the reply "2" asks for the address, and the next
    message of the sender - any text but START, trimmed - is stored as the
    address; the conversation then waits for CONFIRM with delivery type
    "home" and that address, and every other key of its context as it
    was. *)
Theorem home_delivery_collects_the_address (env env' : Env) (db : DB)
    (from sid raw address sid' raw' : string) (conv : Conversation) :
  from <> "" ->
  whatsapp_conversations db !! normalize_phone from = Some conv ->
  conv_state conv = AWAIT_DELIVERY ->
  trim address <> "" ->
  is_start (trim address) = false ->
  let phone := normalize_phone from in
  let first := handle env db (Text from "2" sid raw) in
  let second := handle env' first.1 (Text from address sid' raw') in
  first.2 = [SendWhatsApp phone AskAddress]
  /\ second.2 = [SendWhatsApp phone AskConfirm]
  /\ exists c : Conversation,
       whatsapp_conversations second.1 !! phone = Some c
       /\ conv_state c = AWAIT_CONFIRM
       /\ conv_context c !! "delivery_type" = Some (JStr "home")
       /\ conv_context c !! "address" = Some (JStr (trim address))
       /\ forall k, k <> "delivery_type" -> k <> "address" ->
                    conv_context c !! k = conv_context conv !! k.
Proof.
  intros Hfrom Hconv Hstate Haddr Hstart phone.
  assert (H1 : handle env db (Text from "2" sid raw)
               = await_delivery env
                   (log_message (Some phone) (non_empty sid) raw db)
                   phone (Some conv) "2").
  { rewrite (handle_text env db from "2" sid raw Hfrom)
      by (reflexivity || discriminate).
    rewrite Hconv. apply in_await_delivery, Hstate. }
  cbv zeta. rewrite H1. unfold await_delivery.
  cbn [String.eqb Ascii.eqb Bool.eqb negb andb fst snd].
  split; [reflexivity|].
  rewrite (handle_text env' _ from address sid' raw' Hfrom Haddr Hstart).
  fold phone.
  set (c1 := {| conv_state := AWAIT_ADDRESS;
                conv_context :=
                  {["delivery_type" := JStr "home"]} ∪ conv_context conv;
                conv_last_message_at := now env |}).
  assert (Hl : forall d,
             whatsapp_conversations
               (saveState env phone (Some conv) AWAIT_ADDRESS
                  {["delivery_type" := JStr "home"]} d) !! phone = Some c1).
  { intros d. unfold saveState.
    cbn [whatsapp_conversations with_conversations].
    apply lookup_insert_eq. }
  rewrite Hl, in_await_address by reflexivity.
  unfold await_address. cbn [fst snd]. split; [reflexivity|].
  unfold saveState at 1. cbn [whatsapp_conversations with_conversations].
  rewrite lookup_insert_eq. eexists. split; [reflexivity|].
  cbn [conv_state conv_context from_option c1].
  split; [reflexivity|]. split; [|split].
  - rewrite lookup_union_r by (now rewrite lookup_singleton_ne).
    apply lookup_union_Some_l. now rewrite lookup_singleton_eq.
  - apply lookup_union_Some_l. now rewrite lookup_singleton_eq.
  - intros k Hk1 Hk2.
    rewrite lookup_union_r by (rewrite lookup_singleton_ne; congruence).
    rewrite lookup_union_r by (rewrite lookup_singleton_ne; congruence).
    reflexivity.
Qed.

Lemma home_delivery_collects_the_address_witness :
  let first :=
    handle Examples.chat_env MoreExamples.delivery_db
      (Text "+919800000001" "2" "wamid.4" "{}") in
  let second :=
    handle Examples.chat_env first.1
      (Text "+919800000001" " 12 Hill Road " "wamid.5" "{}") in
  exists c : Conversation,
    whatsapp_conversations second.1 !! "919800000001" = Some c
    /\ conv_state c = AWAIT_CONFIRM
    /\ conv_context c !! "address" = Some (JStr "12 Hill Road").
Proof.
  destruct (home_delivery_collects_the_address Examples.chat_env
              Examples.chat_env MoreExamples.delivery_db
              "+919800000001" "wamid.4" "{}" " 12 Hill Road " "wamid.5" "{}"
              {| conv_state := "AWAIT_DELIVERY";
                 conv_context :=
                   list_to_map
                     [("school_code", JStr "1001"); ("class_id", JNum 1);
                      ("category", JStr "books");
                      ("items", JArr [JObj [("id", JNum 1)]])];
                 conv_last_message_at := 0 |})
    as (_ & _ & c & Hc & Hst & _ & Ha & _);
    try reflexivity; try discriminate.
  exists c. split; [exact Hc|]. split; [exact Hst | exact Ha].
Defined.

Ltac no_call H :=
  cbn [snd] in H;
  repeat (apply elem_of_cons in H as [H|H]; [discriminate H|]);
  now apply elem_of_nil in H.

(** Only the block of AWAIT_CONFIRM calls create-order. *)
Lemma call_comes_from_confirm (env : Env) (db : DB) (phone : string)
    (conversation : option Conversation) (body : string) (b : JVal) :
  PostCreateOrder b ∈ (state_machine env db phone conversation body).2 ->
  PostCreateOrder b
    ∈ (await_confirm env db phone (context_of conversation) body).2.
Proof.
  unfold state_machine.
  destruct (String.eqb _ AWAIT_CODE).
  { unfold await_code. intros H.
    repeat match type of H with
      | context [match ?x with _ => _ end] => destruct x
      end; no_call H. }
  destruct (String.eqb _ AWAIT_CLASS).
  { unfold await_class. intros H.
    repeat match type of H with
      | context [match ?x with _ => _ end] => destruct x
      end; no_call H. }
  destruct (String.eqb _ AWAIT_CATEGORY).
  { unfold await_category. intros H.
    repeat match type of H with
      | context [match ?x with _ => _ end] => destruct x
      end; no_call H. }
  destruct (String.eqb _ AWAIT_DELIVERY).
  { unfold await_delivery. intros H.
    repeat match type of H with
      | context [match ?x with _ => _ end] => destruct x
      end; no_call H. }
  destruct (String.eqb _ AWAIT_ADDRESS).
  { unfold await_address. intros H. no_call H. }
  destruct (String.eqb _ AWAIT_CONFIRM); [auto|].
  intros H. no_call H.
Qed.

(** The request of the block of AWAIT_CONFIRM. *)
Lemma confirm_call (env : Env) (db : DB) (phone : string) (context : Context)
    (body : string) (b : JVal) :
  PostCreateOrder b ∈ (await_confirm env db phone context body).2 ->
  toUpperCase body = "CONFIRM"
  /\ exists (x : JVal) (items : list JVal),
       safeItems context = Some (x :: items)
       /\ b = JObj [("school_code", field "school_code" context);
                    ("class_id", field "class_id" context);
                    ("category", field "category" context);
                    ("items", JArr (x :: items));
                    ("delivery_type", field "delivery_type" context);
                    ("parent_phone", JStr phone);
                    ("parent_name", field "parent_name" context);
                    ("address", field "address" context)].
Proof.
  unfold await_confirm.
  destruct (String.eqb_spec (toUpperCase body) "CONFIRM") as [Hup|_];
    [|intros H; no_call H].
  cbn [negb]. destruct (js_truthy _); cbn [negb]; [|intros H; no_call H].
  destruct (safeItems context) as [[|x items]|]; try (intros H; no_call H).
  intros H. split; [exact Hup|]. exists x, items. split; [reflexivity|].
  destruct (create_order_reply env); cbn [snd] in H;
    apply elem_of_cons in H as [H|H]; try (now injection H);
    no_call H.
Qed.

Lemma safeItems_spec (context : Context) (items : list JVal) :
  safeItems context = Some items ->
  (length items <= 3)%nat
  /\ Forall (fun it => prop "qty" it = JNum 1) items.
Proof.
  unfold safeItems.
  destruct (field "items" context) as [| | | |l|];
    try (destruct (js_truthy _); [discriminate|];
         intros H; injection H as <-; split; [simpl; lia | constructor]).
  destruct (existsb _ _); [discriminate|].
  intros H. injection H as <-. split.
  - rewrite length_fmap, length_take. lia.
  - apply Forall_fmap, Forall_forall. intros it _. reflexivity.
Qed.

(** X22.  An order placed from the chat has at most three lines, each of
    quantity 1, and is in the sender's name: every create-order request the
    chat webhook sends carries between one and three items, every one with
    qty 1, and as parent_phone the normalised phone of the sender. *)
Theorem chat_order_has_at_most_three_lines (env : Env) (db : DB) (m : Inbound)
    (b : JVal) :
  PostCreateOrder b ∈ (handle env db m).2 ->
  exists (phone : string) (items : list JVal),
    Notions.sender m = Some phone
    /\ prop "parent_phone" b = JStr phone
    /\ prop "items" b = JArr items
    /\ (1 <= length items <= 3)%nat
    /\ Forall (fun it => prop "qty" it = JNum 1) items.
Proof.
  unfold handle. destruct m as [raw|from text sid raw]; [intros H; no_call H|].
  destruct (_ || _); [intros H; no_call H|].
  destruct (String.eqb _ "START"); [intros H; no_call H|].
  intros H. apply call_comes_from_confirm, confirm_call in H
    as (_ & x & items & Hsafe & ->).
  destruct (safeItems_spec _ _ Hsafe) as [Hlen Hqty].
  exists (normalize_phone from), (x :: items).
  split; [reflexivity|]. split; [reflexivity|]. split; [reflexivity|].
  split; [simpl in *; lia | exact Hqty].
Qed.

Lemma chat_order_has_at_most_three_lines_witness :
  exists items : list JVal,
    prop "items"
      (JObj [("school_code", JStr "1001"); ("class_id", JNum 1);
             ("category", JStr "books");
             ("items",
              JArr [JObj [("item_id", JNum 1); ("qty", JNum 1)];
                    JObj [("item_id", JNum 2); ("qty", JNum 1)];
                    JObj [("item_id", JNum 3); ("qty", JNum 1)]]);
             ("delivery_type", JStr "school");
             ("parent_phone", JStr "919800000001");
             ("parent_name", JNull); ("address", JNull)])
    = JArr items
    /\ (1 <= length items <= 3)%nat.
Proof.
  destruct (chat_order_has_at_most_three_lines MoreExamples.order_placed
              MoreExamples.confirming_db
              (Text "+919800000001" "confirm" "wamid.6" "{}")
              (JObj [("school_code", JStr "1001"); ("class_id", JNum 1);
                     ("category", JStr "books");
                     ("items",
                      JArr [JObj [("item_id", JNum 1); ("qty", JNum 1)];
                            JObj [("item_id", JNum 2); ("qty", JNum 1)];
                            JObj [("item_id", JNum 3); ("qty", JNum 1)]]);
                     ("delivery_type", JStr "school");
                     ("parent_phone", JStr "919800000001");
                     ("parent_name", JNull); ("address", JNull)]))
    as (phone & items & _ & _ & Hitems & Hlen & _).
  - vm_compute. left.
  - exists items. split; [exact Hitems | exact Hlen].
Defined.

Lemma confirm_is_no_code (a : ascii) (r : string) :
  is_digit a = true -> toUpperCase (String a r) <> "CONFIRM".
Proof.
  destruct a as [[] [] [] [] [] [] [] []]; try discriminate; intros _;
    cbn; discriminate.
Qed.

Lemma confirm_is_not_four_digits (body : string) :
  toUpperCase body = "CONFIRM" -> four_digits body = false.
Proof.
  intros Hup. destruct body as [|a r]; [reflexivity|].
  destruct (is_digit a) eqn:Ha.
  - now destruct (confirm_is_no_code a r Ha).
  - unfold four_digits. rewrite Ha.
    destruct r as [|b [|c [|d [|e r]]]]; reflexivity.
Qed.

(** X23.  A confirmed order is placed once: when CONFIRM leads to a
    create-order request and create-order answers with an order, the sender
    is told the order number and total and the conversation is deleted, so a
    repeated CONFIRM is read as a school code, is answered with the request
    for the code and sends no second create-order request. *)
Theorem confirmed_order_is_placed_once (env env' : Env) (db : DB)
    (from text sid raw text' sid' raw' : string) (b : JVal)
    (id total : Z) (link : option string) :
  create_order_reply env = Ok id total link ->
  PostCreateOrder b ∈ (handle env db (Text from text sid raw)).2 ->
  toUpperCase (trim text') = "CONFIRM" ->
  let phone := normalize_phone from in
  let first := handle env db (Text from text sid raw) in
  let second := handle env' first.1 (Text from text' sid' raw') in
  first.2 = [PostCreateOrder b;
             SendWhatsApp phone
               (OrderCreated id total (if truthy link then link else None))]
  /\ whatsapp_conversations first.1 !! phone = None
  /\ second.2 = [SendWhatsApp phone AskCode]
  /\ whatsapp_conversations second.1 !! phone = None.
Proof.
  intros Hreply Hcall Hup phone. cbv zeta.
  assert (Hfirst : exists d,
             handle env db (Text from text sid raw)
             = (delete_conversation phone d,
                [PostCreateOrder b;
                 SendWhatsApp phone
                   (OrderCreated id total
                      (if truthy link then link else None))])).
  { revert Hcall. unfold handle.
    destruct (String.eqb from "" || String.eqb (trim text) "");
      [intros H; no_call H|].
    destruct (String.eqb _ "START"); [intros H; no_call H|].
    fold phone. intros H.
    pose proof (call_comes_from_confirm _ _ _ _ _ _ H) as Hc.
    destruct (confirm_call _ _ _ _ _ _ Hc) as (Hconfirm & x & items & Hsafe & ->).
    revert H. unfold state_machine.
    destruct (String.eqb _ AWAIT_CODE).
    { unfold await_code. intros H.
      repeat match type of H with
        | context [match ?x with _ => _ end] => destruct x
        end; no_call H. }
    destruct (String.eqb _ AWAIT_CLASS).
    { unfold await_class. intros H.
      repeat match type of H with
        | context [match ?x with _ => _ end] => destruct x
        end; no_call H. }
    destruct (String.eqb _ AWAIT_CATEGORY).
    { unfold await_category. intros H.
      repeat match type of H with
        | context [match ?x with _ => _ end] => destruct x
        end; no_call H. }
    destruct (String.eqb _ AWAIT_DELIVERY).
    { unfold await_delivery. intros H.
      repeat match type of H with
        | context [match ?x with _ => _ end] => destruct x
        end; no_call H. }
    destruct (String.eqb _ AWAIT_ADDRESS).
    { unfold await_address. intros H. no_call H. }
    destruct (String.eqb _ AWAIT_CONFIRM); [|intros H; no_call H].
    unfold await_confirm. rewrite Hconfirm. cbn [String.eqb Ascii.eqb Bool.eqb negb].
    destruct (js_truthy _); cbn [negb]; [|intros H; no_call H].
    rewrite Hsafe, Hreply. intros _. eexists. reflexivity. }
  destruct Hfirst as [d ->]. cbn [fst snd].
  split; [reflexivity|].
  assert (Hgone : whatsapp_conversations (delete_conversation phone d) !! phone
                  = None).
  { cbn [delete_conversation whatsapp_conversations with_conversations].
    apply lookup_delete_eq. }
  split; [exact Hgone|].
  assert (Hfrom : from <> "").
  { intros ->. revert Hcall. unfold handle. cbn [String.eqb orb].
    intros H. no_call H. }
  rewrite (handle_text env' _ from text' sid' raw' Hfrom).
  - fold phone. rewrite Hgone. unfold state_machine, state_of.
    cbn [String.eqb Ascii.eqb Bool.eqb AWAIT_CODE]. unfold await_code.
    rewrite (confirm_is_not_four_digits _ Hup). cbn [negb fst snd].
    split; [reflexivity|].
    cbn [whatsapp_conversations log_message]. exact Hgone.
  - intros He. rewrite He in Hup. discriminate Hup.
  - unfold is_start. rewrite Hup. reflexivity.
Qed.

Lemma confirmed_order_is_placed_once_witness :
  let first :=
    handle MoreExamples.order_placed MoreExamples.confirming_db
      (Text "+919800000001" "confirm" "wamid.6" "{}") in
  let second :=
    handle MoreExamples.order_placed first.1
      (Text "+919800000001" "CONFIRM" "wamid.7" "{}") in
  whatsapp_conversations first.1 !! "919800000001" = None
  /\ second.2 = [SendWhatsApp "919800000001" AskCode].
Proof.
  destruct (confirmed_order_is_placed_once MoreExamples.order_placed
              MoreExamples.order_placed MoreExamples.confirming_db
              "+919800000001" "confirm" "wamid.6" "{}" "CONFIRM" "wamid.7" "{}"
              (JObj [("school_code", JStr "1001"); ("class_id", JNum 1);
                     ("category", JStr "books");
                     ("items",
                      JArr [JObj [("item_id", JNum 1); ("qty", JNum 1)];
                            JObj [("item_id", JNum 2); ("qty", JNum 1)];
                            JObj [("item_id", JNum 3); ("qty", JNum 1)]]);
                     ("delivery_type", JStr "school");
                     ("parent_phone", JStr "919800000001");
                     ("parent_name", JNull); ("address", JNull)])
              7 29000 (Some "https://rzp.io/i/7"))
    as (_ & Hgone & Hsecond & _).
  - reflexivity.
  - vm_compute. left.
  - reflexivity.
  - split; [exact Hgone | exact Hsecond].
Defined.

End MoreConversationProperties.

(** ** Properties of the verification request, the school codes and the
    report *)

Module PanelProperties.
Import JS Store.

(** X24.  The verification request of the chat provider is answered with the
    challenge exactly when the mode is "subscribe", the challenge is not
    empty and the token sent is the configured one and not empty; so with no
    verify token configured, or an empty one, every verification request is
    refused. *)
Theorem verification_needs_the_configured_token
    (verify_token mode token challenge : option string) (c : string) :
  Verification.handle verify_token mode token challenge = Verification.Challenge c
  <-> mode = Some "subscribe" /\ token = verify_token
      /\ truthy verify_token = true /\ truthy challenge = true
      /\ challenge = Some c.
Proof.
  unfold Verification.handle. split.
  - destruct (bool_decide_reflect (mode = Some "subscribe")) as [Hm|_];
      [|discriminate].
    destruct (truthy token) eqn:Ht; [|discriminate].
    destruct (truthy challenge) eqn:Hc; [|discriminate].
    destruct (bool_decide_reflect (token = verify_token)) as [He|_];
      [|discriminate].
    cbn [andb]. intros H. injection H as <-. subst token.
    destruct challenge as [ch|]; [|discriminate Hc]. repeat split; auto.
  - intros (-> & -> & Ht & Hc & ->).
    rewrite Ht, Hc, !bool_decide_eq_true_2 by reflexivity. reflexivity.
Qed.

Lemma verification_needs_the_configured_token_witness :
  Verification.handle (Some "s3cret") (Some "subscribe") (Some "s3cret")
    (Some "1158201444")
  = Verification.Challenge "1158201444".
Proof. apply verification_needs_the_configured_token. repeat split. Defined.

Lemma four_digits_of_range :
  forallb (fun n => four_digits (pretty n)) (seqZ 1000 9000) = true.
Proof. vm_compute. reflexivity. Qed.

(** X25.  Every generated school code is a code the chat accepts: for every
    value of Math.random, which is at least 0 and below 1, generateSchoolCode
    gives the decimal form of a number from 1000 to 9999, and it passes the
    four-digit test the conversation applies to a school code. *)
Theorem generated_school_code_has_four_digits (random : Q) :
  (0 <= random)%Q -> (random < 1)%Q ->
  exists n : Z,
    Utils.generateSchoolCode random = pretty n
    /\ 1000 <= n <= 9999
    /\ four_digits (Utils.generateSchoolCode random) = true.
Proof.
  intros Hlo Hhi. unfold Utils.generateSchoolCode.
  set (n := Qfloor (1000 + random * 9000)).
  assert (Hn : 1000 <= n <= 9999).
  { pose proof (Qfloor_le (1000 + random * 9000)) as Hle.
    pose proof (Qlt_floor (1000 + random * 9000)) as Hlt.
    fold n in Hle, Hlt.
    destruct (Z_lt_le_dec n 1000) as [Hsmall|Hge].
    - exfalso. assert (Hz : n + 1 <= 1000) by lia.
      rewrite Zle_Qle in Hz. revert Hlt Hz.
      generalize (inject_Z (n + 1)). intros q Hlt Hz.
      change (inject_Z 1000) with 1000%Q in Hz. lra.
    - split; [exact Hge|].
      destruct (Z_lt_le_dec n 10000) as [Hok|Hbig]; [lia|exfalso].
      rewrite Zle_Qle in Hbig. revert Hle Hbig.
      generalize (inject_Z n). intros q Hle Hbig.
      change (inject_Z 10000) with 10000%Q in Hbig. lra. }
  exists n. split; [reflexivity|]. split; [exact Hn|].
  pose proof four_digits_of_range as Hall.
  rewrite forallb_forall in Hall. apply Hall.
  apply list_elem_of_In, elem_of_seqZ. lia.
Qed.

Lemma generated_school_code_has_four_digits_witness :
  exists n : Z,
    Utils.generateSchoolCode (1 # 2) = pretty n /\ 1000 <= n <= 9999.
Proof.
  destruct (generated_school_code_has_four_digits (1 # 2))
    as (n & Hn & Hr & _); [discriminate | reflexivity|].
  exists n. split; [exact Hn | exact Hr].
Defined.

Lemma count_by_from (key : Order -> string) (l : list Order)
    (counts : gmap string nat) (k : string) :
  default 0%nat
    (foldl (fun counts o =>
              <[key o := (default 0 (counts !! key o) + 1)%nat]> counts)
           counts l !! k)
  = (default 0%nat (counts !! k) + length (filter (fun o => key o = k) l))%nat.
Proof.
  revert counts. induction l as [|o l IH]; intros counts.
  - simpl. lia.
  - cbn [foldl]. rewrite IH, filter_cons.
    destruct (decide (key o = k)) as [->|Hne].
    + rewrite lookup_insert_eq. simpl. lia.
    + rewrite lookup_insert_ne by exact Hne. lia.
Qed.

(** X26.  The report is consistent with itself: the number of completed
    orders it shows is the count it shows under the status "delivered" (0
    when that status is not listed), and for every status the count listed is
    the number of orders with that status. *)
Theorem completed_orders_match_status_counts (orders : list Order) :
  Analytics.completedOrders orders
  = default 0%nat (Analytics.count_by status orders !! "delivered")
  /\ forall s,
       default 0%nat (Analytics.count_by status orders !! s)
       = length (filter (fun o => status o = s) orders).
Proof.
  unfold Analytics.completedOrders, Analytics.count_by.
  split; [|intros s]; rewrite count_by_from, lookup_empty; reflexivity.
Qed.

End PanelProperties.
